(** * The Android container client (src/resources/client.js)

    A shallow embedding of the browser client of the Android container
    module: the module object [window.ANDROID_CLIENT], the part of the
    browser it drives (timers, DOM elements, the editor, AJAX requests) and
    the JavaScript data it handles, followed by the properties of the
    polling protocol.  The worker is not part of the sources at hand; its
    result store is modelled from the specification in [Module Worker]. *)

From Stdlib Require Import ZArith Lia Bool List Ascii String.
From Stdlib Require Import DecimalString DecimalN SpecFloat.
From stdpp Require Import base option gmap.
Import ListNotations.

Local Open Scope string_scope.
Local Open Scope Z_scope.

(* ===================================================================== *)
(** * JavaScript values *)
(* ===================================================================== *)

(** The values that reach the client: the result of [JSON.parse] on a
    response body, or [undefined].  A Number is carried as the text that
    [Number::toString] gives for it (["0"] for both zeros), which is all
    the client ever does with a number found in a response: test it for
    truthiness or concatenate it into a string.  Strings are sequences of
    character codes. *)
#[warnings="-register-all"]
Inductive jsval : Type :=
| VUndefined
| VNull
| VBool (b : bool)
| VNum (text : string)
| VStr (s : string)
| VArr (items : list jsval)
| VObj (fields : list (string * jsval)).

Module JS.

(** [ToBoolean]. *)
Definition truthy (v : jsval) : bool :=
  match v with
  | VUndefined | VNull => false
  | VBool b => b
  | VNum t => negb (String.eqb t "0" || String.eqb t "NaN")
  | VStr s => negb (String.eqb s "")
  | VArr _ | VObj _ => true
  end.

(** [Array.prototype.join] with separator [","] over already converted
    elements. *)
Fixpoint join (l : list string) : string :=
  match l with
  | [] => ""
  | [x] => x
  | x :: rest => x ++ "," ++ join rest
  end.

(** [ToString].  An array prints its elements separated by commas, with
    [null] and [undefined] elements printed as nothing; a plain object
    prints as ["[object Object]"]. *)
Fixpoint tostr (v : jsval) : string :=
  match v with
  | VUndefined => "undefined"
  | VNull => "null"
  | VBool true => "true"
  | VBool false => "false"
  | VNum t => t
  | VStr s => s
  | VArr items =>
      join (List.map (fun x => match x with
                               | VUndefined | VNull => ""
                               | _ => tostr x
                               end) items)
  | VObj _ => "[object Object]"
  end.

(** [v === s] for a string literal [s]. *)
Definition strict_eq_str (v : jsval) (s : string) : bool :=
  match v with
  | VStr t => String.eqb t s
  | _ => false
  end.

(** Own property of an object parsed from JSON. *)
Fixpoint assoc (k : string) (fields : list (string * jsval)) : jsval :=
  match fields with
  | [] => VUndefined
  | (k', v) :: rest => if String.eqb k k' then v else assoc k rest
  end.

(** [v.k] for the property names the client reads ([payload], [status],
    [ticket]): [None] is the TypeError raised on [undefined] and [null];
    primitives and arrays have no such property. *)
Definition prop (v : jsval) (k : string) : option jsval :=
  match v with
  | VUndefined | VNull => None
  | VObj fields => Some (assoc k fields)
  | _ => Some VUndefined
  end.

Definition keys (v : jsval) : list string :=
  match v with
  | VObj fields => List.map fst fields
  | _ => []
  end.

End JS.

(* ===================================================================== *)
(** * Numbers: the binary64 arithmetic of [_getDeltaSeconds] *)
(* ===================================================================== *)

(** A finite double is [mant * 2^expo].  The exponent range of binary64 is
    not modelled: the quantities computed by the client are quotients of
    time differences, far from overflow and underflow. *)
Record double : Type := Dbl { mant : Z; expo : Z }.

Module Double.

Definition zero : double := Dbl 0 0.

(** Round to nearest, ties to even, of [num / den] to an integer
    ([0 <= num], [0 < den]). *)
Definition round_half_even (num den : Z) : Z :=
  let q := num / den in
  let r := num mod den in
  match 2 * r ?= den with
  | Lt => q
  | Gt => q + 1
  | Eq => if Z.even q then q else q + 1
  end.

(** The exponent of the unit in the last place of [p / d]: the [e] with
    [2^52 <= p / (d * 2^e) < 2^53]. *)
Definition ulp_exp (p d : Z) : Z :=
  let e0 := Z.log2 p - Z.log2 d - 53 in
  if e0 <? 0
  then (if 2 ^ 53 * d <=? p * 2 ^ (- e0) then e0 + 1 else e0)
  else (if 2 ^ 53 * (d * 2 ^ e0) <=? p then e0 + 1 else e0).

(** The double nearest to [p / d] for [0 < p], [0 < d]. *)
Definition rn_pos (p d : Z) : double :=
  let e := ulp_exp p d in
  if e <? 0
  then Dbl (round_half_even (p * 2 ^ (- e)) d) e
  else Dbl (round_half_even p (d * 2 ^ e)) e.

(** The double nearest to the rational [p / d], [0 < d]: what an
    arithmetic operation returns whose exact result is [p / d]. *)
Definition rn (p d : Z) : double :=
  match p with
  | 0 => zero
  | Z.pos _ => rn_pos p d
  | Z.neg _ => let x := rn_pos (- p) d in Dbl (- mant x) (expo x)
  end.

(** [x - y] on integers held in doubles (time values). *)
Definition sub_int (x y : Z) : double := rn (x - y) 1.

(** [x / k] for a positive integer constant [k]. *)
Definition div_int (x : double) (k : Z) : double :=
  if expo x <? 0
  then rn (mant x) (k * 2 ^ (- expo x))
  else rn (mant x * 2 ^ expo x) k.

(** [x > k] for an integer [k]. *)
Definition gtb_int (x : double) (k : Z) : bool :=
  if expo x <? 0
  then k * 2 ^ (- expo x) <? mant x
  else k <? mant x * 2 ^ expo x.

(** The canonical binary64 representation, for comparison with the
    standard library's specification of IEEE 754 arithmetic. *)
Definition to_spec (x : double) : spec_float :=
  match mant x with
  | 0 => S754_zero false
  | Z.pos m =>
      if Z.pos m =? 2 ^ 53 then S754_finite false (2 ^ 52)%positive (expo x + 1)
      else S754_finite false m (expo x)
  | Z.neg m =>
      if Z.pos m =? 2 ^ 53 then S754_finite true (2 ^ 52)%positive (expo x + 1)
      else S754_finite true m (expo x)
  end.

Definition of_int_spec (z : Z) : spec_float := binary_normalize 53 1024 z 0 false.

(** [Number.prototype.toFixed(1)] of a double below 10^21: the sign, then
    the integer [n] for which [n / 10 - |x|] is closest to zero (the
    larger one on a tie), printed with one digit after the point. *)
Definition tenths (x : double) : Z :=
  let m := Z.abs (mant x) in
  if expo x <? 0
  then (20 * m + 2 ^ (- expo x)) / 2 ^ (- expo x + 1)
  else 10 * (m * 2 ^ expo x).

Definition digits (n : Z) : string :=
  NilZero.string_of_uint (N.to_uint (Z.to_N n)).

Definition toFixed1 (x : double) : string :=
  let n := tenths x in
  (if mant x <? 0 then "-" else "") ++ digits (n / 10) ++ "." ++ digits (n mod 10).

(** [StringToNumber] on decimal literals without exponent: an optional
    sign, digits, and an optional point followed by digits.  [None] is
    NaN.  The empty string is 0. *)
Fixpoint split_point (s : string) : string * option string :=
  match s with
  | "" => ("", None)
  | String c t =>
      if Ascii.eqb c "." then ("", Some t)
      else let (a, b) := split_point t in (String c a, b)
  end.

Definition of_unsigned (s : string) : option (Z * Z) :=
  let (ip, fp) := split_point s in
  let fp' := match fp with Some f => f | None => "" end in
  match NilEmpty.uint_of_string ip, NilEmpty.uint_of_string fp' with
  | Some i, Some f =>
      if String.eqb ip "" && String.eqb fp' "" then None
      else
        let k := 10 ^ Z.of_nat (String.length fp') in
        Some (Z.of_N (N.of_uint i) * k + Z.of_N (N.of_uint f), k)
  | _, _ => None
  end.

Definition of_string (s : string) : option double :=
  match s with
  | "" => Some zero
  | String c t =>
      if Ascii.eqb c "-"
      then match of_unsigned t with
           | Some (p, d) => Some (rn (- p) d)
           | None => None
           end
      else match of_unsigned (if Ascii.eqb c "+" then t else s) with
           | Some (p, d) => Some (rn p d)
           | None => None
           end
  end.

End Double.

(** What [_getDeltaSeconds] returns: the Number [0], or the text made by
    [toFixed(1)]. *)
Inductive seconds : Type :=
| SecZero
| SecText (s : string).

Module Seconds.

(** [ToString], for concatenation into the status line. *)
Definition tostr (d : seconds) : string :=
  match d with
  | SecZero => "0"
  | SecText s => s
  end.

(** [d > k] for an integer [k]: a string operand is converted with
    [StringToNumber], and every comparison with NaN is false. *)
Definition gtb (d : seconds) (k : Z) : bool :=
  match d with
  | SecZero => Double.gtb_int Double.zero k
  | SecText s =>
      match Double.of_string s with
      | Some x => Double.gtb_int x k
      | None => false
      end
  end.

End Seconds.

(* ===================================================================== *)
(** * Regular expressions: the engine behind [String.prototype.replace] *)
(* ===================================================================== *)

Module Regex.

(** The pattern syntax used by the client: characters, negated classes,
    sequence, alternation, the greedy [?] and capturing groups. *)
Inductive regex : Type :=
| Eps
| Chr (c : ascii)
| NotIn (cs : list ascii)
| Seq (r1 r2 : regex)
| Alt (r1 r2 : regex)
| Opt (r : regex)
| Group (n : nat) (r : regex).

(** Captured substrings, most recent first. *)
Definition captures : Type := list (nat * string).

Fixpoint take (n : nat) (s : string) : string :=
  match n, s with
  | S m, String c t => String c (take m t)
  | _, _ => ""
  end.

(** The text consumed between input [s] and its suffix [rest]. *)
Definition consumed (s rest : string) : string :=
  take (String.length s - String.length rest) s.

(** Backtracking matcher in continuation style: [exec r s caps k] matches
    [r] at the start of [s] and hands the remaining input to [k]; when
    [k] fails the next alternative of [r] is tried, in the order of the
    ECMAScript pattern semantics. *)
Fixpoint exec {A : Type} (r : regex) (s : string) (caps : captures)
    (k : string -> captures -> option A) : option A :=
  match r with
  | Eps => k s caps
  | Chr c =>
      match s with
      | String c' t => if Ascii.eqb c c' then k t caps else None
      | "" => None
      end
  | NotIn cs =>
      match s with
      | String c' t => if existsb (Ascii.eqb c') cs then None else k t caps
      | "" => None
      end
  | Seq r1 r2 => exec r1 s caps (fun s' caps' => exec r2 s' caps' k)
  | Alt r1 r2 =>
      match exec r1 s caps k with
      | Some x => Some x
      | None => exec r2 s caps k
      end
  | Opt r1 =>
      match exec r1 s caps
              (fun s' caps' =>
                 if Nat.eqb (String.length s') (String.length s) then None
                 else k s' caps') with
      | Some x => Some x
      | None => k s caps
      end
  | Group n r1 =>
      exec r1 s caps (fun s' caps' => k s' ((n, consumed s s') :: caps'))
  end.

(** A match anchored at the start of [s]: the rest of the input and the
    captures. *)
Definition match_at (r : regex) (s : string) : option (string * captures) :=
  exec r s [] (fun rest caps => Some (rest, caps)).

Fixpoint capture (n : nat) (caps : captures) : string :=
  match caps with
  | [] => ""
  | (m, t) :: rest => if Nat.eqb n m then t else capture n rest
  end.

(** A replacement text, split at its [$n] references. *)
Inductive token : Type :=
| Lit (s : string)
| Ref (n : nat).

Fixpoint substitute (tpl : list token) (caps : captures) : string :=
  match tpl with
  | [] => ""
  | Lit s :: rest => s ++ substitute rest caps
  | Ref n :: rest => capture n caps ++ substitute rest caps
  end.

(** [s.replace(/r/g, tpl)]: scan left to right; at each position not
    inside the previous match try the pattern; a match is replaced and
    the scan resumes behind it (one character further after an empty
    match); an unmatched character is copied.  [skip] counts the
    characters of the current match still to be passed over. *)
Fixpoint replace_from (r : regex) (tpl : list token) (s : string) (skip : nat)
    : string :=
  match skip with
  | S n =>
      match s with
      | "" => ""
      | String _ t => replace_from r tpl t n
      end
  | O =>
      match match_at r s with
      | Some (rest, caps) =>
          substitute tpl caps ++
          match s with
          | "" => ""
          | String c t =>
              match (String.length s - String.length rest)%nat with
              | O => String c (replace_from r tpl t 0)
              | S n => replace_from r tpl t n
              end
          end
      | None =>
          match s with
          | "" => ""
          | String c t => String c (replace_from r tpl t 0)
          end
      end
  end.

Definition replace_all (r : regex) (tpl : list token) (s : string) : string :=
  replace_from r tpl s 0.

End Regex.

(* ===================================================================== *)
(** * Strings: the [String.prototype] methods the client calls *)
(* ===================================================================== *)

Module Str.

Definition CR : ascii := "013"%char.
Definition LF : ascii := "010"%char.
Definition dquote : ascii := "034"%char.
Definition backslash : ascii := "092"%char.

(** [s.split(c)] for a one-character separator: always at least one
    piece. *)
Fixpoint split (c : ascii) (s : string) : list string :=
  match s with
  | "" => [""]
  | String a t =>
      match split c t with
      | [] => [String a ""]
      | piece :: rest =>
          if Ascii.eqb a c then "" :: piece :: rest
          else String a piece :: rest
      end
  end.

(** [s.substr(n)] and [s.slice(n)] for [0 <= n]. *)
Fixpoint drop (n : nat) (s : string) : string :=
  match n, s with
  | S m, String _ t => drop m t
  | _, _ => s
  end.

(** [s.indexOf(needle)]: the least position where [needle] occurs;
    [None] is -1. *)
Fixpoint indexOf (needle s : string) : option nat :=
  if String.prefix needle s then Some O
  else match s with
       | "" => None
       | String _ t => option_map S (indexOf needle t)
       end.

Definition hex_digit (n : N) : ascii :=
  ascii_of_N (if (n <? 10)%N then 48 + n else 87 + n)%N.

(** [QuoteJSONString], character by character. *)
Definition quote_char (c : ascii) : string :=
  let n := N_of_ascii c in
  if Ascii.eqb c dquote then String backslash (String dquote "")
  else if Ascii.eqb c backslash then String backslash (String backslash "")
  else if (n =? 8)%N then String backslash "b"
  else if (n =? 9)%N then String backslash "t"
  else if (n =? 10)%N then String backslash "n"
  else if (n =? 12)%N then String backslash "f"
  else if (n =? 13)%N then String backslash "r"
  else if (n <? 32)%N
       then String backslash
              ("u00" ++ String (hex_digit (n / 16)) (String (hex_digit (n mod 16)) ""))
  else String c "".

Fixpoint quote_body (s : string) : string :=
  match s with
  | "" => ""
  | String c t => quote_char c ++ quote_body t
  end.

Definition quote (s : string) : string :=
  String dquote (quote_body s ++ String dquote "").

End Str.

Module JSON.

Definition is_defined (v : jsval) : bool :=
  match v with
  | VUndefined => false
  | _ => true
  end.

(** [JSON.stringify] of a value other than [undefined].  Properties
    whose value is [undefined] are left out of an object; inside an array
    [undefined] is written [null], as are the non-finite numbers. *)
Fixpoint stringify (v : jsval) : string :=
  match v with
  | VUndefined | VNull => "null"
  | VBool true => "true"
  | VBool false => "false"
  | VNum t =>
      if String.eqb t "NaN" || String.eqb t "Infinity" || String.eqb t "-Infinity"
      then "null" else t
  | VStr s => Str.quote s
  | VArr items => "[" ++ JS.join (List.map stringify items) ++ "]"
  | VObj fields =>
      "{" ++ JS.join
               ((fix members (l : list (string * jsval)) : list string :=
                   match l with
                   | [] => []
                   | (k, x) :: rest =>
                       if is_defined x
                       then (Str.quote k ++ ":" ++ stringify x) :: members rest
                       else members rest
                   end) fields)
          ++ "}"
  end.

End JSON.

(* ===================================================================== *)
(** * The browser around the client *)
(* ===================================================================== *)

(** The fields of the [module] object (client.js, lines 19-31). *)
Record module_state : Type := ModuleState {
  _editorFile : jsval;
  _projectName : jsval;
  _statusUpdateIntervalId : option Z;
  _statusUpdateIntervalStart : option Z;
  _runPayload : jsval;
  _runPollingIntervalId : option Z;
  _runStart : option Z;
  _runTicket : jsval
}.

(** The two closures handed to [window.setInterval]. *)
Inductive callback : Type :=
| StatusUpdate (prefix : string)
| Poll (ticket : jsval).

Record timer : Type := Timer { timer_callback : callback; timer_delay : Z }.

(** The success and error callbacks of a request. *)
Inductive endpoint : Type := ProjectGet | TaskPost | RunGet.

Record ajax : Type := Ajax {
  ajax_url : string;
  ajax_crossDomain : bool;
  ajax_type : string;
  ajax_request : string;
  ajax_dataType : string;
  ajax_callbacks : endpoint
}.

Record xhr : Type := Xhr {
  xhr_status : Z;
  responseText : jsval;
  responseJSON : jsval
}.

(** The timers, the requests sent so far, the console and the location. *)
Record window_state : Type := WindowState {
  timers : gmap Z timer;
  next_handle : Z;
  sent : list ajax;
  console : list string;
  location_search : string;
  location_href : string
}.

(** The elements of the page the client touches: [#contents], [#error],
    [#loading], [#filename], [#result], [#status] and [#run-control] with
    its classes and the number of click handlers bound to it. *)
Record page : Type := Page {
  contents_shown : bool;
  error_shown : bool;
  loading_shown : bool;
  error_nodes : list string;
  filename_text : string;
  result_nodes : list string;
  status_text : string;
  glyphicon_play : bool;
  control_running : bool;
  glyphicon_repeat : bool;
  click_handlers : nat
}.

(** The ace editor. *)
Record ace : Type := Ace {
  ace_fontSize : Z;
  ace_theme : string;
  ace_mode : string;
  ace_value : string
}.

Record world : Type := World {
  client : module_state;
  window : window_state;
  document : page;
  editor : ace
}.

(** A handler either returns or stops at a TypeError; the state it has
    written so far stays written. *)
Inductive completion (A : Type) : Type :=
| Normal (a : A)
| TypeError.
Arguments Normal {A} a.
Arguments TypeError {A}.

Definition js (A : Type) : Type := world -> completion A * world.

Definition ret {A : Type} (a : A) : js A := fun w => (Normal a, w).

Definition bind {A B : Type} (c : js A) (k : A -> js B) : js B :=
  fun w =>
    match c w with
    | (Normal a, w') => k a w'
    | (TypeError, w') => (TypeError, w')
    end.

Definition throw {A : Type} : js A := fun w => (TypeError, w).

Definition gets {A : Type} (f : world -> A) : js A := fun w => (Normal (f w), w).

Definition modify (f : world -> world) : js unit := fun w => (Normal tt, f w).

(** Lift a property access. *)
Definition access (v : jsval) (k : string) : js jsval :=
  match JS.prop v k with
  | Some x => ret x
  | None => throw
  end.

Notation "x <- c ;; k" := (bind c (fun x => k))
  (at level 100, c at next level, right associativity).
Notation "c ;; k" := (bind c (fun _ => k))
  (at level 100, right associativity).

Definition exec {A : Type} (c : js A) (w : world) : world := snd (c w).

Module Upd.

Definition on_client (f : module_state -> module_state) : js unit :=
  modify (fun w => World (f (client w)) (window w) (document w) (editor w)).
Definition on_window (f : window_state -> window_state) : js unit :=
  modify (fun w => World (client w) (f (window w)) (document w) (editor w)).
Definition on_dom (f : page -> page) : js unit :=
  modify (fun w => World (client w) (window w) (f (document w)) (editor w)).
Definition on_editor (f : ace -> ace) : js unit :=
  modify (fun w => World (client w) (window w) (document w) (f (editor w))).

Definition editorFile v m :=
  ModuleState v (_projectName m) (_statusUpdateIntervalId m)
    (_statusUpdateIntervalStart m) (_runPayload m) (_runPollingIntervalId m)
    (_runStart m) (_runTicket m).
Definition projectName v m :=
  ModuleState (_editorFile m) v (_statusUpdateIntervalId m)
    (_statusUpdateIntervalStart m) (_runPayload m) (_runPollingIntervalId m)
    (_runStart m) (_runTicket m).
Definition statusUpdateIntervalId v m :=
  ModuleState (_editorFile m) (_projectName m) v
    (_statusUpdateIntervalStart m) (_runPayload m) (_runPollingIntervalId m)
    (_runStart m) (_runTicket m).
Definition statusUpdateIntervalStart v m :=
  ModuleState (_editorFile m) (_projectName m) (_statusUpdateIntervalId m)
    v (_runPayload m) (_runPollingIntervalId m) (_runStart m) (_runTicket m).
Definition runPayload v m :=
  ModuleState (_editorFile m) (_projectName m) (_statusUpdateIntervalId m)
    (_statusUpdateIntervalStart m) v (_runPollingIntervalId m) (_runStart m)
    (_runTicket m).
Definition runPollingIntervalId v m :=
  ModuleState (_editorFile m) (_projectName m) (_statusUpdateIntervalId m)
    (_statusUpdateIntervalStart m) (_runPayload m) v (_runStart m)
    (_runTicket m).
Definition runStart v m :=
  ModuleState (_editorFile m) (_projectName m) (_statusUpdateIntervalId m)
    (_statusUpdateIntervalStart m) (_runPayload m) (_runPollingIntervalId m)
    v (_runTicket m).
Definition runTicket v m :=
  ModuleState (_editorFile m) (_projectName m) (_statusUpdateIntervalId m)
    (_statusUpdateIntervalStart m) (_runPayload m) (_runPollingIntervalId m)
    (_runStart m) v.

Definition set_timers v n (x : window_state) :=
  WindowState v n (sent x) (console x) (location_search x) (location_href x).
Definition set_sent v (x : window_state) :=
  WindowState (timers x) (next_handle x) v (console x) (location_search x)
    (location_href x).
Definition set_console v (x : window_state) :=
  WindowState (timers x) (next_handle x) (sent x) v (location_search x)
    (location_href x).

Definition shown c e l (p : page) :=
  Page c e l (error_nodes p) (filename_text p) (result_nodes p) (status_text p)
    (glyphicon_play p) (control_running p) (glyphicon_repeat p) (click_handlers p).
Definition set_error_nodes v (p : page) :=
  Page (contents_shown p) (error_shown p) (loading_shown p) v (filename_text p)
    (result_nodes p) (status_text p) (glyphicon_play p) (control_running p)
    (glyphicon_repeat p) (click_handlers p).
Definition set_filename_text v (p : page) :=
  Page (contents_shown p) (error_shown p) (loading_shown p) (error_nodes p) v
    (result_nodes p) (status_text p) (glyphicon_play p) (control_running p)
    (glyphicon_repeat p) (click_handlers p).
Definition set_result_nodes v (p : page) :=
  Page (contents_shown p) (error_shown p) (loading_shown p) (error_nodes p)
    (filename_text p) v (status_text p) (glyphicon_play p) (control_running p)
    (glyphicon_repeat p) (click_handlers p).
Definition set_status_text v (p : page) :=
  Page (contents_shown p) (error_shown p) (loading_shown p) (error_nodes p)
    (filename_text p) (result_nodes p) v (glyphicon_play p) (control_running p)
    (glyphicon_repeat p) (click_handlers p).
Definition set_classes a b c (p : page) :=
  Page (contents_shown p) (error_shown p) (loading_shown p) (error_nodes p)
    (filename_text p) (result_nodes p) (status_text p) a b c (click_handlers p).
Definition set_click_handlers v (p : page) :=
  Page (contents_shown p) (error_shown p) (loading_shown p) (error_nodes p)
    (filename_text p) (result_nodes p) (status_text p) (glyphicon_play p)
    (control_running p) (glyphicon_repeat p) v.

End Upd.

Module Window.

(** [window.setInterval(f, delay)]: a handle never handed out before. *)
Definition setInterval (f : callback) (delay : Z) : js Z :=
  h <- gets (fun w => next_handle (window w)) ;;
  Upd.on_window (fun x => Upd.set_timers (<[h := Timer f delay]> (timers x)) (h + 1) x) ;;
  ret h.

(** [window.clearTimeout(h)]: timeouts and intervals share one list of
    active timers; [null] names none of them. *)
Definition clearTimeout (h : option Z) : js unit :=
  match h with
  | None => ret tt
  | Some i =>
      Upd.on_window (fun x => Upd.set_timers (delete i (timers x)) (next_handle x) x)
  end.

Definition console_log (s : string) : js unit :=
  Upd.on_window (fun x => Upd.set_console (console x ++ [s]) x).

(** [$.ajax(settings)]. *)
Definition ajax_send (r : ajax) : js unit :=
  Upd.on_window (fun x => Upd.set_sent (sent x ++ [r]) x).

End Window.

(* ===================================================================== *)
(** * The client module, function by function *)
(* ===================================================================== *)

Module ANDROID_CLIENT.

Definition initial_module : module_state :=
  ModuleState VNull VNull None None VNull None None VNull.

Definition _statusUpdateIntervalMsec : Z := 50.
Definition _runPollingIntervalMsec : Z := 3000.
Definition _runPollingTimeoutSec : Z := 90.
Definition _taskComplete : string := "complete".
Definition _taskRunning : string := "running".

Definition _addResult (data : string) : js unit :=
  Upd.on_dom (fun p => Upd.set_result_nodes (result_nodes p ++ [data]) p).

Definition _clearResult : js unit :=
  Upd.on_dom (Upd.set_result_nodes []).

Definition _clearRun : js unit :=
  Upd.on_client (Upd.runPayload VNull) ;;
  Upd.on_client (Upd.runTicket VNull).

(** [_getDeltaSeconds(from, to)]; a Date is its time value in
    milliseconds. *)
Definition _getDeltaSeconds (from : option Z) (to : Z) : seconds :=
  match from with
  | None => SecZero
  | Some f => SecText (Double.toFixed1 (Double.div_int (Double.sub_int to f) 1000))
  end.

(** [x === y] between values parsed from one JSON text: primitives by
    value, objects and arrays never (they are distinct objects). *)
Definition strict_eq (x y : jsval) : bool :=
  match x, y with
  | VUndefined, VUndefined | VNull, VNull => true
  | VBool a, VBool b => Bool.eqb a b
  | VNum a, VNum b => String.eqb a b && negb (String.eqb a "NaN")
  | VStr a, VStr b => String.eqb a b
  | _, _ => false
  end.

(** [Array.prototype.indexOf]. *)
Fixpoint array_indexOf (x : jsval) (items : list jsval) : option nat :=
  match items with
  | [] => None
  | y :: rest => if strict_eq y x then Some O else option_map S (array_indexOf x rest)
  end.

Definition _getEditorMode : js string :=
  file <- gets (fun w => _editorFile (client w)) ;;
  match file with
  | VStr s =>
      let parts := match Str.indexOf "." s with
                   | Some _ => Str.split "." s
                   | None => ["text"]
                   end in
      ret ("ace/mode/" ++ List.last parts "")
  | VArr items =>
      match array_indexOf (VStr ".") items with
      | Some _ => throw
      | None => ret "ace/mode/text"
      end
  | _ => throw
  end.

Definition _configureEditor : js unit :=
  Upd.on_editor (fun e => Ace 14 (ace_theme e) (ace_mode e) (ace_value e)) ;;
  Upd.on_editor (fun e => Ace (ace_fontSize e) "ace/theme/monokai" (ace_mode e) (ace_value e)) ;;
  m <- _getEditorMode ;;
  Upd.on_editor (fun e => Ace (ace_fontSize e) (ace_theme e) m (ace_value e)).

Definition _getFilename (filename projectName : jsval) : js jsval :=
  match filename with
  | VStr s =>
      match Str.indexOf (JS.tostr projectName) s with
      | None => ret VNull
      | Some index => ret (VStr (Str.drop index s))
      end
  | VArr items =>
      match array_indexOf projectName items with
      | None => ret VNull
      | Some index => ret (VArr (List.skipn index items))
      end
  | _ => throw
  end.

Fixpoint each_query (queries : list string) (acc : list (string * jsval))
    : js (list (string * jsval)) :=
  match queries with
  | [] => ret acc
  | query :: rest =>
      match Str.split "=" query with
      | k :: v :: _ => each_query rest ((k, VStr v) :: acc)
      | _ => throw
      end
  end.

(** The later of two assignments to one key is the one found. *)
Definition _getUrlArgs : js jsval :=
  search <- gets (fun w => location_search (window w)) ;;
  fields <- each_query (Str.split "&" (Str.drop 1 search)) [] ;;
  ret (VObj fields).

Definition _getProjectNameFromUrl : js jsval :=
  args <- _getUrlArgs ;;
  access args "project".

Definition _setError (data : string) : js unit :=
  Upd.on_dom (Upd.set_error_nodes [data]).

(** [$(...).text(data)]: the element's text becomes the string form of
    [data]; [null] empties it (jQuery assigns [textContent]). *)
Definition _setFilename (data : jsval) : js unit :=
  match data with
  | VUndefined => ret tt
  | VNull => Upd.on_dom (Upd.set_filename_text "")
  | _ => Upd.on_dom (Upd.set_filename_text (JS.tostr data))
  end.

Definition _setStatus (data : string) : js unit :=
  Upd.on_dom (Upd.set_status_text data).

(** The editor widget takes a string. *)
Definition _setEditorContents (data : jsval) : js unit :=
  match data with
  | VStr s => Upd.on_editor (fun e => Ace (ace_fontSize e) (ace_theme e) (ace_mode e) s)
  | _ => throw
  end.

Definition _setUiStateInitialLoadFailed : js unit :=
  Upd.on_dom (Upd.set_click_handlers O) ;;
  Upd.on_dom (fun p => Upd.shown false (error_shown p) (loading_shown p) p) ;;
  Upd.on_dom (fun p => Upd.shown (contents_shown p) true (loading_shown p) p) ;;
  Upd.on_dom (fun p => Upd.shown (contents_shown p) (error_shown p) false p).

Definition _setUiStateReady : js unit :=
  Upd.on_dom (fun p => Upd.set_click_handlers (S (click_handlers p)) p) ;;
  Upd.on_dom (fun p => Upd.shown true (error_shown p) (loading_shown p) p) ;;
  Upd.on_dom (fun p => Upd.shown (contents_shown p) false (loading_shown p) p) ;;
  Upd.on_dom (fun p => Upd.shown (contents_shown p) (error_shown p) false p).

Definition _stopStatusUpdates : js unit :=
  h <- gets (fun w => _statusUpdateIntervalId (client w)) ;;
  Window.clearTimeout h ;;
  Upd.on_client (Upd.statusUpdateIntervalId None) ;;
  Upd.on_client (Upd.statusUpdateIntervalStart None).

Definition _startStatusUpdates (now : Z) : js unit :=
  h <- gets (fun w => _statusUpdateIntervalId (client w)) ;;
  match h with
  | Some _ => ret tt
  | None =>
      Upd.on_client (Upd.statusUpdateIntervalStart (Some now)) ;;
      name <- gets (fun w => _projectName (client w)) ;;
      let prefix := "Started run of " ++ JS.tostr name in
      let suffix := " (0.0s)" in
      _setStatus (prefix ++ suffix) ;;
      i <- Window.setInterval (StatusUpdate prefix) _statusUpdateIntervalMsec ;;
      Upd.on_client (Upd.statusUpdateIntervalId (Some i))
  end.

(** The body of the interval callback of [_startStatusUpdates]. *)
Definition status_update (prefix : string) (now : Z) : js unit :=
  start <- gets (fun w => _statusUpdateIntervalStart (client w)) ;;
  let suffix := " (" ++ Seconds.tostr (_getDeltaSeconds start now) ++ "s)" in
  _setStatus (prefix ++ suffix).

Definition _setUiStateRunning (now : Z) : js unit :=
  Upd.on_dom (fun p => Upd.set_classes false (control_running p) (glyphicon_repeat p) p) ;;
  Upd.on_dom (fun p => Upd.set_classes (glyphicon_play p) true (glyphicon_repeat p) p) ;;
  Upd.on_dom (fun p => Upd.set_classes (glyphicon_play p) (control_running p) true p) ;;
  Upd.on_dom (Upd.set_click_handlers O) ;;
  _clearResult ;;
  _startStatusUpdates now.

Definition _setUiStateRunDone (status : string) (optPayload : option string)
    : js unit :=
  _stopStatusUpdates ;;
  Upd.on_dom (fun p => Upd.set_classes true (control_running p) (glyphicon_repeat p) p) ;;
  Upd.on_dom (fun p => Upd.set_classes (glyphicon_play p) false (glyphicon_repeat p) p) ;;
  Upd.on_dom (fun p => Upd.set_classes (glyphicon_play p) (control_running p) false p) ;;
  Upd.on_dom (fun p => Upd.set_click_handlers (S (click_handlers p)) p) ;;
  _clearResult ;;
  _setStatus status ;;
  match optPayload with
  | Some payload => _addResult (payload ++ "<br />")
  | None => ret tt
  end.

Definition _startPolling (ticket : jsval) (now : Z) : js unit :=
  h <- gets (fun w => _runPollingIntervalId (client w)) ;;
  match h with
  | Some _ => Window.console_log "non-null polling id"
  | None =>
      Upd.on_client (Upd.runStart (Some now)) ;;
      i <- Window.setInterval (Poll ticket) _runPollingIntervalMsec ;;
      Upd.on_client (Upd.runPollingIntervalId (Some i))
  end.

Definition _stopPolling : js unit :=
  h <- gets (fun w => _runPollingIntervalId (client w)) ;;
  Window.clearTimeout h ;;
  Upd.on_client (Upd.runPollingIntervalId None) ;;
  Upd.on_client (Upd.runStart None).

(** The request of [_getRunResults]. *)
Definition status_request (ticket : jsval) : ajax :=
  Ajax "/rest/balancer/v1" true "GET"
    (JSON.stringify (VObj [("ticket", ticket)])) "json" RunGet.

Definition _getRunResults (ticket : jsval) (now : Z) : js unit :=
  start <- gets (fun w => _runStart (client w)) ;;
  let delta := _getDeltaSeconds start now in
  if Seconds.gtb delta _runPollingTimeoutSec
  then _stopPolling ;;
       _setUiStateRunDone "Ready" (Some "Run timed out.")
  else Window.ajax_send (status_request ticket).

Definition _onRunGetError : js unit :=
  _stopPolling ;;
  _clearRun ;;
  _setUiStateRunDone "Ready" (Some "Error fetching results; please try again.").

Definition _formatTaskCompletePayload (payload : jsval) : string :=
  "<img src='data:image/jpeg;base64," ++ JS.tostr payload ++ "' />".

(** The pattern [/([^>\r\n]?)(\r\n|\n\r|\r|\n)/g], group by group. *)
Definition first_group : Regex.regex :=
  Regex.Group 1 (Regex.Opt (Regex.NotIn [">"%char; Str.CR; Str.LF])).

Definition second_group : Regex.regex :=
  Regex.Group 2
    (Regex.Alt (Regex.Seq (Regex.Chr Str.CR) (Regex.Chr Str.LF))
       (Regex.Alt (Regex.Seq (Regex.Chr Str.LF) (Regex.Chr Str.CR))
          (Regex.Alt (Regex.Chr Str.CR) (Regex.Chr Str.LF)))).

Definition newline_pattern : Regex.regex := Regex.Seq first_group second_group.

(** The replacement ["$1" + "<br />" + "$2"]. *)
Definition newline_replacement : list Regex.token :=
  [Regex.Ref 1; Regex.Lit "<br />"; Regex.Ref 2].

Definition _newlineToBr (data : jsval) : string :=
  Regex.replace_all newline_pattern newline_replacement (JS.tostr data ++ "").

Definition _formatPayload (status payload : jsval) : string :=
  if JS.strict_eq_str status _taskComplete
  then _formatTaskCompletePayload payload
  else _newlineToBr payload.

Definition _onRunGetSuccess (data : jsval) (x : xhr) : js unit :=
  if negb (xhr_status x =? 200)
  then _ <- access data "payload" ;;
       _onRunGetError
  else
    p <- access data "payload" ;;
    running <- (if JS.truthy p
                then st <- access p "status" ;;
                     ret (JS.strict_eq_str st _taskRunning)
                else ret false) ;;
    if (running : bool) then ret tt
    else
      _stopPolling ;;
      _clearRun ;;
      st <- access p "status" ;;
      body <- access p "payload" ;;
      let payload := _formatPayload st body in
      name <- gets (fun w => _projectName (client w)) ;;
      let status := "Finished run of " ++ JS.tostr name ++ ". Status: " ++
                    JS.tostr st ++ ". Result: " in
      _setUiStateRunDone status (Some payload).

Definition _onProjectGetError : js unit :=
  href <- gets (fun w => location_href (window w)) ;;
  _setError ("<p>Unable to get application data. <a href='" ++ href ++
             "'>Try again?" ++ "</a>") ;;
  _setUiStateInitialLoadFailed.

Definition _onProjectGetSuccess (data : jsval) (x : xhr) : js unit :=
  if negb (xhr_status x =? 200)
  then _ <- access data "payload" ;;
       _onProjectGetError
  else
    p <- access data "payload" ;;
    filename <- access p "filename" ;;
    Upd.on_client (Upd.editorFile filename) ;;
    projectName <- access p "projectName" ;;
    Upd.on_client (Upd.projectName projectName) ;;
    shown <- _getFilename filename projectName ;;
    _setFilename shown ;;
    _configureEditor ;;
    contents <- access p "contents" ;;
    _setEditorContents contents ;;
    _setUiStateReady.

(** [xhr.responseText && xhr.responseJSON === "Worker locked"]. *)
Definition worker_locked (x : xhr) : bool :=
  JS.truthy (responseText x) && JS.strict_eq_str (responseJSON x) "Worker locked".

Definition _onProjectPostError (x : xhr) : js unit :=
  let payload := if worker_locked x
                 then "All workers busy; please try again later."
                 else "Unable to start job." in
  _setUiStateRunDone "Ready" (Some payload).

Definition _onProjectPostSuccess (data : jsval) (x : xhr) (now : Z) : js unit :=
  if negb (xhr_status x =? 200)
  then _ <- access data "payload" ;;
       _onProjectPostError x
  else
    p <- access data "payload" ;;
    ticket <- access p "ticket" ;;
    _startPolling ticket now.

Definition _makePatch (filename contents : jsval) : jsval :=
  VObj [("contents", contents); ("filename", filename)].

(** The object literal that [_onRunControlClick] serialises. *)
Definition task_body (w : world) : jsval :=
  VObj [("patches", VArr [_makePatch (_editorFile (client w))
                            (VStr (ace_value (editor w)))]);
        ("project", _projectName (client w));
        ("user_id", VStr "some_user")].

Definition _onRunControlClick (now : Z) : js unit :=
  _setUiStateRunning now ;;
  body <- gets task_body ;;
  Window.ajax_send
    (Ajax "/rest/balancer/v1" true "POST" (JSON.stringify body) "json" TaskPost).

Definition main (optProjectName : jsval) : js unit :=
  projectName <- (if JS.truthy optProjectName then ret optProjectName
                  else _getProjectNameFromUrl) ;;
  Window.ajax_send
    (Ajax "/rest/balancer/v1/project" true "GET"
       (JSON.stringify (VObj [("project", projectName)])) "json" ProjectGet).

End ANDROID_CLIENT.

(* ===================================================================== *)
(** * The event loop *)
(* ===================================================================== *)

(** What the browser can deliver to the client: the page load, a click on
    the run control, the firing of a timer, the completion of a request,
    and the user typing in the editor. *)
Inductive event : Type :=
| Load (optProjectName : jsval)
| Click
| Tick (handle : Z)
| ProjectGetSuccess (data : jsval) (x : xhr)
| ProjectGetError (x : xhr)
| TaskPostSuccess (data : jsval) (x : xhr)
| TaskPostError (x : xhr)
| RunGetSuccess (data : jsval) (x : xhr)
| RunGetError (x : xhr)
| Edit (text : string).

Module Browser.

Import ANDROID_CLIENT.

(** The handlers bound when the event is dispatched all run, in order. *)
Fixpoint dispatch_click (n : nat) (now : Z) : js unit :=
  match n with
  | O => ret tt
  | S m => _onRunControlClick now ;; dispatch_click m now
  end.

Definition fire (t : timer) (now : Z) : js unit :=
  match timer_callback t with
  | StatusUpdate prefix => status_update prefix now
  | Poll ticket => _getRunResults ticket now
  end.

(** One turn of the event loop, with the clock reading [now]. *)
Definition handler (e : event) (now : Z) : js unit :=
  match e with
  | Load optProjectName => main optProjectName
  | Click =>
      n <- gets (fun w => click_handlers (document w)) ;;
      dispatch_click n now
  | Tick h =>
      t <- gets (fun w => timers (window w) !! h) ;;
      match t with
      | Some t => fire t now
      | None => ret tt
      end
  | ProjectGetSuccess data x => _onProjectGetSuccess data x
  | ProjectGetError _ => _onProjectGetError
  | TaskPostSuccess data x => _onProjectPostSuccess data x now
  | TaskPostError x => _onProjectPostError x
  | RunGetSuccess data x => _onRunGetSuccess data x
  | RunGetError _ => _onRunGetError
  | Edit text =>
      Upd.on_editor (fun e => Ace (ace_fontSize e) (ace_theme e) (ace_mode e) text)
  end.

Definition step (w : world) (te : Z * event) : world :=
  exec (handler (snd te) (fst te)) w.

(** A run of the event loop over timed events. *)
Definition run (w : world) (trace : list (Z * event)) : world :=
  List.fold_left step trace w.

(** The script has just been evaluated: the module holds its initial
    fields and no timer is active. *)
Definition fresh (w : world) : Prop :=
  client w = initial_module /\ timers (window w) = ∅.

Definition polls (t : timer) : bool :=
  match timer_callback t with
  | Poll _ => true
  | StatusUpdate _ => false
  end.

(** The polling loops that are active. *)
Definition polling_loops (w : world) : gmap Z timer :=
  filter (fun kt => polls (snd kt) = true) (timers (window w)).

(** The status requests among the requests sent. *)
Definition is_status_request (r : ajax) : bool :=
  match ajax_callbacks r with
  | RunGet => true
  | _ => false
  end.

Definition status_requests (w : world) : list ajax :=
  List.filter is_status_request (sent (window w)).

(** The invariant of the polling state: the handle stored in the module
    names the active polling loop, and there is no other; the run start
    is recorded exactly while there is one; the same for the status
    line's timer; handles are handed out in increasing order. *)
Record consistent (w : world) : Prop := Consistent {
  poll_active :
    forall h t, timers (window w) !! h = Some t -> polls t = true ->
                _runPollingIntervalId (client w) = Some h;
  poll_stored :
    forall h, _runPollingIntervalId (client w) = Some h ->
              exists t, timers (window w) !! h = Some t /\ polls t = true /\
                        timer_delay t = _runPollingIntervalMsec;
  start_recorded :
    _runStart (client w) = None <-> _runPollingIntervalId (client w) = None;
  status_active :
    forall h t, timers (window w) !! h = Some t -> polls t = false ->
                _statusUpdateIntervalId (client w) = Some h;
  status_stored :
    forall h, _statusUpdateIntervalId (client w) = Some h ->
              exists t, timers (window w) !! h = Some t /\ polls t = false;
  handles_bounded :
    forall h t, timers (window w) !! h = Some t -> h < next_handle (window w)
}.

End Browser.

(* ===================================================================== *)
(** * The worker's result store *)
(* ===================================================================== *)

Module Worker.

(** Modelled from the spec: the status vocabulary of the status
    endpoint (section 6); the worker itself ([android/worker.py]) is not
    among the sources. *)
Inductive status : Type := Running | Complete | Error.

(** Modelled from the spec: Complete and Error are the terminal statuses a
    worker reports (section 4.4). *)
Definition terminal (s : status) : bool :=
  match s with
  | Running => false
  | Complete | Error => true
  end.

(** Modelled from the spec: the ResultRecord of section 3,
    [ticket -> {status, payload, writtenAt}]; the payload is absent in the
    initial record. *)
Record ResultRecord : Type := Record_ {
  record_status : status;
  record_payload : option string;
  writtenAt : Z
}.

(** Modelled from the spec: one worker, that is its ResultStore, its
    WorkerLock (held by the ticket of the background unit in flight) and
    the tickets it has been handed so far. *)
Record worker : Type := WorkerState {
  store : gmap string ResultRecord;
  lock : option string;
  issued : gset string
}.

(** Modelled from the spec: a worker that has not been handed a task. *)
Definition empty : worker := WorkerState ∅ None ∅.

(** Modelled from the spec: what the build-and-run collaborator yields
    (section 6): artifact bytes or a diagnostic text. *)
Inductive outcome : Type :=
| Artifact (bytes : string)
| Diagnostic (text : string).

(** Modelled from the spec: the two results of [submit] (section 4.2). *)
Inductive submitted : Type := Accepted | WorkerBusy.

(** Modelled from the spec: [TaskExecutor.submit] (section 4.2), steps 1
    and 2: the lock is tried, never waited for, and on success the
    initial record (Running, no payload) is written before returning. *)
Definition submit (ticket : string) (now : Z) (w : worker) : submitted * worker :=
  match lock w with
  | Some _ => (WorkerBusy, WorkerState (store w) (lock w) ({[ticket]} ∪ issued w))
  | None =>
      (Accepted,
       WorkerState (<[ticket := Record_ Running None now]> (store w))
         (Some ticket) ({[ticket]} ∪ issued w))
  end.

(** Modelled from the spec: step 4 of section 4.2: the background unit
    writes the final record of its own ticket and releases the lock as
    its last action. *)
Definition finish (o : outcome) (now : Z) (w : worker) : worker :=
  match lock w with
  | None => w
  | Some ticket =>
      let final := match o with
                   | Artifact bytes => Record_ Complete (Some bytes) now
                   | Diagnostic text => Record_ Error (Some text) now
                   end in
      WorkerState (<[ticket := final]> (store w)) None (issued w)
  end.

(** Modelled from the spec: [pollStatus] (section 4.3), a pure read of
    the store; [None] is UnknownTicket. *)
Definition pollStatus (ticket : string) (w : worker) : option ResultRecord :=
  store w !! ticket.

(** Modelled from the spec: housekeeping (sections 3 and 5) deletes the
    records written before [cutoff], never one whose task is still
    Running. *)
Definition collect (cutoff : Z) (w : worker) : worker :=
  WorkerState
    (filter (fun kr => terminal (record_status (snd kr)) = false \/
                       cutoff <= writtenAt (snd kr)) (store w))
    (lock w) (issued w).

(** Modelled from the spec: the operations that change a worker.  A
    ticket, once issued, is never reused (section 3), so a task arrives
    with a ticket the worker has not seen. *)
Inductive step : worker -> worker -> Prop :=
| step_submit ticket now w :
    ticket ∉ issued w -> step w (snd (submit ticket now w))
| step_finish o now w : step w (finish o now w)
| step_collect cutoff w : step w (collect cutoff w).

(** Modelled from the spec: any number of such operations. *)
Inductive steps : worker -> worker -> Prop :=
| steps_refl w : steps w w
| steps_next w1 w2 w3 : step w1 w2 -> steps w2 w3 -> steps w1 w3.

(** The store only holds tickets that were handed in, and the record of
    the ticket holding the lock is still Running. *)
Definition sound (w : worker) : Prop :=
  (forall t r, store w !! t = Some r -> t ∈ issued w) /\
  (forall t, lock w = Some t ->
             exists r, store w !! t = Some r /\ record_status r = Running).

End Worker.

(* ===================================================================== *)
(** * The description of [_newlineToBr] in words *)
(* ===================================================================== *)

Module Spec.

Definition is_newline (c : ascii) : bool :=
  Ascii.eqb c Str.CR || Ascii.eqb c Str.LF.

(** The two-character newline sequences, [\r\n] and [\n\r]. *)
Definition is_pair (a b : ascii) : bool :=
  (Ascii.eqb a Str.CR && Ascii.eqb b Str.LF) ||
  (Ascii.eqb a Str.LF && Ascii.eqb b Str.CR).

(** ["<br />"] is inserted immediately before each newline sequence,
    reading left to right and preferring a pair to a single newline
    character; every other character is copied. *)
Fixpoint insert_br (s : string) : string :=
  match s with
  | "" => ""
  | String a rest =>
      if is_newline a
      then match rest with
           | String b t =>
               if is_pair a b
               then "<br />" ++ String a (String b (insert_br t))
               else "<br />" ++ String a (insert_br rest)
           | "" => "<br />" ++ String a ""
           end
      else String a (insert_br rest)
  end.

End Spec.

(* ===================================================================== *)
(** * Notions used in the proofs *)
(* ===================================================================== *)

(** The opposite of a double. *)
Definition dneg (x : double) : double := Dbl (- mant x) (expo x).

(** The number of tenths printed by [toFixed(1)], with its sign. *)
Definition signed_tenths (x : double) : Z :=
  if mant x <? 0 then - Double.tenths x else Double.tenths x.

(** The time values a Date can hold: at most 8.64e15 ms from the epoch. *)
Definition valid_time (t : Z) : Prop :=
  - 8640000000000000 <= t <= 8640000000000000.

(** The elapsed time in tenths of a second that [_getDeltaSeconds] prints
    for a run started at [from] and observed at [to]. *)
Definition elapsed_tenths (from to : Z) : Z :=
  signed_tenths (Double.div_int (Double.sub_int to from) 1000).

Fixpoint digits_only (s : string) : bool :=
  match s with
  | "" => true
  | String c t => ((48 <=? N_of_ascii c) && (N_of_ascii c <=? 57))%N && digits_only t
  end.

(** The length of the newline sequence at the start of [s]. *)
Definition newline_len (s : string) : nat :=
  match s with
  | String a (String b _) =>
      if Spec.is_pair a b then 2 else if Spec.is_newline a then 1 else 0
  | String a "" => if Spec.is_newline a then 1 else 0
  | "" => 0
  end.

(** The characters the class [[^>\r\n]] accepts. *)
Definition plain (a : ascii) : bool :=
  negb (existsb (Ascii.eqb a) [">"%char; Str.CR; Str.LF]).

Inductive char_class (a : ascii) : Prop :=
| IsCR : a = Str.CR -> char_class a
| IsLF : a = Str.LF -> char_class a
| IsGT : a = ">"%char -> char_class a
| IsPlain :
    Ascii.eqb a Str.CR = false -> Ascii.eqb a Str.LF = false ->
    Ascii.eqb a ">" = false ->
    Ascii.eqb Str.CR a = false -> Ascii.eqb Str.LF a = false ->
    char_class a.

(** The part of the state the polling invariant speaks about. *)
Definition view (w : world) : option Z * option Z * option Z * gmap Z timer * Z :=
  (_runPollingIntervalId (client w), _runStart (client w),
   _statusUpdateIntervalId (client w), timers (window w), next_handle (window w)).

(** A computation that leaves the polling state alone. *)
Definition keeps {A : Type} (c : js A) : Prop :=
  forall w, view (snd (c w)) = view w.

(** A computation that maintains [P], also when it stops at a TypeError. *)
Definition preserves (P : world -> Prop) {A : Type} (c : js A) : Prop :=
  forall w, P w -> P (snd (c w)).

(** [Browser.consistent] as a statement about the view. *)
Definition consistent_view_of
    (v : option Z * option Z * option Z * gmap Z timer * Z) : Prop :=
  let '(pid, rs, sid, tm, nh) := v in
  (forall h t, tm !! h = Some t -> Browser.polls t = true -> pid = Some h) /\
  (forall h, pid = Some h ->
     exists t, tm !! h = Some t /\ Browser.polls t = true /\
               timer_delay t = ANDROID_CLIENT._runPollingIntervalMsec) /\
  (rs = None <-> pid = None) /\
  (forall h t, tm !! h = Some t -> Browser.polls t = false -> sid = Some h) /\
  (forall h, sid = Some h -> exists t, tm !! h = Some t /\ Browser.polls t = false) /\
  (forall h t, tm !! h = Some t -> h < nh).

(** The timer [h] was handed out and is not active any more. *)
Definition retired (h : Z) (w : world) : Prop :=
  timers (window w) !! h = None /\ h < next_handle (window w).

(** The shape of a create-task request. *)
Definition create_task_request (r : ajax) : Prop :=
  ajax_callbacks r = TaskPost ->
  ajax_type r = "POST" /\ ajax_url r = "/rest/balancer/v1" /\
  exists file contents project,
    ajax_request r =
    JSON.stringify
      (VObj [("patches", VArr [VObj [("contents", VStr contents); ("filename", file)]]);
             ("project", project); ("user_id", VStr "some_user")]).

(** A computation that only adds requests, all of them of shape [Q]. *)
Definition sends (Q : ajax -> Prop) {A : Type} (c : js A) : Prop :=
  forall w, exists new,
    sent (window (snd (c w))) = (sent (window w) ++ new)%list /\ Forall Q new.

(** Two finite floats with the same sign, mantissa and exponent. *)
Definition same_float (x y : spec_float) : bool :=
  match x, y with
  | S754_zero a, S754_zero b => Bool.eqb a b
  | S754_finite a m e, S754_finite b n f => Bool.eqb a b && Pos.eqb m n && Z.eqb e f
  | _, _ => false
  end.

Module Sample.

Definition page0 : page :=
  Page true false false [] "Example/app/a.xml" [] "" true false false 1.

Definition editor0 : ace :=
  Ace 14 "ace/theme/monokai" "ace/mode/xml" "<x/>".

Definition loaded : module_state :=
  ModuleState (VStr "/x/Example/app/a.xml") (VStr "Example") None None VNull
    None None VNull.

(** The project is loaded and no run is in progress. *)
Definition idle : world :=
  World loaded (WindowState ∅ 1 [] [] "?project=Example" "http://host/demo?project=Example")
    page0 editor0.

(** A run started at time 0 is being polled for ticket ["t1"]. *)
Definition polling : world :=
  World
    (ModuleState (VStr "/x/Example/app/a.xml") (VStr "Example") (Some 1) (Some 0) VNull
       (Some 2) (Some 0) VNull)
    (WindowState
       (<[2 := Timer (Poll (VStr "t1")) 3000]>
          (<[1 := Timer (StatusUpdate "Started run of Example") 50]> ∅))
       3 [] [] "?project=Example" "http://host/demo?project=Example")
    (Page true false false [] "Example/app/a.xml" [] "Started run of Example (0.0s)"
       false true true 0)
    editor0.

Definition ok : xhr := Xhr 200 (VStr "{}") (VObj []).

Definition failed : xhr := Xhr 500 (VStr "Internal Server Error") VUndefined.

Definition locked : xhr :=
  Xhr 500 (VStr (String Str.dquote ("Worker locked" ++ String Str.dquote "")))
    (VStr "Worker locked").

Definition reply (status payload : jsval) : jsval :=
  VObj [("payload", VObj [("status", status); ("payload", payload)])].

(** A worker that has finished ticket ["t1"], and then accepts ["t2"]. *)
Definition worker1 : Worker.worker :=
  Worker.finish (Worker.Artifact "abc==") 10 (snd (Worker.submit "t1" 0 Worker.empty)).

Definition worker2 : Worker.worker := snd (Worker.submit "t2" 20 worker1).

End Sample.

(* ===================================================================== *)
(** * Notions for the page load and the run control *)
(* ===================================================================== *)

(** The character [c] occurs in [s]. *)
Fixpoint has_char (c : ascii) (s : string) : bool :=
  match s with
  | "" => false
  | String a t => Ascii.eqb a c || has_char c t
  end.

(** One [key=value] piece of a query string. *)
Definition piece (kv : string * string) : string := fst kv ++ "=" ++ snd kv.

(** A query string without its leading character: the pieces separated
    by [&]. *)
Fixpoint encode_query (kvs : list (string * string)) : string :=
  match kvs with
  | [] => ""
  | [(k, v)] => k ++ "=" ++ v
  | (k, v) :: rest => k ++ "=" ++ v ++ "&" ++ encode_query rest
  end.

(** The value of the last pair with key [k]. *)
Fixpoint last_value (k : string) (kvs : list (string * string)) : option string :=
  match kvs with
  | [] => None
  | (k', v) :: rest =>
      match last_value k rest with
      | Some x => Some x
      | None => if String.eqb k k' then Some v else None
      end
  end.

(** Neither [&] nor [=] occurs in the key or in the value. *)
Definition plain_pair (kv : string * string) : Prop :=
  has_char "&" (fst kv) = false /\ has_char "=" (fst kv) = false /\
  has_char "&" (snd kv) = false /\ has_char "=" (snd kv) = false.

(** The request of [main] for the project [projectName]. *)
Definition project_request (projectName : jsval) : ajax :=
  Ajax "/rest/balancer/v1/project" true "GET"
    (JSON.stringify (VObj [("project", projectName)])) "json" ProjectGet.

(** The request of [_onRunControlClick] for the object [body]. *)
Definition task_request (body : jsval) : ajax :=
  Ajax "/rest/balancer/v1" true "POST" (JSON.stringify body) "json" TaskPost.

(** The run control shows a run in progress and is not clickable, and the
    result area is empty. *)
Definition control_busy (p : page) : Prop :=
  glyphicon_play p = false /\ control_running p = true /\ glyphicon_repeat p = true /\
  click_handlers p = O /\ result_nodes p = [].

(** The events that report a failed request of a run. *)
Definition run_failure (e : event) : bool :=
  match e with
  | RunGetError _ | TaskPostError _ => true
  | _ => false
  end.

(** The callbacks of the requests an event may send: the page load asks
    for the project, a click creates a task, a timer polls; the completion
    of a request and an edit send nothing. *)
Definition request_kind (e : event) : option endpoint :=
  match e with
  | Load _ => Some ProjectGet
  | Click => Some TaskPost
  | Tick _ => Some RunGet
  | _ => None
  end.

(** A cross-domain JSON request to the address of its callbacks, with the
    method used there. *)
Definition well_addressed (r : ajax) : Prop :=
  ajax_crossDomain r = true /\ ajax_dataType r = "json" /\
  match ajax_callbacks r with
  | ProjectGet => ajax_url r = "/rest/balancer/v1/project" /\ ajax_type r = "GET"
  | TaskPost => ajax_url r = "/rest/balancer/v1" /\ ajax_type r = "POST"
  | RunGet => ajax_url r = "/rest/balancer/v1" /\ ajax_type r = "GET"
  end.

(** The requests the event [e] may send. *)
Definition sent_by (e : event) (r : ajax) : Prop :=
  request_kind e = Some (ajax_callbacks r) /\ well_addressed r.

(** The module holds no ticket and no payload. *)
Definition run_cleared (w : world) : Prop :=
  _runTicket (client w) = VNull /\ _runPayload (client w) = VNull.

(** The run control shows either the play icon or the two icons of a run
    in progress, and the elapsed-time ticker is on exactly in the second
    case. *)
Definition control_shape (w : world) : Prop :=
  glyphicon_play (document w) = negb (control_running (document w)) /\
  glyphicon_repeat (document w) = control_running (document w) /\
  (control_running (document w) = true <-> _statusUpdateIntervalId (client w) <> None).

(** The text [toFixed(1)] prints for [n] tenths of a second, with the sign
    of [ms]. *)
Definition tenths_text (ms n : Z) : string :=
  (if ms <? 0 then "-" else "") ++
  Double.digits (Z.abs n / 10) ++ "." ++ Double.digits (Z.abs n mod 10).

Module Fixture.

(** A page opened without a query string, before anything is loaded. *)
Definition unloaded : world :=
  World ANDROID_CLIENT.initial_module (WindowState ∅ 1 [] [] "" "http://host/demo")
    (Page false false true [] "" [] "" true false false 0)
    (Ace 12 "" "" "").

(** A well-formed project response. *)
Definition project_reply : jsval :=
  VObj [("payload", VObj [("filename", VStr "/x/Example/app/a.xml");
                          ("projectName", VStr "Example");
                          ("contents", VStr "<x/>")])].

(** Two failed polls of one run. *)
Definition two_failures : list (Z * event) :=
  [(3100, RunGetError Sample.failed); (6100, RunGetError Sample.failed)].

(** The project is loaded, then the run control is clicked. *)
Definition load_and_click : list (Z * event) :=
  [(5, ProjectGetSuccess project_reply Sample.ok); (20, Click)].

(** A create-task response carrying the ticket ["t1"]. *)
Definition ticket_reply : jsval := VObj [("payload", VObj [("ticket", VStr "t1")])].

End Fixture.

(* ===================================================================== *)
(** * The model at work *)
(* ===================================================================== *)

(** The quotients by 1000 are those of IEEE 754 binary64 division, as the
    standard library specifies it: on the first seconds, around the
    timeout and up to the widest gap between two dates. *)
Example div_int_is_binary64 :
  forallb
    (fun ms =>
       same_float (Double.to_spec (Double.div_int (Double.sub_int ms 0) 1000))
         (SFdiv 53 1024 (Double.of_int_spec ms) (Double.of_int_spec 1000)))
    (List.map Z.of_nat (seq 1 600) ++
     List.map (fun n => 89900 + Z.of_nat n) (seq 0 300) ++
     [2 ^ 52 - 1; 2 ^ 52; 2 ^ 52 + 1; 2 ^ 53 - 1; 2 ^ 53 + 1; 2 ^ 53 + 3;
      1000 * 2 ^ 40; 1730563200000; 17279999999999999; 17280000000000000;
      -1; -40; -90051; - (2 ^ 53 - 1); -17279999999999997])%list = true.
Proof. vm_compute. reflexivity. Qed.

(** Differences of time values are those of binary64 subtraction. *)
Example sub_int_is_binary64 :
  forallb
    (fun tf =>
       same_float (Double.to_spec (Double.sub_int (fst tf) (snd tf)))
         (SFsub 53 1024 (Double.of_int_spec (fst tf)) (Double.of_int_spec (snd tf))))
    [(1730563290051, 1730563200000); (1730563200000, 1730563290051);
     (2 ^ 53 - 1, 0); (8640000000000000, -8640000000000000);
     (8640000000000000, -8639999999999999); (-8639999999999997, 8640000000000000);
     (2 ^ 53 - 2, -3); (3, 1); (1, 3)] = true.
Proof. vm_compute. reflexivity. Qed.

(** [toFixed(1)] on ties and around the timeout. *)
Example toFixed1_samples :
  List.map (fun ms => Double.toFixed1 (Double.div_int (Double.sub_int ms 0) 1000))
    [0; 50; 150; 250; 12340; 90000; 90049; 90050; 90051; -40; -12340]
  = ["0.0"; "0.1"; "0.1"; "0.3"; "12.3"; "90.0"; "90.0"; "90.0"; "90.1"; "-0.0"; "-12.3"].
Proof. vm_compute. reflexivity. Qed.

Example of_string_samples :
  List.map Double.of_string ["90.0"; "-0.0"; ""; "."; "-"; "1e5"; "12px"]
  = [Some (Dbl (45 * 2 ^ 47) (-46)); Some Double.zero; Some Double.zero; None; None; None;
     None].
Proof. vm_compute. reflexivity. Qed.

(** The pattern at work: a line break element before each newline
    sequence, also behind [>]. *)
Example newlineToBr_sample :
  ANDROID_CLIENT._newlineToBr
    (VStr ("a" ++ String Str.LF ("b>" ++ String Str.CR (String Str.LF
            (String Str.LF (String Str.CR "c"))))))
  = "a<br />" ++ String Str.LF ("b><br />" ++ String Str.CR (String Str.LF
      ("<br />" ++ String Str.LF (String Str.CR "c")))).
Proof. vm_compute. reflexivity. Qed.

Example newlineToBr_coerces :
  List.map ANDROID_CLIENT._newlineToBr [VUndefined; VNull; VNum "3"; VArr [VStr "a"; VNull]]
  = ["undefined"; "null"; "3"; "a,"].
Proof. vm_compute. reflexivity. Qed.

(** An empty match advances by one character: ["baac".replace(/a?/g, "-")]. *)
Example replace_empty_matches :
  Regex.replace_all (Regex.Opt (Regex.Chr "a")) [Regex.Lit "-"] "baac" = "-b---c-".
Proof. vm_compute. reflexivity. Qed.

Example stringify_sample :
  JSON.stringify
    (VObj [("a", VArr [VNum "1"; VUndefined; VStr ("x" ++ String Str.LF "y")]);
           ("b", VUndefined); ("c", VNull)])
  = "{" ++ Str.quote "a" ++ ":[1,null," ++
    String Str.dquote ("x" ++ String Str.backslash ("ny" ++ String Str.dquote "")) ++
    "]," ++ Str.quote "c" ++ ":null}".
Proof. vm_compute. reflexivity. Qed.

(** A whole run: load, click, ticket, two polls, result. *)
Example run_to_completion :
  let w0 := World ANDROID_CLIENT.initial_module
              (WindowState ∅ 1 [] [] "?project=Example" "http://host/demo?project=Example")
              (Page false false true [] "" [] "" true false false 0) (Ace 12 "" "" "") in
  let project :=
    VObj [("payload", VObj [("filename", VStr "/x/Example/app/a.xml");
                            ("projectName", VStr "Example");
                            ("contents", VStr "<x/>")])] in
  let w :=
    Browser.run w0
      [(0, Load VUndefined); (10, ProjectGetSuccess project Sample.ok); (20, Click);
       (30, TaskPostSuccess (VObj [("payload", VObj [("ticket", VStr "t1")])]) Sample.ok);
       (3030, Tick 2); (3100, RunGetSuccess (Sample.reply (VStr "running") VNull) Sample.ok);
       (6030, Tick 2);
       (6100, RunGetSuccess (Sample.reply (VStr "complete") (VStr "abc==")) Sample.ok);
       (9030, Tick 2)] in
  List.map ajax_request (sent (window w)) =
    ["{" ++ Str.quote "project" ++ ":" ++ Str.quote "Example" ++ "}";
     JSON.stringify
       (VObj [("patches", VArr [VObj [("contents", VStr "<x/>");
                                      ("filename", VStr "/x/Example/app/a.xml")]]);
              ("project", VStr "Example"); ("user_id", VStr "some_user")]);
     "{" ++ Str.quote "ticket" ++ ":" ++ Str.quote "t1" ++ "}";
     "{" ++ Str.quote "ticket" ++ ":" ++ Str.quote "t1" ++ "}"] /\
  status_text (document w) = "Finished run of Example. Status: complete. Result: " /\
  result_nodes (document w) = ["<img src='data:image/jpeg;base64,abc==' /><br />"] /\
  filename_text (document w) = "Example/app/a.xml" /\
  ace_mode (editor w) = "ace/mode/xml" /\
  timers (window w) = ∅ /\
  client w = ModuleState (VStr "/x/Example/app/a.xml") (VStr "Example") None None VNull
               None None VNull.
Proof. vm_compute. repeat split. Qed.

(* ===================================================================== *)
(** * Binary64 arithmetic: rounding, printing and reading back *)
(* ===================================================================== *)

Lemma round_half_even_bounds num den :
  0 < den ->
  let m := Double.round_half_even num den in
  2 * den * m - den <= 2 * num <= 2 * den * m + den.
Proof.
  intros Hden. unfold Double.round_half_even.
  pose proof (Z.div_mod num den ltac:(lia)) as Hdm.
  pose proof (Z.mod_pos_bound num den Hden) as Hr.
  set (q := num / den) in *. set (r := num mod den) in *.
  destruct (Z.compare_spec (2 * r) den); [destruct (Z.even q) | |]; cbv zeta; nia.
Qed.

Lemma round_half_even_exact num : Double.round_half_even num 1 = num.
Proof.
  unfold Double.round_half_even.
  rewrite Z.div_1_r, Z.mod_1_r. reflexivity.
Qed.

(** Normalisation: for a quotient below 2^52 the unit in the last place is a
    negative power of two, and the scaled quotient reaches 2^52. *)
Lemma ulp_exp_small p d :
  0 < p -> 0 < d -> p < 2 ^ 52 * d ->
  let e := Double.ulp_exp p d in
  e < 0 /\ 2 ^ 52 * d <= p * 2 ^ (- e).
Proof.
  intros Hp Hd Hq. unfold Double.ulp_exp.
  destruct (Z.log2_spec p Hp) as [Hp1 Hp2].
  destruct (Z.log2_spec d Hd) as [Hd1 Hd2].
  pose proof (Z.log2_nonneg p) as Hlp. pose proof (Z.log2_nonneg d) as Hld.
  set (lp := Z.log2 p) in *. set (ld := Z.log2 d) in *.
  assert (Hlt : lp < ld + 53).
  { apply (Z.pow_lt_mono_r_iff 2); try lia.
    replace (ld + 53) with (52 + Z.succ ld) by lia.
    rewrite Z.pow_add_r by lia. nia. }
  assert (He0 : lp - ld - 53 < 0) by lia.
  replace (lp - ld - 53 <? 0) with true by (symmetry; apply Z.ltb_lt; lia).
  assert (Hbig : 2 ^ 52 * 2 ^ Z.succ ld <= p * 2 ^ (- (lp - ld - 53))).
  { replace (- (lp - ld - 53)) with ((ld + 53 - lp)) by lia.
    rewrite <- Z.pow_add_r by lia.
    replace (52 + Z.succ ld) with (lp + (ld + 53 - lp)) by lia.
    rewrite Z.pow_add_r by lia.
    apply Z.mul_le_mono_nonneg_r; [apply Z.pow_nonneg; lia | lia]. }
  destruct (Z.leb_spec (2 ^ 53 * d) (p * 2 ^ (- (lp - ld - 53)))) as [Hc | Hc].
  - assert (lp - ld - 53 <> -1).
    { intros E. rewrite E in Hc. change (2 ^ (- -1)) with 2 in Hc.
      change (2 ^ 53) with (2 * 2 ^ 52) in Hc. lia. }
    split; [lia |].
    replace (- (lp - ld - 53)) with (Z.succ (- (lp - ld - 53 + 1))) in Hc by lia.
    rewrite Z.pow_succ_r in Hc by lia.
    change (2 ^ 53) with (2 * 2 ^ 52) in Hc. lia.
  - split; [lia |]. nia.
Qed.

Lemma rn_pos_small p d :
  0 < p -> 0 < d -> p < 2 ^ 52 * d ->
  exists m e,
    Double.rn_pos p d = Dbl m e /\ e < 0 /\
    2 ^ 52 * d <= p * 2 ^ (- e) /\
    2 * d * m - d <= 2 * (p * 2 ^ (- e)) <= 2 * d * m + d.
Proof.
  intros Hp Hd Hq.
  destruct (ulp_exp_small p d Hp Hd Hq) as [He Hn].
  unfold Double.rn_pos.
  replace (Double.ulp_exp p d <? 0) with true by (symmetry; apply Z.ltb_lt; lia).
  eexists _, _. split; [reflexivity |]. split; [exact He |]. split; [exact Hn |].
  apply round_half_even_bounds. exact Hd.
Qed.

Lemma rn_opp p d : Double.rn (- p) d = dneg (Double.rn p d).
Proof.
  destruct p as [| q | q]; unfold Double.rn, dneg.
  - reflexivity.
  - change (- Z.pos q) with (Z.neg q). cbv iota beta zeta.
    change (- Z.neg q) with (Z.pos q). reflexivity.
  - change (- Z.neg q) with (Z.pos q). cbv iota beta zeta.
    destruct (Double.rn_pos (Z.pos q) d) as [m e]. cbn [mant expo].
    rewrite Z.opp_involutive. reflexivity.
Qed.

Lemma rn_positive p d : 0 < p -> Double.rn p d = Double.rn_pos p d.
Proof. destruct p; try lia. reflexivity. Qed.

Lemma div_int_opp x k : Double.div_int (dneg x) k = dneg (Double.div_int x k).
Proof.
  destruct x as [m e]. unfold Double.div_int. cbn [dneg mant expo].
  destruct (e <? 0).
  - apply rn_opp.
  - rewrite <- rn_opp. f_equal. lia.
Qed.

Lemma tenths_opp x : Double.tenths (dneg x) = Double.tenths x.
Proof. destruct x as [m e]. unfold Double.tenths, dneg. cbn [mant expo]. rewrite Z.abs_opp. reflexivity. Qed.

(** Halving an integer to the nearest, ties to even. *)
Lemma round_half_even_2 ms :
  let p := 2 * Double.round_half_even ms 2 in
  p = ms \/ (p = ms - 1 \/ p = ms + 1) /\ exists j, p = 4 * j.
Proof.
  unfold Double.round_half_even.
  pose proof (Z.div_mod ms 2 ltac:(lia)) as Hdm.
  pose proof (Z.mod_pos_bound ms 2 ltac:(lia)) as Hr.
  set (q := ms / 2) in *. set (r := ms mod 2) in *.
  assert (r = 0 \/ r = 1) as [-> | ->] by lia.
  - left. change (2 * 0 ?= 2) with Lt. cbv iota zeta. lia.
  - right. change (2 * 1 ?= 2) with Eq. cbv iota zeta.
    destruct (Z.even q) eqn:Hq.
    + apply Z.even_spec in Hq as [k Hk]. split; [lia | exists k; lia].
    + assert (Z.odd q = true) as Ho by (rewrite <- Z.negb_even, Hq; reflexivity).
      apply Z.odd_spec in Ho as [k Hk]. split; [lia | exists (k + 1); lia].
Qed.

(** The difference of two time values, as a double: exact below 2^53, and
    otherwise the nearest even integer, a multiple of 4 when the exact
    difference is odd. *)
Lemma sub_pos ms :
  0 < ms <= 17280000000000000 ->
  exists m e p,
    Double.rn ms 1 = Dbl m e /\
    (e <= 0 /\ m = p * 2 ^ (- e) \/ e = 1 /\ p = 2 * m) /\
    (p = ms /\ (ms < 2 ^ 53 \/ exists i, p = 2 * i) \/
     2 ^ 53 <= ms /\ (p = ms - 1 \/ p = ms + 1) /\ exists j, p = 4 * j).
Proof.
  intros [H0 H1]. rewrite rn_positive by lia.
  destruct (Z.lt_ge_cases ms (2 ^ 52)) as [Hs | Hs].
  { destruct (rn_pos_small ms 1 H0 ltac:(lia) ltac:(lia)) as (m & e & -> & He & _ & Hb).
    exists m, e, ms. split; [reflexivity |]. split; [left; lia |].
    left. change (2 ^ 52) with 4503599627370496 in Hs.
    change (2 ^ 53) with 9007199254740992. lia. }
  destruct (Z.lt_ge_cases ms (2 ^ 53)) as [Hm | Hm].
  { exists ms, 0, ms. split; [| split; [left; change (2 ^ (- 0)) with 1; lia | left; lia]].
    unfold Double.rn_pos, Double.ulp_exp.
    assert (Hl : Z.log2 ms = 52) by (apply Z.log2_unique; [lia | split; assumption]).
    rewrite Hl. change (Z.log2 1) with 0. change (52 - 0 - 53) with (-1).
    change (-1 <? 0) with true. cbv iota. change (2 ^ (- -1)) with 2.
    replace (2 ^ 53 * 1 <=? ms * 2) with true
      by (symmetry; apply Z.leb_le; change (2 ^ 53) with (2 * 2 ^ 52); lia).
    change (-1 + 1) with 0. change (0 <? 0) with false. cbv iota.
    change (2 ^ 0) with 1. change (1 * 1) with 1.
    rewrite round_half_even_exact. reflexivity. }
  exists (Double.round_half_even ms 2), 1, (2 * Double.round_half_even ms 2).
  split; [| split; [right; lia |]].
  - unfold Double.rn_pos, Double.ulp_exp.
    assert (Hl : Z.log2 ms = 53).
    { apply Z.log2_unique; [lia |]. split; [exact Hm |].
      change (2 ^ Z.succ 53) with 18014398509481984. lia. }
    rewrite Hl. change (Z.log2 1) with 0. change (53 - 0 - 53) with 0.
    change (0 <? 0) with false. cbv iota. change (2 ^ 0) with 1. change (1 * 1) with 1.
    replace (2 ^ 53 * 1 <=? ms) with true by (symmetry; apply Z.leb_le; lia).
    change (0 + 1) with 1. change (1 <? 0) with false. cbv iota.
    change (1 * 2 ^ 1) with 2. reflexivity.
  - destruct (round_half_even_2 ms) as [Hp | [Hp Hj]].
    + left. split; [exact Hp |]. right. eexists. reflexivity.
    + right. split; [exact Hm |]. split; assumption.
Qed.

(** The quotient by 1000 of a positive time difference [ms]: a double
    within half a unit in the last place of [p / 1000], where [p] is the
    difference as a double. *)
Lemma div_1000_pos ms :
  0 < ms <= 17280000000000000 ->
  exists m e p,
    Double.div_int (Double.rn ms 1) 1000 = Dbl m e /\ e < 0 /\ 0 < m /\
    (p = ms /\ (500 < 2 ^ (- e) \/ exists i, p = 2 * i) \/
     (p = ms - 1 \/ p = ms + 1) /\ exists j, p = 4 * j) /\
    260 < 2 ^ (- e) /\
    2000 * m - 1000 <= 2 * (p * 2 ^ (- e)) <= 2000 * m + 1000.
Proof.
  intros Hms.
  destruct (sub_pos ms Hms) as (m1 & e1 & p & -> & Hrep & Hp).
  assert (Hpr : 0 < p <= 17280000000000001).
  { change (2 ^ 53) with 9007199254740992 in Hp.
    destruct Hp as [[-> _] | [Hbig [[-> | ->] _]]]; lia. }
  unfold Double.div_int. cbn [mant expo].
  assert (exists p' d, (if e1 <? 0 then Double.rn m1 (1000 * 2 ^ (- e1))
                        else Double.rn (m1 * 2 ^ e1) 1000) = Double.rn p' d /\
                       0 < p' /\ 0 < d /\ 1000 * p' = p * d) as (p' & d & -> & Hp' & Hd & Hpd).
  { destruct Hrep as [[He1 Hm1] | [-> Hm1]].
    - assert (HE1 : 0 < 2 ^ (- e1)) by (apply Z.pow_pos_nonneg; lia).
      destruct (Z.ltb_spec e1 0).
      + exists m1, (1000 * 2 ^ (- e1)). repeat split; nia.
      + assert (e1 = 0) by lia. subst e1. change (2 ^ (- 0)) with 1 in *.
        change (2 ^ 0) with 1. exists (m1 * 1), 1000. repeat split; lia.
    - change (1 <? 0) with false. cbv iota. change (2 ^ 1) with 2.
      exists (m1 * 2), 1000. repeat split; lia. }
  rewrite rn_positive by lia.
  assert (Hq : p' < 2 ^ 52 * d).
  { change (2 ^ 52) with 4503599627370496. nia. }
  destruct (rn_pos_small p' d Hp' Hd Hq) as (m & e & -> & He & Hn & Hb).
  exists m, e, p. split; [reflexivity |]. split; [exact He |].
  assert (HE : 0 < 2 ^ (- e)) by (apply Z.pow_pos_nonneg; lia).
  set (E := 2 ^ (- e)) in *.
  change (2 ^ 52) with 4503599627370496 in *.
  assert (Hnorm : 4503599627370496 * 1000 <= p * E) by nia.
  split; [nia |]. split.
  - destruct Hp as [[-> [Hsmall | Heven]] | Hodd].
    + left. split; [reflexivity |]. left.
      change (2 ^ 53) with 9007199254740992 in Hsmall. nia.
    + left. split; [reflexivity |]. right. exact Heven.
    + right. apply Hodd.
  - split; nia.
Qed.

Lemma tenths_nearest_pos ms :
  0 < ms <= 17280000000000000 ->
  let x := Double.div_int (Double.rn ms 1) 1000 in
  0 < mant x /\ ms - 50 <= 100 * Double.tenths x <= ms + 50.
Proof.
  intros Hms x. subst x.
  destruct (div_1000_pos ms Hms) as (m & e & p & -> & He & Hm & Hp & HE & Hb).
  cbn [mant]. split; [exact Hm |].
  unfold Double.tenths. cbn [mant expo].
  replace (e <? 0) with true by (symmetry; apply Z.ltb_lt; lia).
  rewrite Z.abs_eq by lia.
  replace (- e + 1) with (Z.succ (- e)) by lia.
  rewrite Z.pow_succ_r by lia.
  set (E := 2 ^ (- e)) in *.
  pose proof (Z.div_mod (20 * m + E) (2 * E) ltac:(lia)) as Hdm.
  pose proof (Z.mod_pos_bound (20 * m + E) (2 * E) ltac:(lia)) as Hr.
  set (n := (20 * m + E) / (2 * E)) in *.
  set (r := (20 * m + E) mod (2 * E)) in *.
  assert (Hup : E * (200 * n - 2 * p - 100) <= 1000) by nia.
  assert (Hlo : E * (2 * p - 100 - 200 * n) < 1000) by nia.
  assert (Hup' : 200 * n - 2 * p - 100 <= 3) by nia.
  assert (Hlo' : 2 * p - 100 - 200 * n <= 3) by nia.
  destruct Hp as [[-> [Hfine | [i Hi]]] | [[-> | ->] [j Hj]]].
  - assert (200 * n - 2 * ms - 100 <= 1) by nia.
    assert (2 * ms - 100 - 200 * n <= 1) by nia. lia.
  - lia.
  - lia.
  - lia.
Qed.

Lemma tenths_nearest ms :
  - 17280000000000000 <= ms <= 17280000000000000 ->
  let x := Double.div_int (Double.rn ms 1) 1000 in
  (mant x <? 0) = (ms <? 0) /\
  ms - 50 <= 100 * signed_tenths x <= ms + 50.
Proof.
  intros Hms x. subst x. unfold signed_tenths.
  destruct (Z.lt_trichotomy ms 0) as [Hneg | [-> | Hpos]].
  - replace ms with (- - ms) by lia.
    rewrite rn_opp, div_int_opp, tenths_opp.
    destruct (tenths_nearest_pos (- ms) ltac:(lia)) as [Hm Hn].
    cbn [dneg mant].
    replace (- mant (Double.div_int (Double.rn (- ms) 1) 1000) <? 0) with true
      by (symmetry; apply Z.ltb_lt; lia).
    replace (- - ms <? 0) with true by (symmetry; apply Z.ltb_lt; lia).
    split; [reflexivity | lia].
  - vm_compute. repeat split; discriminate.
  - destruct (tenths_nearest_pos ms ltac:(lia)) as [Hm Hn].
    replace (mant (Double.div_int (Double.rn ms 1) 1000) <? 0) with false
      by (symmetry; apply Z.ltb_ge; lia).
    replace (ms <? 0) with false by (symmetry; apply Z.ltb_ge; lia).
    split; [reflexivity | lia].
Qed.

Lemma append_cons c s t : String c s ++ t = String c (s ++ t).
Proof. reflexivity. Qed.

Lemma append_nil_l s : "" ++ s = s.
Proof. reflexivity. Qed.

Lemma string_of_uint_digits d : digits_only (NilEmpty.string_of_uint d) = true.
Proof. induction d; cbn; auto. Qed.

Lemma digits_nilempty n :
  Double.digits n = NilEmpty.string_of_uint (N.to_uint (Z.to_N n)).
Proof.
  unfold Double.digits, NilZero.string_of_uint.
  destruct (Z.to_N n) as [| p]; [reflexivity |].
  cbn [N.to_uint].
  pose proof (DecimalPos.Unsigned.to_uint_nonnil p) as Hnil.
  destruct (Pos.to_uint p); [contradiction | reflexivity ..].
Qed.

Lemma digits_digits_only n : digits_only (Double.digits n) = true.
Proof. rewrite digits_nilempty. apply string_of_uint_digits. Qed.

Lemma digits_nonempty n : exists c t, Double.digits n = String c t.
Proof.
  unfold Double.digits, NilZero.string_of_uint.
  destruct (Z.to_N n) as [| p]; [eexists _, _; reflexivity |].
  cbn [N.to_uint].
  pose proof (DecimalPos.Unsigned.to_uint_nonnil p) as Hnil.
  destruct (Pos.to_uint p); [contradiction | eexists _, _; reflexivity ..].
Qed.

Lemma digits_value n :
  0 <= n ->
  option_map (fun u => Z.of_N (N.of_uint u)) (NilEmpty.uint_of_string (Double.digits n))
  = Some n.
Proof.
  intros Hn. rewrite digits_nilempty, NilEmpty.usu. cbn [option_map].
  rewrite DecimalN.Unsigned.of_to. rewrite Z2N.id by lia. reflexivity.
Qed.

Lemma digit_length b : 0 <= b < 10 -> String.length (Double.digits b) = 1%nat.
Proof.
  intros Hb.
  assert (b = 0 \/ b = 1 \/ b = 2 \/ b = 3 \/ b = 4 \/ b = 5 \/ b = 6 \/ b = 7 \/
          b = 8 \/ b = 9) as Hc by lia.
  repeat (destruct Hc as [-> | Hc]; [reflexivity |]). subst b. reflexivity.
Qed.

Lemma split_point_digits s rest :
  digits_only s = true ->
  Double.split_point (s ++ String "." rest) = (s, Some rest).
Proof.
  induction s as [| c t IH]; intros Hd.
  - reflexivity.
  - cbn [digits_only] in Hd. apply andb_prop in Hd as [Hc Ht].
    rewrite append_cons. cbn [Double.split_point].
    replace (Ascii.eqb c ".") with false.
    + rewrite (IH Ht). reflexivity.
    + symmetry. apply Ascii.eqb_neq. intros ->. discriminate Hc.
Qed.

Lemma of_unsigned_fixed a b :
  0 <= a -> 0 <= b < 10 ->
  Double.of_unsigned (Double.digits a ++ "." ++ Double.digits b) = Some (a * 10 + b, 10).
Proof.
  intros Ha Hb. unfold Double.of_unsigned.
  change ("." ++ Double.digits b) with (String "."%char (Double.digits b)).
  rewrite split_point_digits by apply digits_digits_only.
  pose proof (digits_value a Ha) as Hva. pose proof (digits_value b ltac:(lia)) as Hvb.
  destruct (NilEmpty.uint_of_string (Double.digits a)) as [ua |]; [| discriminate].
  destruct (NilEmpty.uint_of_string (Double.digits b)) as [ub |]; [| discriminate].
  cbn [option_map] in Hva, Hvb. injection Hva as Hva. injection Hvb as Hvb.
  destruct (digits_nonempty a) as (c & t & Hct). rewrite Hct at 1.
  cbn [String.eqb andb].
  rewrite digit_length by assumption. rewrite Hva, Hvb. reflexivity.
Qed.

(** The text made by [toFixed(1)] reads back as the double nearest to the
    printed decimal. *)
Lemma of_string_toFixed1 x :
  0 <= Double.tenths x ->
  Double.of_string (Double.toFixed1 x) = Some (Double.rn (signed_tenths x) 10).
Proof.
  intros Hn. unfold Double.toFixed1, signed_tenths.
  set (n := Double.tenths x) in *.
  pose proof (Z.mod_pos_bound n 10 ltac:(lia)) as Hb.
  pose proof (Z.div_pos n 10 Hn ltac:(lia)) as Ha.
  pose proof (of_unsigned_fixed (n / 10) (n mod 10) Ha Hb) as Hu.
  replace (n / 10 * 10 + n mod 10) with n in Hu
    by (pose proof (Z.div_mod n 10 ltac:(lia)); lia).
  destruct (mant x <? 0).
  - change ("-" ++ ?s) with (String "-"%char s).
    cbn [Double.of_string]. change (Ascii.eqb "-" "-") with true. cbv iota.
    rewrite Hu. reflexivity.
  - change ("" ++ ?s) with s.
    destruct (digits_nonempty (n / 10)) as (c & t & Hct).
    pose proof (digits_digits_only (n / 10)) as Hd. rewrite Hct in Hd, Hu |- *.
    rewrite append_cons. cbn [Double.of_string].
    cbn [digits_only] in Hd. apply andb_prop in Hd as [Hc _].
    replace (Ascii.eqb c "-") with false
      by (symmetry; apply Ascii.eqb_neq; intros ->; discriminate Hc).
    replace (Ascii.eqb c "+") with false
      by (symmetry; apply Ascii.eqb_neq; intros ->; discriminate Hc).
    rewrite append_cons in Hu. rewrite Hu. reflexivity.
Qed.

(** A decimal with one fractional digit compares with an integer as the
    exact values do. *)
Lemma gtb_rn_tenths n k :
  - 2 ^ 50 < n < 2 ^ 50 ->
  Double.gtb_int (Double.rn n 10) k = (10 * k <? n).
Proof.
  intros Hn.
  assert (Hpos : forall p, 0 < p < 2 ^ 50 ->
            exists m e, Double.rn_pos p 10 = Dbl m e /\ e < 0 /\ 40 < 2 ^ (- e) /\
                        20 * m - 10 <= 2 * (p * 2 ^ (- e)) <= 20 * m + 10).
  { intros p Hp.
    destruct (rn_pos_small p 10 ltac:(lia) ltac:(lia)) as (m & e & Hx & He & Hnorm & Hb).
    { change (2 ^ 50) with 1125899906842624 in Hp.
      change (2 ^ 52) with 4503599627370496. lia. }
    exists m, e. repeat split; try assumption; try lia.
    change (2 ^ 50) with 1125899906842624 in Hp.
    change (2 ^ 52) with 4503599627370496 in Hnorm.
    assert (0 < 2 ^ (- e)) by (apply Z.pow_pos_nonneg; lia). nia. }
  destruct (Z.lt_trichotomy n 0) as [Hneg | [-> | Hp]].
  - replace n with (- - n) at 1 by lia. rewrite rn_opp, rn_positive by lia.
    destruct (Hpos (- n) ltac:(lia)) as (m & e & -> & He & HE & Hb).
    unfold Double.gtb_int. cbn [dneg mant expo].
    replace (e <? 0) with true by (symmetry; apply Z.ltb_lt; lia).
    set (E := 2 ^ (- e)) in *.
    destruct (Z.ltb_spec (10 * k) n); [apply Z.ltb_lt | apply Z.ltb_ge]; nia.
  - unfold Double.rn, Double.zero, Double.gtb_int. cbn [mant expo].
    change (0 <? 0) with false. cbv iota. change (0 * 2 ^ 0) with 0.
    destruct (Z.ltb_spec (10 * k) 0); [apply Z.ltb_lt | apply Z.ltb_ge]; lia.
  - rewrite rn_positive by lia.
    destruct (Hpos n ltac:(lia)) as (m & e & -> & He & HE & Hb).
    unfold Double.gtb_int. cbn [mant expo].
    replace (e <? 0) with true by (symmetry; apply Z.ltb_lt; lia).
    set (E := 2 ^ (- e)) in *.
    destruct (Z.ltb_spec (10 * k) n); [apply Z.ltb_lt | apply Z.ltb_ge]; nia.
Qed.

(* ===================================================================== *)
(** * The newline pattern *)
(* ===================================================================== *)

Import ANDROID_CLIENT.

Lemma append_nil_r s : s ++ "" = s.
Proof. induction s as [| c s IH]; [reflexivity |]. rewrite append_cons, IH. reflexivity. Qed.

Lemma append_assoc s t u : (s ++ t) ++ u = s ++ (t ++ u).
Proof. induction s as [| c s IH]; [reflexivity |]. rewrite !append_cons, IH. reflexivity. Qed.

Lemma classify a : char_class a.
Proof.
  destruct (Ascii.eqb_spec a Str.CR) as [-> | H1]; [now apply IsCR |].
  destruct (Ascii.eqb_spec a Str.LF) as [-> | H2]; [now apply IsLF |].
  destruct (Ascii.eqb_spec a ">") as [-> | H3]; [now apply IsGT |].
  apply IsPlain; apply Ascii.eqb_neq; congruence.
Qed.

Lemma len_sub_0 (n : nat) : (n - n = 0)%nat. Proof. lia. Qed.
Lemma len_sub_1 (n : nat) : (S n - n = 1)%nat. Proof. lia. Qed.
Lemma len_sub_2 (n : nat) : (S (S n) - n = 2)%nat. Proof. lia. Qed.
Lemma len_sub_3 (n : nat) : (S (S (S n)) - n = 3)%nat. Proof. lia. Qed.
Lemma eqb_succ (n : nat) : Nat.eqb n (S n) = false.
Proof. apply Nat.eqb_neq. lia. Qed.

(** Evaluate the comparisons of known characters and use the recorded ones. *)
Ltac chars :=
  repeat match goal with
         | H : Ascii.eqb _ _ = false |- _ => rewrite !H
         | |- context [Ascii.eqb ?x ?y] =>
             let b := eval vm_compute in (Ascii.eqb x y) in
             match b with
             | true => change (Ascii.eqb x y) with true
             | false => change (Ascii.eqb x y) with false
             end
         end.

Lemma consumed_0 s : Regex.consumed s s = "".
Proof. unfold Regex.consumed. rewrite len_sub_0. reflexivity. Qed.
Lemma consumed_1 a s : Regex.consumed (String a s) s = String a "".
Proof. unfold Regex.consumed. cbn [String.length]. rewrite len_sub_1. reflexivity. Qed.
Lemma consumed_2 a b s : Regex.consumed (String a (String b s)) s = String a (String b "").
Proof. unfold Regex.consumed. cbn [String.length]. rewrite len_sub_2. reflexivity. Qed.

Ltac lens :=
  rewrite ?consumed_0, ?consumed_1, ?consumed_2, ?len_sub_0, ?len_sub_1, ?len_sub_2,
    ?len_sub_3, ?eqb_succ.

Lemma exec_second_group s caps :
  Regex.exec second_group s caps (fun rest caps => Some (rest, caps)) =
  match newline_len s with
  | O => None
  | n => Some (Str.drop n s, (2%nat, Regex.take n s) :: caps)
  end.
Proof.
  unfold second_group, newline_len, Spec.is_pair, Spec.is_newline.
  destruct s as [| a [| b t]].
  - reflexivity.
  - destruct (classify a) as [-> | -> | -> | A1 A2 A3 A4 A5];
      cbn -[Ascii.eqb Nat.sub]; chars; cbn -[Ascii.eqb Nat.sub]; lens; reflexivity.
  - destruct (classify a) as [-> | -> | -> | A1 A2 A3 A4 A5];
      destruct (classify b) as [-> | -> | -> | B1 B2 B3 B4 B5];
      cbn -[Ascii.eqb Nat.sub]; chars; cbn -[Ascii.eqb Nat.sub]; lens; reflexivity.
Qed.

Lemma match_at_newline s :
  Regex.match_at newline_pattern s =
  match s with
  | "" => None
  | String a t =>
      if plain a
      then match newline_len t with
           | O => None
           | n => Some (Str.drop n t, [(2%nat, Regex.take n t); (1%nat, String a "")])
           end
      else match newline_len s with
           | O => None
           | n => Some (Str.drop n s, [(2%nat, Regex.take n s); (1%nat, "")])
           end
  end.
Proof.
  unfold Regex.match_at, newline_pattern, first_group, plain.
  cbn [Regex.exec].
  destruct s as [| a t].
  - rewrite exec_second_group. reflexivity.
  - destruct (classify a) as [-> | -> | -> | A1 A2 A3 A4 A5];
      cbn [existsb]; chars; cbn [orb negb]; cbv iota.
    1-3: rewrite exec_second_group, consumed_0; reflexivity.
    cbn [String.length]. rewrite eqb_succ, consumed_1, consumed_0.
    rewrite !exec_second_group.
    destruct (newline_len t) eqn:Ht; [| reflexivity].
    unfold newline_len, Spec.is_pair, Spec.is_newline. destruct t; chars; reflexivity.
Qed.

Lemma replace_skip r tpl k :
  forall s, (k <= String.length s)%nat ->
    Regex.replace_from r tpl s k = Regex.replace_from r tpl (Str.drop k s) 0.
Proof.
  induction k as [| k IH]; intros s Hk.
  - destruct s; reflexivity.
  - destruct s as [| a t]; [cbn in Hk; lia |].
    cbn [Regex.replace_from Str.drop]. apply IH. cbn in Hk. lia.
Qed.

Lemma newline_len_le s : (newline_len s <= String.length s)%nat.
Proof.
  unfold newline_len. destruct s as [| a [| b t]]; cbn [String.length].
  - lia.
  - destruct (Spec.is_newline a); lia.
  - destruct (Spec.is_pair a b); [lia |]. destruct (Spec.is_newline a); lia.
Qed.

Lemma length_drop n : forall s, String.length (Str.drop n s) = (String.length s - n)%nat.
Proof.
  induction n as [| n IH]; intros s.
  - cbn. destruct s; cbn; lia.
  - destruct s as [| a t]; [reflexivity |]. cbn [Str.drop String.length]. rewrite IH. lia.
Qed.

(** One step of the scan, at a position where the pattern is tried. *)
Lemma replace_newline_step s :
  Regex.replace_from newline_pattern newline_replacement s 0 =
  match s with
  | "" => ""
  | String a t =>
      match newline_len s with
      | O => String a (Regex.replace_from newline_pattern newline_replacement t 0)
      | n => "<br />" ++ Regex.take n s ++
             Regex.replace_from newline_pattern newline_replacement (Str.drop n s) 0
      end
  end.
Proof.
  assert (Hnl : forall a t n, newline_len (String a t) = S n ->
    Regex.replace_from newline_pattern newline_replacement (String a t) 0 =
    "<br />" ++ Regex.take (S n) (String a t) ++
    Regex.replace_from newline_pattern newline_replacement (Str.drop (S n) (String a t)) 0).
  { intros a t n Hn.
    assert (Hp : plain a = false).
    { unfold plain. unfold newline_len, Spec.is_pair, Spec.is_newline in Hn.
      destruct (classify a) as [-> | -> | -> | A1 A2 A3 A4 A5]; try reflexivity.
      revert Hn. destruct t; chars; discriminate. }
    cbn [Regex.replace_from]. rewrite match_at_newline, Hp, Hn.
    cbn [newline_replacement Regex.substitute Regex.capture Nat.eqb].
    rewrite length_drop.
    pose proof (newline_len_le (String a t)) as Hle. rewrite Hn in Hle.
    replace (String.length (String a t) - (String.length (String a t) - S n))%nat
      with (S n) by lia.
    rewrite replace_skip by (cbn [String.length] in Hle; lia).
    cbn [Str.drop]. rewrite append_nil_l, append_nil_r, append_assoc. reflexivity. }
  destruct s as [| a t]; [reflexivity |].
  destruct (newline_len (String a t)) eqn:Hs; [| apply Hnl; exact Hs].
  cbn [Regex.replace_from]. rewrite match_at_newline, Hs.
  destruct (plain a) eqn:Hp; [| reflexivity].
  destruct (newline_len t) eqn:Ht; [reflexivity |].
  cbn [newline_replacement Regex.substitute Regex.capture Nat.eqb].
  rewrite length_drop.
  pose proof (newline_len_le t) as Hle. rewrite Ht in Hle.
  cbn [String.length].
  replace (S (String.length t) - (String.length t - S n))%nat with (S (S n)) by lia.
  rewrite replace_skip by lia.
  destruct t as [| b u]; [discriminate Ht |].
  rewrite (Hnl b u n Ht).
  rewrite append_nil_r, append_cons, append_nil_l. reflexivity.
Qed.

Ltac steps :=
  repeat (cbn [Spec.insert_br newline_len Str.drop Regex.take orb andb];
          unfold Spec.is_pair, Spec.is_newline; chars; cbv iota;
          rewrite ?append_cons, ?append_nil_l).

Lemma insert_br_step s :
  Spec.insert_br s =
  match s with
  | "" => ""
  | String a t =>
      match newline_len s with
      | O => String a (Spec.insert_br t)
      | n => "<br />" ++ Regex.take n s ++ Spec.insert_br (Str.drop n s)
      end
  end.
Proof.
  destruct s as [| a [| b t]]; [reflexivity | |];
    destruct (classify a) as [-> | -> | -> | A1 A2 A3 A4 A5]; steps; try reflexivity.
  all: destruct (classify b) as [-> | -> | -> | B1 B2 B3 B4 B5]; steps; reflexivity.
Qed.

Lemma replace_newlines_insert_br s :
  Regex.replace_all newline_pattern newline_replacement s = Spec.insert_br s.
Proof.
  unfold Regex.replace_all.
  remember (String.length s) as n eqn:Hn.
  revert s Hn. induction n as [n IH] using (well_founded_induction lt_wf). intros s Hn.
  rewrite replace_newline_step, insert_br_step.
  destruct s as [| a t]; [reflexivity |].
  pose proof (newline_len_le (String a t)) as Hle.
  destruct (newline_len (String a t)) as [| k].
  - f_equal. apply (IH (String.length t)); [subst n; cbn; lia | reflexivity].
  - do 2 f_equal.
    apply (IH (String.length (Str.drop (S k) (String a t)))); [| reflexivity].
    rewrite length_drop. subst n. lia.
Qed.

(* ===================================================================== *)
(** * Handlers and the polling state *)
(* ===================================================================== *)

Import Browser.

Section Keeps.

Lemma keeps_ret {A} (a : A) : keeps (ret a).
Proof. intros w. reflexivity. Qed.

Lemma keeps_throw {A} : keeps (@throw A).
Proof. intros w. reflexivity. Qed.

Lemma keeps_gets {A} (f : world -> A) : keeps (gets f).
Proof. intros w. reflexivity. Qed.

Lemma keeps_bind {A B} (c : js A) (k : A -> js B) :
  keeps c -> (forall a, keeps (k a)) -> keeps (bind c k).
Proof.
  intros Hc Hk w. unfold bind. specialize (Hc w).
  destruct (c w) as [[a |] w1]; cbn [snd] in *.
  - rewrite Hk. exact Hc.
  - exact Hc.
Qed.

Lemma keeps_access v k : keeps (access v k).
Proof. unfold access. destruct (JS.prop v k); [apply keeps_ret | apply keeps_throw]. Qed.

Lemma keeps_on_dom f : keeps (Upd.on_dom f).
Proof. intros w. reflexivity. Qed.

Lemma keeps_on_editor f : keeps (Upd.on_editor f).
Proof. intros w. reflexivity. Qed.

Lemma keeps_editorFile v : keeps (Upd.on_client (Upd.editorFile v)).
Proof. intros w. reflexivity. Qed.

Lemma keeps_projectName v : keeps (Upd.on_client (Upd.projectName v)).
Proof. intros w. reflexivity. Qed.

Lemma keeps_runPayload v : keeps (Upd.on_client (Upd.runPayload v)).
Proof. intros w. reflexivity. Qed.

Lemma keeps_runTicket v : keeps (Upd.on_client (Upd.runTicket v)).
Proof. intros w. reflexivity. Qed.

Lemma keeps_statusStart v : keeps (Upd.on_client (Upd.statusUpdateIntervalStart v)).
Proof. intros w. reflexivity. Qed.

Lemma keeps_ajax_send r : keeps (Window.ajax_send r).
Proof. intros w. reflexivity. Qed.

Lemma keeps_console_log s : keeps (Window.console_log s).
Proof. intros w. reflexivity. Qed.

End Keeps.

Create HintDb keeps discriminated.

Ltac keeps_step :=
  lazymatch goal with
  | |- keeps (bind _ _) => apply keeps_bind; [| intros ?]
  | |- keeps (ret _) => apply keeps_ret
  | |- keeps throw => apply keeps_throw
  | |- keeps (gets _) => apply keeps_gets
  | |- keeps (access _ _) => apply keeps_access
  | |- keeps (Upd.on_dom _) => apply keeps_on_dom
  | |- keeps (Upd.on_editor _) => apply keeps_on_editor
  | |- keeps (Upd.on_client (Upd.editorFile _)) => apply keeps_editorFile
  | |- keeps (Upd.on_client (Upd.projectName _)) => apply keeps_projectName
  | |- keeps (Upd.on_client (Upd.runPayload _)) => apply keeps_runPayload
  | |- keeps (Upd.on_client (Upd.runTicket _)) => apply keeps_runTicket
  | |- keeps (Upd.on_client (Upd.statusUpdateIntervalStart _)) => apply keeps_statusStart
  | |- keeps (Window.ajax_send _) => apply keeps_ajax_send
  | |- keeps (Window.console_log _) => apply keeps_console_log
  | |- keeps (match ?x with _ => _ end) => destruct x
  | |- keeps _ => solve [auto with keeps]
  end.

Ltac keeps_auto := repeat keeps_step.

Lemma keeps_clearResult : keeps _clearResult.
Proof. unfold _clearResult. keeps_auto. Qed.
Lemma keeps_addResult d : keeps (_addResult d).
Proof. unfold _addResult. keeps_auto. Qed.
Lemma keeps_clearRun : keeps _clearRun.
Proof. unfold _clearRun. keeps_auto. Qed.
Lemma keeps_setStatus d : keeps (_setStatus d).
Proof. unfold _setStatus. keeps_auto. Qed.
Lemma keeps_setError d : keeps (_setError d).
Proof. unfold _setError. keeps_auto. Qed.
Lemma keeps_setFilename d : keeps (_setFilename d).
Proof. unfold _setFilename. keeps_auto. Qed.
Lemma keeps_setEditorContents d : keeps (_setEditorContents d).
Proof. unfold _setEditorContents. keeps_auto. Qed.
Lemma keeps_getEditorMode : keeps _getEditorMode.
Proof. unfold _getEditorMode. keeps_auto. Qed.
#[local] Hint Resolve keeps_clearResult keeps_addResult keeps_clearRun keeps_setStatus
  keeps_setError keeps_setFilename keeps_setEditorContents keeps_getEditorMode : keeps.
Lemma keeps_configureEditor : keeps _configureEditor.
Proof. unfold _configureEditor. keeps_auto. Qed.
Lemma keeps_getFilename f p : keeps (_getFilename f p).
Proof. unfold _getFilename. keeps_auto. Qed.
Lemma keeps_each_query qs : forall acc, keeps (each_query qs acc).
Proof. induction qs as [| q qs IH]; intros acc; cbn [each_query]; keeps_auto. Qed.
#[local] Hint Resolve keeps_configureEditor keeps_getFilename keeps_each_query : keeps.
Lemma keeps_getUrlArgs : keeps _getUrlArgs.
Proof. unfold _getUrlArgs. keeps_auto. Qed.
#[local] Hint Resolve keeps_getUrlArgs : keeps.
Lemma keeps_getProjectNameFromUrl : keeps _getProjectNameFromUrl.
Proof. unfold _getProjectNameFromUrl. keeps_auto. Qed.
Lemma keeps_setUiStateInitialLoadFailed : keeps _setUiStateInitialLoadFailed.
Proof. unfold _setUiStateInitialLoadFailed. keeps_auto. Qed.
Lemma keeps_setUiStateReady : keeps _setUiStateReady.
Proof. unfold _setUiStateReady. keeps_auto. Qed.
Lemma keeps_status_update p now : keeps (status_update p now).
Proof. unfold status_update. keeps_auto. Qed.
#[local] Hint Resolve keeps_getProjectNameFromUrl keeps_setUiStateInitialLoadFailed
  keeps_setUiStateReady keeps_status_update : keeps.
Lemma keeps_onProjectGetError : keeps _onProjectGetError.
Proof. unfold _onProjectGetError. keeps_auto. Qed.
#[local] Hint Resolve keeps_onProjectGetError : keeps.
Lemma keeps_onProjectGetSuccess d x : keeps (_onProjectGetSuccess d x).
Proof. unfold _onProjectGetSuccess. keeps_auto. Qed.
Lemma keeps_main o : keeps (main o).
Proof. unfold main. keeps_auto. Qed.
#[local] Hint Resolve keeps_onProjectGetSuccess keeps_main : keeps.

Section Preserve.

Variable P : world -> Prop.
Hypothesis P_view : forall w w', view w = view w' -> P w -> P w'.

Lemma keeps_preserves {A} (c : js A) : keeps c -> preserves P c.
Proof. intros Hc w Hw. apply (P_view w); [symmetry; apply Hc | exact Hw]. Qed.

Lemma preserves_bind {A B} (c : js A) (k : A -> js B) :
  preserves P c -> (forall a, preserves P (k a)) -> preserves P (bind c k).
Proof.
  intros Hc Hk w Hw. unfold bind. specialize (Hc w Hw).
  destruct (c w) as [[a |] w1]; cbn [snd] in *.
  - apply Hk. exact Hc.
  - exact Hc.
Qed.

Hypothesis P_stopPolling : preserves P _stopPolling.
Hypothesis P_startPolling : forall ticket now, preserves P (_startPolling ticket now).
Hypothesis P_stopStatusUpdates : preserves P _stopStatusUpdates.
Hypothesis P_startStatusUpdates : forall now, preserves P (_startStatusUpdates now).

Ltac preserves_step :=
  lazymatch goal with
  | |- preserves P (bind _ _) => apply preserves_bind; [| intros ?]
  | |- preserves P _stopPolling => apply P_stopPolling
  | |- preserves P (_startPolling _ _) => apply P_startPolling
  | |- preserves P _stopStatusUpdates => apply P_stopStatusUpdates
  | |- preserves P (_startStatusUpdates _) => apply P_startStatusUpdates
  | |- preserves P (match ?x with _ => _ end) => destruct x
  | |- preserves P _ => first [ solve [auto] | apply keeps_preserves; solve [keeps_auto] ]
  end.

Lemma preserves_setUiStateRunDone status optPayload :
  preserves P (_setUiStateRunDone status optPayload).
Proof. unfold _setUiStateRunDone. repeat preserves_step. Qed.

Lemma preserves_setUiStateRunning now : preserves P (_setUiStateRunning now).
Proof. unfold _setUiStateRunning. repeat preserves_step. Qed.

Lemma preserves_onRunGetError : preserves P _onRunGetError.
Proof.
  pose proof preserves_setUiStateRunDone.
  unfold _onRunGetError. repeat preserves_step.
Qed.

Lemma preserves_getRunResults ticket now : preserves P (_getRunResults ticket now).
Proof.
  pose proof preserves_setUiStateRunDone.
  unfold _getRunResults. repeat preserves_step.
Qed.

Lemma preserves_onRunGetSuccess data x : preserves P (_onRunGetSuccess data x).
Proof.
  pose proof preserves_setUiStateRunDone. pose proof preserves_onRunGetError.
  unfold _onRunGetSuccess. repeat preserves_step.
Qed.

Lemma preserves_onProjectPostError x : preserves P (_onProjectPostError x).
Proof.
  pose proof preserves_setUiStateRunDone.
  unfold _onProjectPostError. repeat preserves_step.
Qed.

Lemma preserves_onProjectPostSuccess data x now :
  preserves P (_onProjectPostSuccess data x now).
Proof.
  pose proof preserves_onProjectPostError.
  unfold _onProjectPostSuccess. repeat preserves_step.
Qed.

Lemma preserves_onRunControlClick now : preserves P (_onRunControlClick now).
Proof.
  pose proof preserves_setUiStateRunning.
  unfold _onRunControlClick. repeat preserves_step.
Qed.

Lemma preserves_dispatch_click n now : preserves P (dispatch_click n now).
Proof.
  pose proof preserves_onRunControlClick.
  induction n as [| n IH]; cbn [dispatch_click]; repeat preserves_step.
Qed.

Lemma preserves_handler e now : preserves P (handler e now).
Proof.
  pose proof preserves_dispatch_click. pose proof preserves_getRunResults.
  pose proof preserves_onProjectPostSuccess. pose proof preserves_onProjectPostError.
  pose proof preserves_onRunGetSuccess. pose proof preserves_onRunGetError.
  unfold handler. destruct e; unfold fire; repeat preserves_step.
Qed.

Lemma step_preserves w te : P w -> P (step w te).
Proof. intros Hw. unfold step, exec. apply preserves_handler. exact Hw. Qed.

Lemma run_preserves trace : forall w, P w -> P (run w trace).
Proof.
  unfold run. induction trace as [| te trace IH]; intros w Hw; cbn [fold_left].
  - exact Hw.
  - apply IH. apply step_preserves. exact Hw.
Qed.

End Preserve.

Lemma consistent_view w w' : view w = view w' -> consistent w -> consistent w'.
Proof.
  unfold view. intros Hv [H1 H2 H3 H4 H5 H6].
  injection Hv as Hp Hs Hu Ht Hn.
  constructor; rewrite <- ?Hp, <- ?Hs, <- ?Hu, <- ?Ht, <- ?Hn; assumption.
Qed.

(** The polling state after each of the four functions that change it. *)
Lemma view_stopPolling w :
  view (snd (_stopPolling w)) =
  (None, None, _statusUpdateIntervalId (client w),
   match _runPollingIntervalId (client w) with
   | Some h => delete h (timers (window w))
   | None => timers (window w)
   end, next_handle (window w)).
Proof.
  destruct w as [[ef pn sid sst rp pid rs rt] [tm nh snt con ls lh] pg ed].
  destruct pid; reflexivity.
Qed.

Lemma view_stopStatusUpdates w :
  view (snd (_stopStatusUpdates w)) =
  (_runPollingIntervalId (client w), _runStart (client w), None,
   match _statusUpdateIntervalId (client w) with
   | Some h => delete h (timers (window w))
   | None => timers (window w)
   end, next_handle (window w)).
Proof.
  destruct w as [[ef pn sid sst rp pid rs rt] [tm nh snt con ls lh] pg ed].
  destruct sid; reflexivity.
Qed.

Lemma view_startPolling ticket now w :
  view (snd (_startPolling ticket now w)) =
  match _runPollingIntervalId (client w) with
  | Some _ => view w
  | None =>
      (Some (next_handle (window w)), Some now, _statusUpdateIntervalId (client w),
       <[next_handle (window w) := Timer (Poll ticket) _runPollingIntervalMsec]>
         (timers (window w)),
       next_handle (window w) + 1)
  end.
Proof.
  destruct w as [[ef pn sid sst rp pid rs rt] [tm nh snt con ls lh] pg ed].
  destruct pid; reflexivity.
Qed.

Lemma view_startStatusUpdates now w :
  view (snd (_startStatusUpdates now w)) =
  match _statusUpdateIntervalId (client w) with
  | Some _ => view w
  | None =>
      (_runPollingIntervalId (client w), _runStart (client w),
       Some (next_handle (window w)),
       <[next_handle (window w) :=
           Timer (StatusUpdate ("Started run of " ++ JS.tostr (_projectName (client w))))
             _statusUpdateIntervalMsec]> (timers (window w)),
       next_handle (window w) + 1)
  end.
Proof.
  destruct w as [[ef pn sid sst rp pid rs rt] [tm nh snt con ls lh] pg ed].
  destruct sid; reflexivity.
Qed.

Lemma consistent_iff w : consistent w <-> consistent_view_of (view w).
Proof.
  unfold view, consistent_view_of. split.
  - intros [H1 H2 H3 H4 H5 H6]. repeat split; try assumption; apply H3.
  - intros (H1 & H2 & H3 & H4 & H5 & H6). constructor; assumption.
Qed.

Ltac six := refine (conj _ (conj _ (conj _ (conj _ (conj _ _))))).

Lemma consistent_stopPolling w : consistent w -> consistent (snd (_stopPolling w)).
Proof.
  rewrite !consistent_iff, view_stopPolling. unfold view, consistent_view_of.
  intros (H1 & H2 & H3 & H4 & H5 & H6).
  destruct (_runPollingIntervalId (client w)) as [p |] eqn:Hp; six.
  - intros h t Hh Ht. apply lookup_delete_Some in Hh as [Hne Hh].
    specialize (H1 h t Hh Ht). congruence.
  - intros h [=].
  - tauto.
  - intros h t Hh Ht. apply lookup_delete_Some in Hh as [Hne Hh]. eauto.
  - intros h Hs. destruct (H5 h Hs) as (t & Ht & Hpoll). exists t. split; [| exact Hpoll].
    apply lookup_delete_Some. split; [| exact Ht].
    intros ->. destruct (H2 h eq_refl) as (t' & Ht' & Hpoll' & _). congruence.
  - intros h t Hh. apply lookup_delete_Some in Hh as [Hne Hh]. eauto.
  - intros h t Hh Ht. specialize (H1 h t Hh Ht). discriminate.
  - intros h [=].
  - tauto.
  - assumption.
  - assumption.
  - assumption.
Qed.

Lemma consistent_stopStatusUpdates w :
  consistent w -> consistent (snd (_stopStatusUpdates w)).
Proof.
  rewrite !consistent_iff, view_stopStatusUpdates. unfold view, consistent_view_of.
  intros (H1 & H2 & H3 & H4 & H5 & H6).
  destruct (_statusUpdateIntervalId (client w)) as [p |] eqn:Hp; six.
  - intros h t Hh Ht. apply lookup_delete_Some in Hh as [Hne Hh]. eauto.
  - intros h Hs. destruct (H2 h Hs) as (t & Ht & Hpoll & Hd). exists t.
    split; [| split; assumption].
    apply lookup_delete_Some. split; [| exact Ht].
    intros ->. destruct (H5 h eq_refl) as (t' & Ht' & Hpoll'). congruence.
  - assumption.
  - intros h t Hh Ht. apply lookup_delete_Some in Hh as [Hne Hh].
    specialize (H4 h t Hh Ht). congruence.
  - intros h [=].
  - intros h t Hh. apply lookup_delete_Some in Hh as [Hne Hh]. eauto.
  - assumption.
  - assumption.
  - assumption.
  - intros h t Hh Ht. specialize (H4 h t Hh Ht). discriminate.
  - intros h [=].
  - assumption.
Qed.

Lemma consistent_startPolling ticket now w :
  consistent w -> consistent (snd (_startPolling ticket now w)).
Proof.
  rewrite !consistent_iff, view_startPolling.
  destruct (_runPollingIntervalId (client w)) as [p |] eqn:Hp; [trivial |].
  unfold view, consistent_view_of. rewrite Hp.
  intros (H1 & H2 & H3 & H4 & H5 & H6).
  set (nh := next_handle (window w)) in *. six.
  - intros h t Hh Ht. apply lookup_insert_Some in Hh as [[-> _] | [Hne Hh]]; [reflexivity |].
    specialize (H1 h t Hh Ht). discriminate.
  - intros h [= <-]. eexists. split; [apply lookup_insert_eq |]. split; reflexivity.
  - split; discriminate.
  - intros h t Hh Ht. apply lookup_insert_Some in Hh as [[_ <-] | [Hne Hh]]; [discriminate |].
    eauto.
  - intros h Hs. destruct (H5 h Hs) as (t & Ht & Hpoll). exists t. split; [| exact Hpoll].
    apply lookup_insert_Some. right. split; [| exact Ht].
    specialize (H6 h t Ht). lia.
  - intros h t Hh. apply lookup_insert_Some in Hh as [[<- _] | [Hne Hh]]; [lia |].
    specialize (H6 h t Hh). lia.
Qed.

Lemma consistent_startStatusUpdates now w :
  consistent w -> consistent (snd (_startStatusUpdates now w)).
Proof.
  rewrite !consistent_iff, view_startStatusUpdates.
  destruct (_statusUpdateIntervalId (client w)) as [p |] eqn:Hp; [trivial |].
  unfold view, consistent_view_of. rewrite Hp.
  intros (H1 & H2 & H3 & H4 & H5 & H6).
  set (nh := next_handle (window w)) in *. six.
  - intros h t Hh Ht. apply lookup_insert_Some in Hh as [[_ <-] | [Hne Hh]]; [discriminate |].
    eauto.
  - intros h Hs. destruct (H2 h Hs) as (t & Ht & Hpoll & Hd). exists t.
    split; [| split; assumption].
    apply lookup_insert_Some. right. split; [| exact Ht].
    specialize (H6 h t Ht). lia.
  - assumption.
  - intros h t Hh Ht. apply lookup_insert_Some in Hh as [[-> _] | [Hne Hh]]; [reflexivity |].
    specialize (H4 h t Hh Ht). discriminate.
  - intros h [= <-]. eexists. split; [apply lookup_insert_eq | reflexivity].
  - intros h t Hh. apply lookup_insert_Some in Hh as [[<- _] | [Hne Hh]]; [lia |].
    specialize (H6 h t Hh). lia.
Qed.

Lemma consistent_step w te : consistent w -> consistent (step w te).
Proof.
  apply step_preserves.
  - exact consistent_view.
  - exact consistent_stopPolling.
  - exact consistent_startPolling.
  - exact consistent_stopStatusUpdates.
  - exact consistent_startStatusUpdates.
Qed.

Lemma fresh_consistent w : fresh w -> consistent w.
Proof.
  intros [Hc Ht]. constructor; rewrite ?Hc, ?Ht; cbn; try discriminate; try tauto.
  all: intros h t Hh; rewrite lookup_empty in Hh; discriminate.
Qed.

(* ===================================================================== *)
(** * The result store *)
(* ===================================================================== *)

Module WorkerFacts.

Import Worker.

Lemma sound_empty : sound Worker.empty.
Proof.
  split.
  - intros t r H. cbn in H. rewrite lookup_empty in H. discriminate.
  - intros t [=].
Qed.

Lemma lookup_collect cutoff w t r :
  store (collect cutoff w) !! t = Some r ->
  store w !! t = Some r.
Proof.
  unfold collect. cbn [store]. intros H.
  apply map_lookup_filter_Some in H as [H _]. exact H.
Qed.

Ltac worker_simpl := cbn [snd store lock issued] in *.

Lemma sound_step w w' : sound w -> step w w' -> sound w'.
Proof.
  intros [Hi Hl] Hs. destruct Hs as [ticket now w Hfresh | o now w | cutoff w].
  - unfold submit. destruct (lock w) as [held |] eqn:Hlock; split; worker_simpl.
    + intros t r Ht. worker_simpl. apply elem_of_union_r. eauto.
    + intros t Ht. worker_simpl. injection Ht as <-. apply Hl. reflexivity.
    + intros t r Ht. worker_simpl.
      apply lookup_insert_Some in Ht as [[<- _] | [_ Ht]].
      * apply elem_of_union_l, elem_of_singleton. reflexivity.
      * apply elem_of_union_r. eauto.
    + intros t Ht. worker_simpl. injection Ht as <-.
      eexists. split; [apply lookup_insert_eq | reflexivity].
  - unfold finish.
    destruct (lock w) as [held |] eqn:Hlock;
      [| split; [assumption | rewrite Hlock; assumption]].
    split; worker_simpl.
    + intros t r Ht. worker_simpl.
      apply lookup_insert_Some in Ht as [[<- _] | [_ Ht]]; [| eauto].
      destruct (Hl held eq_refl) as (r0 & Hr0 & _). eauto.
    + intros t Ht. worker_simpl. discriminate.
  - split.
    + intros t r Ht. apply lookup_collect in Ht. unfold collect. worker_simpl. eauto.
    + intros t Ht. unfold collect in Ht |- *. worker_simpl.
      destruct (Hl t Ht) as (r & Hr & Hrun). exists r. split; [| exact Hrun].
      apply map_lookup_filter_Some. split; [exact Hr |]. cbn [snd]. left.
      rewrite Hrun. reflexivity.
Qed.

(** One step leaves a terminal record as it is, or deletes it. *)
Lemma terminal_step w w' t r :
  sound w -> step w w' ->
  pollStatus t w = Some r -> terminal (record_status r) = true ->
  pollStatus t w' = Some r \/ (pollStatus t w' = None).
Proof.
  unfold pollStatus. intros [Hi Hl] Hs Hr Hterm.
  destruct Hs as [ticket now w Hfresh | o now w | cutoff w].
  - left. unfold submit. destruct (lock w) eqn:Hlock; cbn [snd store]; [exact Hr |].
    rewrite lookup_insert_ne; [exact Hr |].
    intros <-. apply Hfresh. eauto.
  - left. unfold finish. destruct (lock w) as [held |] eqn:Hlock; [| exact Hr].
    cbn [store]. rewrite lookup_insert_ne; [exact Hr |].
    intros <-. destruct (Hl held eq_refl) as (r0 & Hr0 & Hrun).
    rewrite Hr in Hr0. injection Hr0 as <-. rewrite Hrun in Hterm. discriminate.
  - unfold collect. cbn [store].
    destruct (filter _ (store w) !! t) as [r' |] eqn:Hf; [left | right; reflexivity].
    apply map_lookup_filter_Some in Hf as [Hf _]. congruence.
Qed.

Lemma sound_steps w w' : steps w w' -> sound w -> sound w'.
Proof. induction 1; eauto using sound_step. Qed.

(** A record that is gone stays gone: its ticket is never handed in again. *)
Lemma gone_step w w' t :
  sound w -> step w w' -> t ∈ issued w -> pollStatus t w = None ->
  t ∈ issued w' /\ pollStatus t w' = None.
Proof.
  unfold pollStatus. intros [Hi Hl] Hs Hiss Hnone.
  destruct Hs as [ticket now w Hfresh | o now w | cutoff w].
  - unfold submit. destruct (lock w) eqn:Hlock; cbn [snd store issued].
    + split; [apply elem_of_union_r; exact Hiss | exact Hnone].
    + split; [apply elem_of_union_r; exact Hiss |].
      rewrite lookup_insert_ne; [exact Hnone |]. intros <-. contradiction.
  - unfold finish. destruct (lock w) as [held |] eqn:Hlock; [| split; assumption].
    cbn [store issued]. split; [exact Hiss |].
    rewrite lookup_insert_ne; [exact Hnone |].
    intros <-. destruct (Hl held eq_refl) as (r0 & Hr0 & _). congruence.
  - unfold collect. cbn [store issued]. split; [exact Hiss |].
    apply map_lookup_filter_None. left. exact Hnone.
Qed.

Lemma terminal_stable w w' :
  steps w w' -> sound w ->
  forall t r, pollStatus t w = Some r -> terminal (record_status r) = true ->
    pollStatus t w' = Some r \/ pollStatus t w' = None.
Proof.
  induction 1 as [w | w1 w2 w3 Hstep Hsteps IH]; intros Hsound t r Hr Hterm.
  - left. exact Hr.
  - pose proof (sound_step _ _ Hsound Hstep) as Hsound2.
    destruct (terminal_step _ _ t r Hsound Hstep Hr Hterm) as [Hkeep | Hgone].
    + eapply IH; eassumption.
    + right.
      assert (Hiss : t ∈ issued w2).
      { destruct Hsound as [Hi _]. specialize (Hi t r Hr).
        destruct Hstep; unfold submit, finish, collect;
          repeat (destruct (lock _)); cbn [snd issued]; try assumption;
          apply elem_of_union_r; assumption. }
      clear IH Hr Hterm Hstep Hsound.
      induction Hsteps as [w | wa wb wc Hab Hbc IH2]; [exact Hgone |].
      destruct (gone_step _ _ t Hsound2 Hab Hiss Hgone) as [Hiss' Hgone'].
      apply IH2; eauto using sound_step.
Qed.

End WorkerFacts.

(* ===================================================================== *)
(** * Facts about the handlers *)
(* ===================================================================== *)

Lemma tenths_nonneg x : 0 <= Double.tenths x.
Proof.
  unfold Double.tenths. destruct (Z.ltb_spec (expo x) 0).
  - apply Z.div_pos.
    + assert (0 < 2 ^ (- expo x)) by (apply Z.pow_pos_nonneg; lia). lia.
    + apply Z.pow_pos_nonneg; lia.
  - assert (0 < 2 ^ expo x) by (apply Z.pow_pos_nonneg; lia). nia.
Qed.

(** What [_getDeltaSeconds] computes for a recorded start: the nearest
    tenth of a second, printed, and read back exactly by a comparison. *)
Lemma delta_seconds from to :
  valid_time from -> valid_time to ->
  let n := elapsed_tenths from to in
  to - from - 50 <= 100 * n <= to - from + 50 /\
  _getDeltaSeconds (Some from) to =
    SecText ((if to - from <? 0 then "-" else "") ++
             Double.digits (Z.abs n / 10) ++ "." ++ Double.digits (Z.abs n mod 10)) /\
  forall k, Seconds.gtb (_getDeltaSeconds (Some from) to) k = (10 * k <? n).
Proof.
  intros Hfrom Hto n. subst n. unfold valid_time in Hfrom, Hto.
  assert (Hms : - 17280000000000000 <= to - from <= 17280000000000000) by lia.
  unfold elapsed_tenths, _getDeltaSeconds, Double.sub_int.
  destruct (tenths_nearest (to - from) Hms) as [Hsign Hn].
  set (x := Double.div_int (Double.rn (to - from) 1) 1000) in *.
  pose proof (tenths_nonneg x) as Hpos.
  split; [exact Hn |]. split.
  - unfold Double.toFixed1, signed_tenths. rewrite Hsign.
    destruct (to - from <? 0); [rewrite Z.abs_opp |]; rewrite Z.abs_eq by exact Hpos;
      reflexivity.
  - intros k. unfold Seconds.gtb. rewrite (of_string_toFixed1 x Hpos).
    apply gtb_rn_tenths.
    change (2 ^ 50) with 1125899906842624. lia.
Qed.

(** The timeout test of [_getRunResults] as a threshold on the elapsed
    milliseconds. *)
Lemma timed_out_iff from to :
  valid_time from -> valid_time to ->
  Seconds.gtb (_getDeltaSeconds (Some from) to) _runPollingTimeoutSec = (90050 <? to - from).
Proof.
  intros Hfrom Hto. destruct (delta_seconds from to Hfrom Hto) as (Hn & _ & Hk).
  rewrite Hk. unfold _runPollingTimeoutSec. change (10 * 90) with 900.
  destruct (Z.lt_trichotomy (to - from) 90050) as [Hlt | [Heq | Hgt]].
  - replace (90050 <? to - from) with false by (symmetry; apply Z.ltb_ge; lia).
    apply Z.ltb_ge. lia.
  - unfold elapsed_tenths, Double.sub_int. rewrite Heq. reflexivity.
  - replace (90050 <? to - from) with true by (symmetry; apply Z.ltb_lt; lia).
    apply Z.ltb_lt. lia.
Qed.

Lemma retired_view h w w' : view w = view w' -> retired h w -> retired h w'.
Proof.
  unfold view, retired. intros Hv [H1 H2]. injection Hv as _ _ _ Ht Hn.
  rewrite <- Ht, <- Hn. split; assumption.
Qed.

Lemma retired_of_view h w :
  retired h w <-> (let '(_, _, _, tm, nh) := view w in tm !! h = None /\ h < nh).
Proof. reflexivity. Qed.

Lemma retired_stopPolling h : preserves (retired h) _stopPolling.
Proof.
  intros w. rewrite !retired_of_view, view_stopPolling. unfold view.
  intros [H1 H2]. split; [| exact H2].
  destruct (_runPollingIntervalId (client w)); [| exact H1].
  apply lookup_delete_None. right. exact H1.
Qed.

Lemma retired_stopStatusUpdates h : preserves (retired h) _stopStatusUpdates.
Proof.
  intros w. rewrite !retired_of_view, view_stopStatusUpdates. unfold view.
  intros [H1 H2]. split; [| exact H2].
  destruct (_statusUpdateIntervalId (client w)); [| exact H1].
  apply lookup_delete_None. right. exact H1.
Qed.

Lemma retired_startPolling h ticket now : preserves (retired h) (_startPolling ticket now).
Proof.
  intros w. rewrite !retired_of_view, view_startPolling.
  destruct (_runPollingIntervalId (client w)); [trivial |].
  unfold view. intros [H1 H2]. split; [| lia].
  rewrite lookup_insert_ne by lia. exact H1.
Qed.

Lemma retired_startStatusUpdates h now : preserves (retired h) (_startStatusUpdates now).
Proof.
  intros w. rewrite !retired_of_view, view_startStatusUpdates.
  destruct (_statusUpdateIntervalId (client w)); [trivial |].
  unfold view. intros [H1 H2]. split; [| lia].
  rewrite lookup_insert_ne by lia. exact H1.
Qed.

(** A timer that was cleared never fires again: handles are not reused. *)
Lemma retired_run h trace w : retired h w -> retired h (run w trace).
Proof.
  apply run_preserves.
  - apply retired_view.
  - apply retired_stopPolling.
  - apply retired_startPolling.
  - apply retired_stopStatusUpdates.
  - apply retired_startStatusUpdates.
Qed.

Lemma consistent_run trace w : consistent w -> consistent (run w trace).
Proof.
  apply run_preserves.
  - exact consistent_view.
  - exact consistent_stopPolling.
  - exact consistent_startPolling.
  - exact consistent_stopStatusUpdates.
  - exact consistent_startStatusUpdates.
Qed.

Lemma tick_inactive h now w :
  timers (window w) !! h = None -> step w (now, Tick h) = w.
Proof.
  intros Hh. unfold step, exec, handler, bind, gets. cbn [fst snd]. rewrite Hh. reflexivity.
Qed.

Lemma no_polling_loops w :
  consistent w -> _runPollingIntervalId (client w) = None -> polling_loops w = ∅.
Proof.
  intros Hc Hp. unfold polling_loops. apply map_eq. intros i.
  rewrite lookup_empty. apply map_lookup_filter_None. right. intros t Ht Hpoll.
  cbn [snd] in Hpoll. pose proof (poll_active w Hc i t Ht Hpoll). congruence.
Qed.

Lemma at_most_one_loop w h1 t1 h2 t2 :
  consistent w ->
  polling_loops w !! h1 = Some t1 -> polling_loops w !! h2 = Some t2 -> h1 = h2.
Proof.
  unfold polling_loops. intros Hc H1 H2.
  apply map_lookup_filter_Some in H1 as [H1 Hp1].
  apply map_lookup_filter_Some in H2 as [H2 Hp2]. cbn [snd] in *.
  pose proof (poll_active w Hc h1 t1 H1 Hp1).
  pose proof (poll_active w Hc h2 t2 H2 Hp2). congruence.
Qed.

(** The effect of giving up. *)
Lemma exec_give_up w message :
  let w' := exec (_stopPolling ;; _setUiStateRunDone "Ready" (Some message)) w in
  sent (window w') = sent (window w) /\
  _runPollingIntervalId (client w') = None /\
  _runStart (client w') = None /\
  _statusUpdateIntervalId (client w') = None /\
  result_nodes (document w') = [message ++ "<br />"] /\
  status_text (document w') = "Ready" /\
  click_handlers (document w') = S (click_handlers (document w)) /\
  (forall h, _runPollingIntervalId (client w) = Some h ->
             timers (window w') !! h = None) /\
  next_handle (window w') = next_handle (window w).
Proof.
  destruct w as [[ef pn sid sst rp pid rs rt] [tm nh snt con ls lh] pg ed].
  destruct pid as [p |], sid as [s |]; cbn; repeat split; try reflexivity.
  all: intros h [= <-].
  - apply lookup_delete_None. right. apply lookup_delete_eq.
  - apply lookup_delete_eq.
Qed.

Lemma getRunResults_unfold ticket now w :
  _getRunResults ticket now w =
  if Seconds.gtb (_getDeltaSeconds (_runStart (client w)) now) _runPollingTimeoutSec
  then (_stopPolling ;; _setUiStateRunDone "Ready" (Some "Run timed out.")) w
  else Window.ajax_send (status_request ticket) w.
Proof.
  unfold _getRunResults, bind at 1, gets at 1.
  destruct (Seconds.gtb _ _); reflexivity.
Qed.

(** The effect of ending a run on a poll result or a failed poll. *)
Lemma exec_end_run w status message :
  let w' := exec (_stopPolling ;; _clearRun ;;
                  _setUiStateRunDone status (Some message)) w in
  sent (window w') = sent (window w) /\
  _runPollingIntervalId (client w') = None /\
  _runStart (client w') = None /\
  _runTicket (client w') = VNull /\
  _runPayload (client w') = VNull /\
  _statusUpdateIntervalId (client w') = None /\
  result_nodes (document w') = [message ++ "<br />"] /\
  status_text (document w') = status /\
  click_handlers (document w') = S (click_handlers (document w)) /\
  (forall h, _runPollingIntervalId (client w) = Some h ->
             timers (window w') !! h = None) /\
  next_handle (window w') = next_handle (window w).
Proof.
  destruct w as [[ef pn sid sst rp pid rs rt] [tm nh snt con ls lh] pg ed].
  destruct pid as [p |], sid as [s |]; cbn; repeat split; try reflexivity.
  all: intros h [= <-].
  - apply lookup_delete_None. right. apply lookup_delete_eq.
  - apply lookup_delete_eq.
Qed.

Lemma onRunGetSuccess_unfold data x fields w :
  xhr_status x = 200 ->
  JS.prop data "payload" = Some (VObj fields) ->
  _onRunGetSuccess data x w =
  if JS.strict_eq_str (JS.assoc "status" fields) _taskRunning
  then (Normal tt, w)
  else (_stopPolling ;; _clearRun ;;
        _setUiStateRunDone
          ("Finished run of " ++ JS.tostr (_projectName (client w)) ++ ". Status: " ++
           JS.tostr (JS.assoc "status" fields) ++ ". Result: ")
          (Some (_formatPayload (JS.assoc "status" fields) (JS.assoc "payload" fields)))) w.
Proof.
  intros Hs Hp. unfold _onRunGetSuccess. rewrite Hs. cbn [Z.eqb Pos.eqb negb].
  unfold access. rewrite Hp.
  cbv beta iota delta [bind ret JS.truthy JS.prop].
  destruct (JS.strict_eq_str (JS.assoc "status" fields) _taskRunning); [reflexivity |].
  destruct w as [[ef pn sid sst rp pid rs rt] [tm nh snt con ls lh] pg ed].
  destruct pid as [p |], sid as [s |]; cbn; reflexivity.
Qed.

Lemma strict_eq_str_spec v s : JS.strict_eq_str v s = true <-> v = VStr s.
Proof.
  destruct v; cbn; try (split; [discriminate | intros [=]]).
  rewrite String.eqb_eq. split; [intros -> | intros [= ->]]; reflexivity.
Qed.

Lemma polling_consistent : consistent Sample.polling.
Proof.
  apply consistent_iff. unfold view, consistent_view_of. cbn.
  refine (conj _ (conj _ (conj _ (conj _ (conj _ _))))).
  - intros h t Hh Ht.
    apply lookup_insert_Some in Hh as [[<- _] | [_ Hh]]; [reflexivity |].
    apply lookup_insert_Some in Hh as [[_ <-] | [_ Hh]]; [discriminate |].
    rewrite lookup_empty in Hh. discriminate.
  - intros h [= <-]. eexists. split; [apply lookup_insert_eq |]. split; reflexivity.
  - split; discriminate.
  - intros h t Hh Ht.
    apply lookup_insert_Some in Hh as [[_ <-] | [_ Hh]]; [discriminate |].
    apply lookup_insert_Some in Hh as [[<- _] | [_ Hh]]; [reflexivity |].
    rewrite lookup_empty in Hh. discriminate.
  - intros h [= <-]. eexists.
    split; [rewrite lookup_insert_ne by lia; apply lookup_insert_eq | reflexivity].
  - intros h t Hh.
    apply lookup_insert_Some in Hh as [[<- _] | [_ Hh]]; [lia |].
    apply lookup_insert_Some in Hh as [[<- _] | [_ Hh]]; [lia |].
    rewrite lookup_empty in Hh. discriminate.
Qed.

Lemma onRunGetSuccess_failed data x w :
  xhr_status x <> 200 ->
  _onRunGetSuccess data x w =
  match JS.prop data "payload" with
  | Some _ => _onRunGetError w
  | None => (TypeError, w)
  end.
Proof.
  intros Hs. unfold _onRunGetSuccess.
  replace (xhr_status x =? 200) with false by (symmetry; apply Z.eqb_neq; exact Hs).
  cbn [negb]. unfold access, bind. destruct (JS.prop data "payload"); reflexivity.
Qed.

Lemma consistent_onRunGetError : preserves consistent _onRunGetError.
Proof.
  apply preserves_onRunGetError.
  - exact consistent_view.
  - exact consistent_stopPolling.
  - exact consistent_stopStatusUpdates.
Qed.

(** What the page shows after [_setUiStateRunDone]. *)
Lemma rendered_setUiStateRunDone status message w :
  result_nodes (document (exec (_setUiStateRunDone status (Some message)) w))
  = [message ++ "<br />"].
Proof.
  destruct w as [[ef pn sid sst rp pid rs rt] [tm nh snt con ls lh] pg ed].
  destruct sid; reflexivity.
Qed.

Lemma rendered_onRunGetError w :
  result_nodes (document (exec _onRunGetError w))
  = ["Error fetching results; please try again.<br />"].
Proof.
  pose proof (exec_end_run w "Ready" "Error fetching results; please try again.") as H.
  cbv zeta in H. fold _onRunGetError in H. tauto.
Qed.

(** The request sent by a click on the run control. *)
Lemma sent_onRunControlClick now w :
  sent (window (exec (_onRunControlClick now) w)) =
  (sent (window w) ++
   [Ajax "/rest/balancer/v1" true "POST" (JSON.stringify (task_body w)) "json" TaskPost])%list.
Proof.
  destruct w as [[ef pn sid sst rp pid rs rt] [tm nh snt con ls lh] pg ed].
  destruct sid; reflexivity.
Qed.

Section Sends.

Variable Q : ajax -> Prop.

Lemma sends_nothing {A} (c : js A) :
  (forall w, sent (window (snd (c w))) = sent (window w)) -> sends Q c.
Proof.
  intros H w. exists []. rewrite app_nil_r. split; [apply H | constructor].
Qed.

Lemma sends_bind {A B} (c : js A) (k : A -> js B) :
  sends Q c -> (forall a, sends Q (k a)) -> sends Q (bind c k).
Proof.
  intros Hc Hk w. unfold bind. destruct (Hc w) as (new1 & H1 & Q1).
  destruct (c w) as [[a |] w1]; cbn [snd] in *.
  - destruct (Hk a w1) as (new2 & H2 & Q2). exists (new1 ++ new2)%list.
    rewrite H2, H1, app_assoc. split; [reflexivity | apply Forall_app; split; assumption].
  - exists new1. split; assumption.
Qed.

Lemma sends_ajax_send r : Q r -> sends Q (Window.ajax_send r).
Proof. intros Hr w. exists [r]. split; [reflexivity | repeat constructor; exact Hr]. Qed.

Lemma sends_ret {A} (a : A) : sends Q (ret a).
Proof. apply sends_nothing. reflexivity. Qed.
Lemma sends_throw {A} : sends Q (@throw A).
Proof. apply sends_nothing. reflexivity. Qed.
Lemma sends_gets {A} (f : world -> A) : sends Q (gets f).
Proof. apply sends_nothing. reflexivity. Qed.
Lemma sends_access v k : sends Q (access v k).
Proof. unfold access. destruct (JS.prop v k); [apply sends_ret | apply sends_throw]. Qed.
Lemma sends_on_client f : sends Q (Upd.on_client f).
Proof. apply sends_nothing. reflexivity. Qed.
Lemma sends_on_dom f : sends Q (Upd.on_dom f).
Proof. apply sends_nothing. reflexivity. Qed.
Lemma sends_on_editor f : sends Q (Upd.on_editor f).
Proof. apply sends_nothing. reflexivity. Qed.
Lemma sends_setInterval f d : sends Q (Window.setInterval f d).
Proof. apply sends_nothing. reflexivity. Qed.
Lemma sends_clearTimeout h : sends Q (Window.clearTimeout h).
Proof. apply sends_nothing. destruct h; reflexivity. Qed.
Lemma sends_console_log s : sends Q (Window.console_log s).
Proof. apply sends_nothing. reflexivity. Qed.

End Sends.

Ltac sends_step :=
  lazymatch goal with
  | |- sends _ (bind _ _) => apply sends_bind; [| intros ?]
  | |- sends _ (ret _) => apply sends_ret
  | |- sends _ throw => apply sends_throw
  | |- sends _ (gets _) => apply sends_gets
  | |- sends _ (access _ _) => apply sends_access
  | |- sends _ (Upd.on_client _) => apply sends_on_client
  | |- sends _ (Upd.on_dom _) => apply sends_on_dom
  | |- sends _ (Upd.on_editor _) => apply sends_on_editor
  | |- sends _ (Window.setInterval _ _) => apply sends_setInterval
  | |- sends _ (Window.clearTimeout _) => apply sends_clearTimeout
  | |- sends _ (Window.console_log _) => apply sends_console_log
  | |- sends _ (match ?x with _ => _ end) => destruct x
  | |- sends _ _ => solve [auto]
  end.

Ltac sends_unfold :=
  unfold handler, fire, main, status_update, _onProjectGetSuccess, _onProjectGetError,
    _onProjectPostSuccess, _onProjectPostError, _onRunGetSuccess, _onRunGetError,
    _getRunResults, _onRunControlClick, _setUiStateRunning, _setUiStateRunDone,
    _setUiStateReady, _setUiStateInitialLoadFailed, _startPolling, _stopPolling,
    _startStatusUpdates, _stopStatusUpdates, _configureEditor, _getEditorMode,
    _getFilename, _setFilename, _setEditorContents, _setError, _setStatus, _clearRun,
    _clearResult, _addResult, _getProjectNameFromUrl, _getUrlArgs.

Lemma sends_each_query Q qs : forall acc, sends Q (each_query qs acc).
Proof.
  induction qs as [| q qs IH]; intros acc; cbn [each_query]; repeat sends_step.
Qed.

Lemma create_task_request_other r :
  ajax_callbacks r <> TaskPost -> create_task_request r.
Proof. intros H E. contradiction. Qed.

Lemma sends_onRunControlClick now : sends create_task_request (_onRunControlClick now).
Proof.
  intros w. eexists. split; [apply sent_onRunControlClick |].
  repeat constructor. unfold task_body, _makePatch. eexists _, _, _. reflexivity.
Qed.

Lemma sends_dispatch_click n now : sends create_task_request (dispatch_click n now).
Proof.
  pose proof sends_onRunControlClick.
  induction n as [| n IH]; cbn [dispatch_click]; repeat sends_step.
Qed.

Lemma sends_handler e now : sends create_task_request (handler e now).
Proof.
  pose proof sends_dispatch_click. pose proof (sends_each_query create_task_request).
  destruct e; sends_unfold; repeat sends_step;
    apply sends_ajax_send; apply create_task_request_other; discriminate.
Qed.

Lemma sends_run trace : forall w,
  exists new, sent (window (run w trace)) = (sent (window w) ++ new)%list /\
              Forall create_task_request new.
Proof.
  unfold run. induction trace as [| te trace IH]; intros w; cbn [fold_left].
  - exists []. rewrite app_nil_r. split; [reflexivity | constructor].
  - destruct (sends_handler (snd te) (fst te) w) as (new1 & H1 & Q1).
    destruct (IH (step w te)) as (new2 & H2 & Q2).
    exists (new1 ++ new2)%list. rewrite H2. unfold step, exec. rewrite H1, app_assoc.
    split; [reflexivity | apply Forall_app; split; assumption].
Qed.

Lemma onProjectPostSuccess_unfold data x now p ticket w :
  xhr_status x = 200 ->
  JS.prop data "payload" = Some p ->
  JS.prop p "ticket" = Some ticket ->
  _onProjectPostSuccess data x now w = _startPolling ticket now w.
Proof.
  intros Hs Hp Ht. unfold _onProjectPostSuccess. rewrite Hs. cbn [Z.eqb Pos.eqb negb].
  unfold access. rewrite Hp. unfold bind at 1, ret at 1. rewrite Ht. reflexivity.
Qed.

Lemma started_loop w ticket now :
  consistent w -> _runPollingIntervalId (client w) = None ->
  polling_loops (exec (_startPolling ticket now) w) =
  {[ next_handle (window w) := Timer (Poll ticket) _runPollingIntervalMsec ]}.
Proof.
  intros Hc Hp. unfold polling_loops.
  pose proof (view_startPolling ticket now w) as Hv. rewrite Hp in Hv.
  unfold view in Hv. injection Hv as _ _ _ Ht _. unfold exec. rewrite Ht.
  apply map_eq. intros i.
  destruct (decide (i = next_handle (window w))) as [-> | Hne].
  - rewrite lookup_singleton_eq. apply map_lookup_filter_Some.
    split; [apply lookup_insert_eq | reflexivity].
  - rewrite lookup_singleton_ne by congruence. apply map_lookup_filter_None. right.
    intros t Hi Hpoll. rewrite lookup_insert_ne in Hi by congruence. cbn [snd] in Hpoll.
    pose proof (poll_active w Hc i t Hi Hpoll). congruence.
Qed.

Lemma loops_empty_iff w :
  consistent w -> (_runPollingIntervalId (client w) = None <-> polling_loops w = ∅).
Proof.
  intros Hc. split; [apply no_polling_loops; exact Hc |].
  intros He. destruct (_runPollingIntervalId (client w)) as [h |] eqn:Hp; [| reflexivity].
  destruct (poll_stored w Hc h Hp) as (t & Ht & Hpoll & _).
  assert (polling_loops w !! h = Some t) as Hl
    by (apply map_lookup_filter_Some; split; assumption).
  rewrite He, lookup_empty in Hl. discriminate.
Qed.

Lemma idle_consistent : consistent Sample.idle.
Proof.
  apply consistent_iff. unfold view, consistent_view_of. cbn.
  refine (conj _ (conj _ (conj _ (conj _ (conj _ _))))); try discriminate; try tauto.
  all: intros h t Hh; rewrite lookup_empty in Hh; discriminate.
Qed.


(* ===================================================================== *)
(** * The specification, claim by claim *)
(* ===================================================================== *)



(** C2, as amended.  The poll whose elapsed time, rounded to a tenth of a
    second by [_getDeltaSeconds], exceeds 90 (that is, from 90051 ms after
    the recorded start on) stops the loop and shows "Run timed out."
    without sending anything; the cleared timer never comes back, so that
    loop issues no further request.  Up to 90050 ms the poll sends its
    status request. *)
Theorem C2_client_timeout (w : world) (ticket : jsval) (now start h : Z) :
  consistent w ->
  _runPollingIntervalId (client w) = Some h ->
  _runStart (client w) = Some start ->
  valid_time start -> valid_time now ->
  let w' := exec (_getRunResults ticket now) w in
  (90050 < now - start ->
     sent (window w') = sent (window w) /\
     polling_loops w' = ∅ /\
     _runPollingIntervalId (client w') = None /\
     _runStart (client w') = None /\
     result_nodes (document w') = ["Run timed out.<br />"] /\
     status_text (document w') = "Ready" /\
     forall trace,
       timers (window (run w' trace)) !! h = None /\
       forall t, step (run w' trace) (t, Tick h) = run w' trace) /\
  (now - start <= 90050 ->
     w' = exec (Window.ajax_send (status_request ticket)) w).
Proof.
  intros Hc Hh Hstart Hvs Hvn w'. subst w'. unfold exec.
  rewrite getRunResults_unfold, Hstart, (timed_out_iff start now Hvs Hvn).
  split.
  - intros Hlate.
    replace (90050 <? now - start) with true by (symmetry; apply Z.ltb_lt; lia).
    pose proof (exec_give_up w "Run timed out.") as H. unfold exec in H. cbv zeta in H.
    set (w' := snd ((_stopPolling ;; _setUiStateRunDone "Ready" (Some "Run timed out.")) w))
      in *.
    destruct H as (Hsent & Hp & Hs & _ & Hres & Hst & _ & Hgone & Hnext).
    assert (Hc' : consistent w').
    { subst w'. apply preserves_bind with (P := consistent).
      - exact consistent_stopPolling.
      - intros _. apply preserves_setUiStateRunDone.
        + exact consistent_view.
        + exact consistent_stopStatusUpdates.
      - exact Hc. }
    repeat split; try assumption.
    + apply no_polling_loops; assumption.
    + apply retired_run. split; [apply Hgone; exact Hh |].
      rewrite Hnext. destruct (poll_stored w Hc h Hh) as (t & Ht & _).
      exact (handles_bounded w Hc h t Ht).
    + intros t. apply tick_inactive. apply retired_run.
      split; [apply Hgone; exact Hh |].
      rewrite Hnext. destruct (poll_stored w Hc h Hh) as (t' & Ht & _).
      exact (handles_bounded w Hc h t' Ht).
  - intros Hearly.
    replace (90050 <? now - start) with false by (symmetry; apply Z.ltb_ge; lia).
    reflexivity.
Qed.

Lemma C2_client_timeout_witness :
  let w' := exec (_getRunResults (VStr "t1") 93000) Sample.polling in
  result_nodes (document w') = ["Run timed out.<br />"] /\
  sent (window w') = sent (window Sample.polling) /\
  step (run w' []) (96000, Tick 2) = run w' [] /\
  exec (_getRunResults (VStr "t1") 90000) Sample.polling
  = exec (Window.ajax_send (status_request (VStr "t1"))) Sample.polling.
Proof.
  pose proof (C2_client_timeout Sample.polling (VStr "t1") 93000 0 2 polling_consistent
                eq_refl eq_refl ltac:(unfold valid_time; lia) ltac:(unfold valid_time; lia))
    as [Hlate _].
  pose proof (C2_client_timeout Sample.polling (VStr "t1") 90000 0 2 polling_consistent
                eq_refl eq_refl ltac:(unfold valid_time; lia) ltac:(unfold valid_time; lia))
    as [_ Hearly].
  specialize (Hlate ltac:(lia)). destruct Hlate as (Hs & _ & _ & _ & Hr & _ & Hdead).
  split; [exact Hr |]. split; [exact Hs |]. split.
  - exact (proj2 (Hdead []) 96000).
  - apply Hearly. lia.
Defined.

(** C2, as stated, fails 90.001 s after the start: the elapsed time exceeds
    90 s, yet the poll sends its status request and the loop stays
    active. *)
Lemma C2_counterexample :
  let w' := exec (_getRunResults (VStr "t1") 90001) Sample.polling in
  _runStart (client Sample.polling) = Some 0 /\
  _runPollingTimeoutSec * 1000 < 90001 - 0 /\
  sent (window w') = [status_request (VStr "t1")] /\
  sent (window w') <> sent (window Sample.polling) /\
  _runPollingIntervalId (client w') = Some 2 /\
  result_nodes (document w') = [].
Proof.
  cbv zeta. unfold exec. rewrite getRunResults_unfold.
  replace (Seconds.gtb (_getDeltaSeconds (_runStart (client Sample.polling)) 90001)
             _runPollingTimeoutSec) with false by (vm_compute; reflexivity).
  cbn. repeat split; try reflexivity; try lia. discriminate.
Qed.

(** C3, as amended.  A failed status poll is not retried: the error
    callback stops the polling loop at once, clears the run and shows the
    fetch error, sending nothing; a response with a status other than 200
    takes the same path whenever its body can be read (and is ignored with
    a TypeError, leaving everything as it was, when the body is null or
    absent). *)
Theorem C3_poll_failure (w : world) :
  consistent w ->
  let w' := exec _onRunGetError w in
  polling_loops w' = ∅ /\
  _runPollingIntervalId (client w') = None /\
  _runStart (client w') = None /\
  _runTicket (client w') = VNull /\
  _runPayload (client w') = VNull /\
  sent (window w') = sent (window w) /\
  result_nodes (document w') = ["Error fetching results; please try again.<br />"] /\
  status_text (document w') = "Ready" /\
  (forall x now, step w (now, RunGetError x) = w') /\
  (forall data x now,
     xhr_status x <> 200 ->
     step w (now, RunGetSuccess data x) =
       match JS.prop data "payload" with Some _ => w' | None => w end).
Proof.
  intros Hc w'. subst w'.
  pose proof (exec_end_run w "Ready" "Error fetching results; please try again.") as H.
  cbv zeta in H. fold _onRunGetError in H.
  destruct H as (Hsent & Hp & Hs & Ht & Hpl & _ & Hres & Hst & _).
  repeat split; try assumption.
  - apply no_polling_loops; [| exact Hp]. apply consistent_onRunGetError. exact Hc.
  - intros data x now Hx. unfold step, exec, handler. cbn [fst snd].
    rewrite (onRunGetSuccess_failed data x w Hx).
    destruct (JS.prop data "payload"); reflexivity.
Qed.

Lemma C3_poll_failure_witness :
  let w' := exec _onRunGetError Sample.polling in
  polling_loops w' = ∅ /\
  result_nodes (document w') = ["Error fetching results; please try again.<br />"] /\
  step Sample.polling (3100, RunGetError Sample.failed) = w'.
Proof.
  destruct (C3_poll_failure Sample.polling polling_consistent)
    as (Hloops & _ & _ & _ & _ & _ & Hres & _ & Herr & _).
  split; [exact Hloops |]. split; [exact Hres |]. exact (Herr Sample.failed 3100).
Defined.

(** C3, as stated, fails at the first failed poll, 3.1 s into the run: the
    loop that was polling is gone, nothing is sent again and the failure is
    on the page. *)
Lemma C3_counterexample :
  let w' := step Sample.polling (3100, RunGetError Sample.failed) in
  polling_loops Sample.polling <> ∅ /\
  3100 - 0 <= _runPollingTimeoutSec * 1000 /\
  polling_loops w' = ∅ /\
  timers (window w') = ∅ /\
  status_requests w' = [] /\
  result_nodes (document w') = ["Error fetching results; please try again.<br />"].
Proof.
  cbv zeta. split.
  { intros E.
    assert (H : polling_loops Sample.polling !! 2 = None) by (rewrite E; apply lookup_empty).
    vm_compute in H. discriminate H. }
  split; [vm_compute; discriminate |].
  repeat split; vm_compute; reflexivity.
Qed.

(** C4. The three failures are shown with three different texts: a rejected
    create-task request whose body says the worker is locked, any other
    failed create-task request, and a failed status poll. *)
Theorem C4_failure_messages (w : world) (x : xhr) :
  result_nodes (document (exec (_onProjectPostError x) w)) =
    [(if worker_locked x
      then "All workers busy; please try again later."
      else "Unable to start job.") ++ "<br />"] /\
  result_nodes (document (exec _onRunGetError w)) =
    ["Error fetching results; please try again.<br />"] /\
  (forall busy other : xhr,
     worker_locked busy = true -> worker_locked other = false ->
     let shown_busy := result_nodes (document (exec (_onProjectPostError busy) w)) in
     let shown_other := result_nodes (document (exec (_onProjectPostError other) w)) in
     let shown_fetch := result_nodes (document (exec _onRunGetError w)) in
     shown_busy <> shown_other /\ shown_busy <> shown_fetch /\ shown_other <> shown_fetch).
Proof.
  assert (Hpost : forall y,
    result_nodes (document (exec (_onProjectPostError y) w)) =
    [(if worker_locked y then "All workers busy; please try again later."
      else "Unable to start job.") ++ "<br />"]).
  { intros y. unfold _onProjectPostError. apply rendered_setUiStateRunDone. }
  split; [apply Hpost |]. split; [apply rendered_onRunGetError |].
  intros busy other Hb Ho. cbv zeta.
  rewrite !Hpost, rendered_onRunGetError, Hb, Ho.
  repeat split; discriminate.
Qed.

Lemma C4_failure_messages_witness :
  let w := Sample.polling in
  let shown_busy := result_nodes (document (exec (_onProjectPostError Sample.locked) w)) in
  let shown_other := result_nodes (document (exec (_onProjectPostError Sample.failed) w)) in
  let shown_fetch := result_nodes (document (exec _onRunGetError w)) in
  shown_busy <> shown_other /\ shown_busy <> shown_fetch /\ shown_other <> shown_fetch.
Proof.
  exact (proj2 (proj2 (C4_failure_messages Sample.polling Sample.ok))
           Sample.locked Sample.failed eq_refl eq_refl).
Defined.

(** C5, as amended.  The create-task request is a POST whose body is the
    JSON text of an object with exactly the fields [patches], [project] and
    [user_id]: one patch made of the editor's contents and the current file
    name, the loaded project's name, and the constant "some_user"; when
    the file name and the project name are defined, all of them appear in
    the text, in that order; and every request with the create-task
    callbacks that any run of the client sends has that shape. *)
Theorem C5_create_task_request (w : world) (now : Z) :
  let body := task_body w in
  sent (window (exec (_onRunControlClick now) w)) =
    (sent (window w) ++
     [Ajax "/rest/balancer/v1" true "POST" (JSON.stringify body) "json" TaskPost])%list /\
  JS.keys body = ["patches"; "project"; "user_id"] /\
  JS.prop body "patches" =
    Some (VArr [VObj [("contents", VStr (ace_value (editor w)));
                      ("filename", _editorFile (client w))]]) /\
  JS.prop body "project" = Some (_projectName (client w)) /\
  JS.prop body "user_id" = Some (VStr "some_user") /\
  (JSON.is_defined (_editorFile (client w)) = true ->
   JSON.is_defined (_projectName (client w)) = true ->
   JSON.stringify body =
     "{" ++ Str.quote "patches" ++ ":[{" ++
       Str.quote "contents" ++ ":" ++ Str.quote (ace_value (editor w)) ++ "," ++
       Str.quote "filename" ++ ":" ++ JSON.stringify (_editorFile (client w)) ++ "}]," ++
     Str.quote "project" ++ ":" ++ JSON.stringify (_projectName (client w)) ++ "," ++
     Str.quote "user_id" ++ ":" ++ Str.quote "some_user" ++ "}") /\
  forall trace, exists new,
    sent (window (run w trace)) = (sent (window w) ++ new)%list /\
    Forall create_task_request new.
Proof.
  cbv zeta. split; [apply sent_onRunControlClick |].
  do 4 (split; [reflexivity |]). split; [| intros trace; apply sends_run].
  intros Hf Hp. unfold task_body, _makePatch.
  cbn [JSON.stringify List.map JS.join]. rewrite Hf, Hp. cbn [JSON.is_defined JS.join].
  repeat rewrite append_assoc. reflexivity.
Qed.

Lemma C5_create_task_request_witness :
  JSON.stringify (task_body Sample.idle) =
    "{" ++ Str.quote "patches" ++ ":[{" ++
      Str.quote "contents" ++ ":" ++ Str.quote (ace_value (editor Sample.idle)) ++ "," ++
      Str.quote "filename" ++ ":" ++ JSON.stringify (_editorFile (client Sample.idle)) ++
      "}]," ++
    Str.quote "project" ++ ":" ++ JSON.stringify (_projectName (client Sample.idle)) ++ "," ++
    Str.quote "user_id" ++ ":" ++ Str.quote "some_user" ++ "}".
Proof.
  apply (C5_create_task_request Sample.idle 0); reflexivity.
Defined.

(** C5, as stated, fails on the loaded sample page: the body of the request
    has no field [userId]. *)
Lemma C5_counterexample :
  let w' := exec (_onRunControlClick 20) Sample.idle in
  sent (window w') =
    [Ajax "/rest/balancer/v1" true "POST" (JSON.stringify (task_body Sample.idle)) "json"
       TaskPost] /\
  JS.keys (task_body Sample.idle) = ["patches"; "project"; "user_id"] /\
  ~ In "userId" (JS.keys (task_body Sample.idle)) /\
  JS.prop (task_body Sample.idle) "userId" = Some VUndefined.
Proof.
  cbv zeta. rewrite sent_onRunControlClick.
  repeat split. cbn. intros [H | [H | [H | []]]]; discriminate H.
Qed.

(** C6. Once [pollStatus] has returned a terminal record for a ticket,
    every later poll of that ticket returns the same record, until the
    record is collected. *)
Theorem C6_terminal_records_stable (w w' : Worker.worker) (t : string)
    (r : Worker.ResultRecord) :
  Worker.steps Worker.empty w ->
  Worker.steps w w' ->
  Worker.pollStatus t w = Some r ->
  Worker.terminal (Worker.record_status r) = true ->
  Worker.pollStatus t w' = Some r \/ Worker.pollStatus t w' = None.
Proof.
  intros Hreach Hlater Hr Hterm.
  apply (WorkerFacts.terminal_stable w w' Hlater); [| exact Hr | exact Hterm].
  apply (WorkerFacts.sound_steps _ _ Hreach). apply WorkerFacts.sound_empty.
Qed.

Lemma C6_terminal_records_stable_witness :
  Worker.pollStatus "t1" Sample.worker2
    = Some (Worker.Record_ Worker.Complete (Some "abc==") 10) \/
  Worker.pollStatus "t1" Sample.worker2 = None.
Proof.
  apply (C6_terminal_records_stable Sample.worker1 Sample.worker2 "t1").
  - eapply Worker.steps_next.
    + apply (Worker.step_submit "t1" 0 Worker.empty). apply not_elem_of_empty.
    + eapply Worker.steps_next; [apply (Worker.step_finish (Worker.Artifact "abc==") 10) |].
      apply Worker.steps_refl.
  - eapply Worker.steps_next; [| apply Worker.steps_refl].
    apply (Worker.step_submit "t2" 20 Sample.worker1).
    change (Worker.issued Sample.worker1) with ({["t1"]} ∪ (∅ : gset string)).
    intros H. apply elem_of_union in H as [H | H].
    + apply elem_of_singleton in H. discriminate H.
    + exact (not_elem_of_empty _ H).
  - vm_compute. reflexivity.
  - reflexivity.
Defined.

(** C7. There is at most one polling loop: [_startPolling] does nothing
    when a handle is stored; a successful create-task response with no
    handle stored records the start time and starts exactly one loop, on
    the fixed interval; and in every state reached from the freshly loaded
    script the stored handle is non-null exactly while a loop is active,
    and the run start exactly then; [_stopPolling] resets both. *)
Theorem C7_single_polling_loop :
  (forall w ticket now h,
     _runPollingIntervalId (client w) = Some h ->
     let w' := exec (_startPolling ticket now) w in
     client w' = client w /\ timers (window w') = timers (window w)) /\
  (forall w data x now p ticket,
     consistent w ->
     xhr_status x = 200 ->
     JS.prop data "payload" = Some p -> JS.prop p "ticket" = Some ticket ->
     _runPollingIntervalId (client w) = None ->
     let w' := exec (_onProjectPostSuccess data x now) w in
     _runStart (client w') = Some now /\
     _runPollingIntervalId (client w') = Some (next_handle (window w)) /\
     polling_loops w' =
       {[ next_handle (window w) := Timer (Poll ticket) _runPollingIntervalMsec ]}) /\
  (forall w trace, fresh w -> consistent (run w trace)) /\
  (forall w te, consistent w -> consistent (step w te)) /\
  (forall w,
     consistent w ->
     (forall h1 t1 h2 t2,
        polling_loops w !! h1 = Some t1 -> polling_loops w !! h2 = Some t2 -> h1 = h2) /\
     (_runPollingIntervalId (client w) = None <-> polling_loops w = ∅) /\
     (_runStart (client w) = None <-> _runPollingIntervalId (client w) = None)) /\
  (forall w,
     let w' := exec _stopPolling w in
     _runPollingIntervalId (client w') = None /\ _runStart (client w') = None).
Proof.
  refine (conj _ (conj _ (conj _ (conj _ (conj _ _))))).
  - intros w ticket now h Hh w'. subst w'.
    destruct w as [[ef pn sid sst rp pid rs rt] [tm nh snt con ls lh] pg ed].
    cbn in Hh. subst pid. split; reflexivity.
  - intros w data x now p ticket Hc Hs Hp Ht Hnone w'. subst w'. unfold exec.
    rewrite (onProjectPostSuccess_unfold data x now p ticket w Hs Hp Ht).
    pose proof (view_startPolling ticket now w) as Hv. rewrite Hnone in Hv.
    unfold view in Hv. injection Hv as Hid Hst _ _ _.
    split; [exact Hst |]. split; [exact Hid |].
    apply started_loop; assumption.
  - intros w trace Hf. apply consistent_run. apply fresh_consistent. exact Hf.
  - intros w te. apply consistent_step.
  - intros w Hc. split; [| split].
    + intros h1 t1 h2 t2. apply at_most_one_loop. exact Hc.
    + apply loops_empty_iff. exact Hc.
    + exact (start_recorded w Hc).
  - intros w w'. subst w'.
    pose proof (view_stopPolling w) as Hv. unfold view in Hv.
    injection Hv as Hid Hst _ _ _. split; assumption.
Qed.

Lemma C7_single_polling_loop_witness :
  (let w' := exec (_startPolling (VStr "t2") 5000) Sample.polling in
   client w' = client Sample.polling /\
   timers (window w') = timers (window Sample.polling)) /\
  (let w' := exec (_onProjectPostSuccess
                     (VObj [("payload", VObj [("ticket", VStr "t1")])]) Sample.ok 30)
               Sample.idle in
   _runStart (client w') = Some 30 /\
   _runPollingIntervalId (client w') = Some (next_handle (window Sample.idle)) /\
   polling_loops w' =
     {[ next_handle (window Sample.idle) :=
          Timer (Poll (VStr "t1")) _runPollingIntervalMsec ]}) /\
  consistent (step Sample.polling (3100, RunGetError Sample.failed)).
Proof.
  destruct C7_single_polling_loop as (Hnoop & Hstart & _ & Hstep & _).
  split; [| split].
  - exact (Hnoop Sample.polling (VStr "t2") 5000 2 eq_refl).
  - exact (Hstart Sample.idle (VObj [("payload", VObj [("ticket", VStr "t1")])]) Sample.ok 30
             (VObj [("ticket", VStr "t1")]) (VStr "t1") idle_consistent eq_refl eq_refl
             eq_refl eq_refl).
  - exact (Hstep Sample.polling (3100, RunGetError Sample.failed) polling_consistent).
Defined.



(** C9. [_getDeltaSeconds] returns the number 0 when no start is recorded,
    whatever the second date; for a recorded start it returns the elapsed
    seconds rounded to the nearest tenth, as a decimal text that a
    comparison reads back as that number; so with no recorded start the
    timeout test of the poller is false and the status request is
    issued. *)
Theorem C9_getDeltaSeconds :
  (forall to, _getDeltaSeconds None to = SecZero) /\
  (forall from to,
     valid_time from -> valid_time to ->
     let n := elapsed_tenths from to in
     to - from - 50 <= 100 * n <= to - from + 50 /\
     _getDeltaSeconds (Some from) to =
       SecText ((if to - from <? 0 then "-" else "") ++
                Double.digits (Z.abs n / 10) ++ "." ++ Double.digits (Z.abs n mod 10)) /\
     forall k, Seconds.gtb (_getDeltaSeconds (Some from) to) k = (10 * k <? n)) /\
  (forall to, Seconds.gtb (_getDeltaSeconds None to) _runPollingTimeoutSec = false) /\
  (forall w ticket now,
     _runStart (client w) = None ->
     exec (_getRunResults ticket now) w = exec (Window.ajax_send (status_request ticket)) w).
Proof.
  split; [reflexivity |]. split; [exact delta_seconds |]. split; [reflexivity |].
  intros w ticket now Hstart. unfold exec, _getRunResults, bind, gets.
  rewrite Hstart. reflexivity.
Qed.

Lemma C9_getDeltaSeconds_witness :
  (valid_time 1000 /\ valid_time 13340) /\
  (13340 - 1000 - 50 <= 100 * elapsed_tenths 1000 13340 <= 13340 - 1000 + 50 /\
   _getDeltaSeconds (Some 1000) 13340 = SecText "12.3" /\
   Seconds.gtb (_getDeltaSeconds (Some 1000) 13340) 12 = true) /\
  exec (_getRunResults (VStr "t1") 5000) Sample.idle
  = exec (Window.ajax_send (status_request (VStr "t1"))) Sample.idle.
Proof.
  destruct C9_getDeltaSeconds as (_ & Hsome & _ & Hnone).
  assert (H1 : valid_time 1000) by (unfold valid_time; lia).
  assert (H2 : valid_time 13340) by (unfold valid_time; lia).
  split; [split; assumption |]. split.
  - destruct (Hsome 1000 13340 H1 H2) as (Hn & Htext & Hk).
    split; [exact Hn |]. split; [exact Htext |]. rewrite Hk. reflexivity.
  - apply Hnone. reflexivity.
Defined.


(* ===================================================================== *)
(** * Strings: pieces, prefixes and query strings *)
(* ===================================================================== *)

Lemma has_char_app c s t : has_char c (s ++ t) = has_char c s || has_char c t.
Proof.
  induction s as [| a s IH]; [reflexivity |].
  rewrite append_cons. cbn [has_char]. rewrite IH, orb_assoc. reflexivity.
Qed.

Lemma split_cons c a t :
  Str.split c (String a t) =
  match Str.split c t with
  | [] => [String a ""]
  | p :: rest => if Ascii.eqb a c then "" :: p :: rest else String a p :: rest
  end.
Proof. reflexivity. Qed.

Lemma split_nonempty c s : Str.split c s <> [].
Proof.
  destruct s as [| a t]; [discriminate |].
  rewrite split_cons. destruct (Str.split c t); [discriminate |].
  destruct (Ascii.eqb a c); discriminate.
Qed.

(** A string without the separator is one piece. *)
Lemma split_plain c s : has_char c s = false -> Str.split c s = [s].
Proof.
  induction s as [| a t IH]; [reflexivity |].
  cbn [has_char]. intros H. apply orb_false_iff in H as [Ha Ht].
  rewrite split_cons, (IH Ht), Ha. reflexivity.
Qed.

(** The first piece ends at the first separator. *)
Lemma split_app c s t :
  has_char c s = false -> Str.split c (s ++ String c t) = s :: Str.split c t.
Proof.
  induction s as [| a s IH]; intros H.
  - rewrite append_nil_l, split_cons.
    destruct (Str.split c t) eqn:E; [destruct (split_nonempty c t E) |].
    rewrite Ascii.eqb_refl. reflexivity.
  - cbn [has_char] in H. apply orb_false_iff in H as [Ha Hs].
    rewrite append_cons, split_cons, (IH Hs), Ha. reflexivity.
Qed.

(** The last piece starts behind the last separator. *)
Lemma last_split c pre ext :
  has_char c ext = false ->
  List.last (Str.split c (pre ++ String c ext)) "" = ext.
Proof.
  intros Hext.
  assert (H : exists p q r, Str.split c (pre ++ String c ext) = p :: q :: r /\
                            List.last (q :: r) "" = ext).
  { induction pre as [| a pre IH].
    - rewrite append_nil_l, split_cons, (split_plain c ext Hext), Ascii.eqb_refl.
      exists "", ext, []. split; reflexivity.
    - destruct IH as (p & q & r & E & L).
      rewrite append_cons, split_cons, E.
      destruct (Ascii.eqb a c).
      + exists "", p, (q :: r). split; [reflexivity |]. exact L.
      + exists (String a p), q, r. split; [reflexivity |]. exact L. }
  destruct H as (p & q & r & E & L). rewrite E. exact L.
Qed.

Lemma prefix_nil s : String.prefix "" s = true.
Proof. destruct s; reflexivity. Qed.

Lemma prefix_cons a p b s :
  String.prefix (String a p) (String b s) = Ascii.eqb a b && String.prefix p s.
Proof.
  cbn [String.prefix]. destruct (ascii_dec a b) as [-> | Hne].
  - rewrite Ascii.eqb_refl. reflexivity.
  - replace (Ascii.eqb a b) with false by (symmetry; apply Ascii.eqb_neq; exact Hne).
    reflexivity.
Qed.

(** [p] is a prefix of [s] exactly when [s] is [p] followed by something. *)
Lemma prefix_app p s : String.prefix p s = true <-> exists post, s = p ++ post.
Proof.
  revert s. induction p as [| a p IH]; intros s.
  - rewrite prefix_nil. split; [intros _; exists s; reflexivity | reflexivity].
  - destruct s as [| b s].
    + split; [discriminate | intros [post H]; rewrite append_cons in H; discriminate].
    + rewrite prefix_cons, andb_true_iff, Ascii.eqb_eq, IH. split.
      * intros [-> [post ->]]. exists post. reflexivity.
      * intros [post H]. rewrite append_cons in H. injection H as -> ->.
        split; [reflexivity | exists post; reflexivity].
Qed.

Lemma prefix_char c s :
  String.prefix (String c "") s =
  match s with
  | "" => false
  | String a _ => Ascii.eqb a c
  end.
Proof.
  destruct s as [| a t]; [reflexivity |].
  rewrite prefix_cons, prefix_nil, andb_true_r. apply Ascii.eqb_sym.
Qed.

Lemma indexOf_char c s :
  Str.indexOf (String c "") s = None <-> has_char c s = false.
Proof.
  induction s as [| a t IH].
  - cbn. tauto.
  - cbn [Str.indexOf has_char]. rewrite prefix_char.
    destruct (Ascii.eqb a c); cbn [orb].
    + split; discriminate.
    + destruct (Str.indexOf (String c "") t); cbn [option_map].
      * split; [discriminate |]. intros H. apply IH in H. discriminate.
      * split; [intros _; apply IH; reflexivity | reflexivity].
Qed.

Lemma indexOf_unfold needle s :
  Str.indexOf needle s =
  if String.prefix needle s then Some O
  else match s with
       | "" => None
       | String _ t => option_map S (Str.indexOf needle t)
       end.
Proof. destruct s; reflexivity. Qed.

Lemma drop_length_app pre r : Str.drop (String.length pre) (pre ++ r) = r.
Proof.
  induction pre as [| a pre IH]; [destruct r; reflexivity |].
  rewrite append_cons. cbn [String.length Str.drop]. exact IH.
Qed.

(** [indexOf] finds the first occurrence. *)
Lemma indexOf_Some needle s i :
  Str.indexOf needle s = Some i ->
  exists pre post,
    s = pre ++ needle ++ post /\ String.length pre = i /\
    forall pre' post', s = pre' ++ needle ++ post' ->
                       (String.length pre <= String.length pre')%nat.
Proof.
  revert i. induction s as [| a t IH]; intros i; rewrite indexOf_unfold.
  - destruct (String.prefix needle "") eqn:E; [| discriminate].
    intros [= <-]. apply prefix_app in E as [post E].
    exists "", post. split; [exact E |]. split; [reflexivity |]. intros; cbn; lia.
  - destruct (String.prefix needle (String a t)) eqn:E.
    + intros [= <-]. apply prefix_app in E as [post E].
      exists "", post. split; [exact E |]. split; [reflexivity |]. intros; cbn; lia.
    + destruct (Str.indexOf needle t) as [j |]; [| discriminate].
      cbn [option_map]. intros [= <-].
      destruct (IH j eq_refl) as (pre & post & Hs & Hlen & Hmin).
      exists (String a pre), post. rewrite append_cons, <- Hs.
      split; [reflexivity |]. split; [cbn; lia |].
      intros pre' post' H. destruct pre' as [| b pre'].
      * rewrite append_nil_l in H.
        assert (String.prefix needle (String a t) = true)
          by (apply prefix_app; exists post'; exact H).
        congruence.
      * rewrite append_cons in H. injection H as _ H.
        specialize (Hmin pre' post' H). cbn [String.length]. lia.
Qed.

(** [indexOf] fails only when there is no occurrence. *)
Lemma indexOf_None needle s :
  Str.indexOf needle s = None -> forall pre post, s <> pre ++ needle ++ post.
Proof.
  induction s as [| a t IH]; rewrite indexOf_unfold.
  - destruct (String.prefix needle "") eqn:E; [discriminate |]. intros _ pre post H.
    destruct pre as [| b pre]; [| rewrite append_cons in H; discriminate].
    rewrite append_nil_l in H.
    assert (String.prefix needle "" = true) by (apply prefix_app; exists post; exact H).
    congruence.
  - destruct (String.prefix needle (String a t)) eqn:E; [discriminate |].
    destruct (Str.indexOf needle t) as [j |]; [discriminate |].
    intros _ pre post H. destruct pre as [| b pre].
    + rewrite append_nil_l in H.
      assert (String.prefix needle (String a t) = true)
        by (apply prefix_app; exists post; exact H).
      congruence.
    + rewrite append_cons in H. injection H as _ H. exact (IH eq_refl pre post H).
Qed.

Lemma split_pair k v :
  has_char "=" k = false -> has_char "=" v = false ->
  Str.split "=" (k ++ "=" ++ v) = [k; v].
Proof.
  intros Hk Hv. change (k ++ "=" ++ v) with (k ++ String "=" v).
  rewrite (split_app _ _ _ Hk), (split_plain _ _ Hv). reflexivity.
Qed.

Lemma piece_plain kv : plain_pair kv -> has_char "&" (piece kv) = false.
Proof.
  intros (H1 & _ & H3 & _). unfold piece.
  rewrite !has_char_app, H1, H3. reflexivity.
Qed.

Lemma encode_query_cons kv rest :
  rest <> [] -> encode_query (kv :: rest) = piece kv ++ String "&" (encode_query rest).
Proof.
  intros H. destruct kv as [k v], rest as [| kv' rest]; [contradiction |].
  unfold piece. cbn [encode_query fst snd]. rewrite !append_assoc. reflexivity.
Qed.

(** Splitting a query string at [&] gives back its pieces. *)
Lemma split_encode_query kvs :
  kvs <> [] -> Forall plain_pair kvs ->
  Str.split "&" (encode_query kvs) = List.map piece kvs.
Proof.
  induction kvs as [| kv rest IH]; [contradiction |]. intros _ H.
  apply Forall_cons_iff in H as [Hkv Hrest].
  destruct rest as [| kv' rest].
  - destruct kv as [k v]. cbn [encode_query List.map].
    apply (split_plain "&" (piece (k, v))). apply piece_plain. exact Hkv.
  - rewrite encode_query_cons by discriminate.
    rewrite split_app by (apply piece_plain; exact Hkv).
    rewrite IH by (discriminate || exact Hrest). reflexivity.
Qed.

Lemma each_query_pairs kvs : forall acc w,
  Forall plain_pair kvs ->
  each_query (List.map piece kvs) acc w =
  (Normal (rev (List.map (fun kv => (fst kv, VStr (snd kv))) kvs) ++ acc)%list, w).
Proof.
  induction kvs as [| kv rest IH]; intros acc w H; [reflexivity |].
  apply Forall_cons_iff in H as [(_ & Hk & _ & Hv) Hrest].
  cbn [List.map each_query]. unfold piece at 1. rewrite (split_pair _ _ Hk Hv).
  rewrite (IH _ _ Hrest). cbn [rev List.map]. rewrite <- app_assoc. reflexivity.
Qed.

(** An assignment to a key replaces the earlier ones. *)
Lemma assoc_last_value k kvs acc :
  JS.assoc k (rev (List.map (fun kv => (fst kv, VStr (snd kv))) kvs) ++ acc)%list =
  match last_value k kvs with
  | Some v => VStr v
  | None => JS.assoc k acc
  end.
Proof.
  revert acc. induction kvs as [| [k' v] rest IH]; intros acc; [reflexivity |].
  cbn [List.map rev last_value fst snd]. rewrite <- app_assoc, IH.
  destruct (last_value k rest); [reflexivity |].
  cbn [app JS.assoc]. destruct (String.eqb k k'); reflexivity.
Qed.

(** A piece without [=] stops the loop of [_getUrlArgs]. *)
Lemma each_query_bad q qs :
  In q qs -> has_char "=" q = false ->
  forall acc w, each_query qs acc w = (TypeError, w).
Proof.
  intros Hin Hq. induction qs as [| q' qs IH]; [destruct Hin |].
  intros acc w. cbn [each_query].
  destruct Hin as [-> | Hin].
  - rewrite (split_plain _ _ Hq). reflexivity.
  - destruct (Str.split "=" q') as [| k [| v rest]]; try reflexivity.
    apply IH. exact Hin.
Qed.

Lemma each_query_pure qs : forall acc w, snd (each_query qs acc w) = w.
Proof.
  induction qs as [| q qs IH]; intros acc w; [reflexivity |]. cbn [each_query].
  destruct (Str.split "=" q) as [| k [| v rest]]; try reflexivity. apply IH.
Qed.

(* ===================================================================== *)
(** * The page load *)
(* ===================================================================== *)

Lemma getUrlArgs_pairs w kvs :
  kvs <> [] -> Forall plain_pair kvs ->
  location_search (window w) = String "?" (encode_query kvs) ->
  _getUrlArgs w =
  (Normal (VObj (rev (List.map (fun kv => (fst kv, VStr (snd kv))) kvs))), w).
Proof.
  intros Hne Hkvs Hs. unfold _getUrlArgs, bind at 1, gets. rewrite Hs.
  cbn [Str.drop]. rewrite (split_encode_query kvs Hne Hkvs).
  unfold bind. rewrite (each_query_pairs kvs [] w Hkvs), app_nil_r. reflexivity.
Qed.

Lemma getUrlArgs_bad w q :
  In q (Str.split "&" (Str.drop 1 (location_search (window w)))) ->
  has_char "=" q = false ->
  _getUrlArgs w = (TypeError, w).
Proof.
  intros Hin Hq. unfold _getUrlArgs, bind at 1, gets. unfold bind.
  rewrite (each_query_bad q _ Hin Hq). reflexivity.
Qed.

Lemma idle_query :
  location_search (window Sample.idle) = String "?" (encode_query [("project", "Example")]).
Proof. reflexivity. Qed.

Lemma idle_pairs : Forall plain_pair [("project", "Example")].
Proof. repeat constructor. Qed.

(** X1. [_getEditorMode] chooses the editor mode by the extension of the
    loaded file name: the text behind the last dot, or "text" when the
    name has no dot; before a file name is loaded it raises a TypeError.
    It changes nothing. *)
Theorem X1_editor_mode (w : world) :
  (forall s, _editorFile (client w) = VStr s -> has_char "." s = false ->
     _getEditorMode w = (Normal "ace/mode/text", w)) /\
  (forall pre ext, _editorFile (client w) = VStr (pre ++ "." ++ ext) ->
     has_char "." ext = false ->
     _getEditorMode w = (Normal ("ace/mode/" ++ ext), w)) /\
  (_editorFile (client w) = VNull \/ _editorFile (client w) = VUndefined ->
     _getEditorMode w = (TypeError, w)).
Proof.
  unfold _getEditorMode, bind, gets. split; [| split].
  - intros s -> Hs. apply indexOf_char in Hs. rewrite Hs. reflexivity.
  - intros pre ext -> Hext.
    destruct (Str.indexOf "." (pre ++ "." ++ ext)) eqn:E.
    + change (pre ++ "." ++ ext) with (pre ++ String "." ext).
      rewrite (last_split "." pre ext Hext). reflexivity.
    + apply indexOf_char in E. rewrite !has_char_app in E.
      cbn in E. rewrite orb_true_r in E. discriminate.
  - intros [-> | ->]; reflexivity.
Qed.

Lemma X1_editor_mode_witness :
  _getEditorMode Sample.idle = (Normal ("ace/mode/" ++ "xml"), Sample.idle) /\
  _getEditorMode Fixture.unloaded = (TypeError, Fixture.unloaded).
Proof.
  split.
  - apply (proj1 (proj2 (X1_editor_mode Sample.idle)) "/x/Example/app/a"); reflexivity.
  - apply (proj2 (proj2 (X1_editor_mode Fixture.unloaded))). left. reflexivity.
Defined.


(** X3. [_getProjectNameFromUrl] reads the query string back: for a query
    made of [key=value] pairs separated by [&] it returns, undecoded, the
    value of the last pair whose key is "project", and [undefined] when
    there is none.  It changes nothing. *)
Theorem X3_project_name_from_url (w : world) (kvs : list (string * string)) :
  kvs <> [] -> Forall plain_pair kvs ->
  location_search (window w) = String "?" (encode_query kvs) ->
  _getProjectNameFromUrl w =
  (Normal (match last_value "project" kvs with
           | Some v => VStr v
           | None => VUndefined
           end), w).
Proof.
  intros Hne Hkvs Hs. unfold _getProjectNameFromUrl, bind.
  rewrite (getUrlArgs_pairs w kvs Hne Hkvs Hs). unfold access. cbn [JS.prop].
  pose proof (assoc_last_value "project" kvs []) as H. rewrite app_nil_r in H. rewrite H.
  destruct (last_value "project" kvs); reflexivity.
Qed.

Lemma X3_project_name_from_url_witness :
  _getProjectNameFromUrl Sample.idle =
  (Normal (match last_value "project" [("project", "Example")] with
           | Some v => VStr v
           | None => VUndefined
           end), Sample.idle).
Proof.
  apply (X3_project_name_from_url Sample.idle [("project", "Example")]).
  - discriminate.
  - exact idle_pairs.
  - exact idle_query.
Defined.

(** X4. A query string with a piece that has no [=], the empty query
    string among them, makes [_getUrlArgs] raise a TypeError; [main] called
    without a project name then raises too, sends no request and changes
    nothing. *)
Theorem X4_malformed_query (w : world) (q : string) (optProjectName : jsval) :
  In q (Str.split "&" (Str.drop 1 (location_search (window w)))) ->
  has_char "=" q = false ->
  _getUrlArgs w = (TypeError, w) /\
  _getProjectNameFromUrl w = (TypeError, w) /\
  (JS.truthy optProjectName = false -> main optProjectName w = (TypeError, w)).
Proof.
  intros Hin Hq. pose proof (getUrlArgs_bad w q Hin Hq) as H.
  assert (H' : _getProjectNameFromUrl w = (TypeError, w))
    by (unfold _getProjectNameFromUrl, bind; rewrite H; reflexivity).
  split; [exact H |]. split; [exact H' |].
  intros Ho. unfold main. rewrite Ho. unfold bind at 1. rewrite H'. reflexivity.
Qed.

Lemma X4_malformed_query_witness :
  _getUrlArgs Fixture.unloaded = (TypeError, Fixture.unloaded) /\
  main VUndefined Fixture.unloaded = (TypeError, Fixture.unloaded).
Proof.
  destruct (X4_malformed_query Fixture.unloaded "" VUndefined) as (H1 & _ & H3).
  - left. reflexivity.
  - reflexivity.
  - split; [exact H1 |]. apply H3. reflexivity.
Defined.

(** X5. [main] sends exactly one request, a GET to the project endpoint,
    and changes nothing else.  A truthy argument is the project asked for,
    whatever the URL says; without one the project comes from the query
    string, and a query string without a "project" key gives the request
    body [{}]. *)
Theorem X5_main_request (w : world) (optProjectName : jsval) :
  (JS.truthy optProjectName = true ->
     main optProjectName w =
     (Normal tt, exec (Window.ajax_send (project_request optProjectName)) w)) /\
  (forall kvs,
     JS.truthy optProjectName = false ->
     kvs <> [] -> Forall plain_pair kvs ->
     location_search (window w) = String "?" (encode_query kvs) ->
     main optProjectName w =
     (Normal tt,
      exec (Window.ajax_send
              (Ajax "/rest/balancer/v1/project" true "GET"
                 (match last_value "project" kvs with
                  | Some v => "{" ++ Str.quote "project" ++ ":" ++ Str.quote v ++ "}"
                  | None => "{}"
                  end) "json" ProjectGet)) w)).
Proof.
  split.
  - intros Ho. unfold main. rewrite Ho. reflexivity.
  - intros kvs Ho Hne Hkvs Hs. unfold main. rewrite Ho.
    unfold bind at 1, _getProjectNameFromUrl, bind at 1.
    rewrite (getUrlArgs_pairs w kvs Hne Hkvs Hs). unfold access. cbn [JS.prop].
    pose proof (assoc_last_value "project" kvs []) as H. rewrite app_nil_r in H. rewrite H.
    destruct (last_value "project" kvs); unfold ret, Window.ajax_send, exec;
      cbn [JS.assoc JSON.stringify JSON.is_defined JS.join].
    + rewrite !append_assoc. reflexivity.
    + reflexivity.
Qed.

Lemma X5_main_request_witness :
  main (VStr "Other") Sample.idle =
    (Normal tt, exec (Window.ajax_send (project_request (VStr "Other"))) Sample.idle) /\
  main VUndefined Sample.idle =
    (Normal tt,
     exec (Window.ajax_send
             (Ajax "/rest/balancer/v1/project" true "GET"
                (match last_value "project" [("project", "Example")] with
                 | Some v => "{" ++ Str.quote "project" ++ ":" ++ Str.quote v ++ "}"
                 | None => "{}"
                 end) "json" ProjectGet)) Sample.idle).
Proof.
  split.
  - apply (proj1 (X5_main_request Sample.idle (VStr "Other"))). reflexivity.
  - apply (proj2 (X5_main_request Sample.idle VUndefined) [("project", "Example")]).
    + reflexivity.
    + discriminate.
    + exact idle_pairs.
    + exact idle_query.
Defined.



(** X7. A failed project load shows the error with a link to the current
    address, hides the contents and the loading mark, and unbinds every
    click handler of the run control, so a click does nothing afterwards;
    module, timers, requests and editor are untouched.  A response with a
    status other than 200 is handled the same way when its body can be
    read, and is dropped with a TypeError otherwise. *)
Theorem X7_load_failed (w : world) :
  let w' := exec _onProjectGetError w in
  error_nodes (document w') =
    ["<p>Unable to get application data. <a href='" ++ location_href (window w) ++
     "'>Try again?</a>"] /\
  error_shown (document w') = true /\
  contents_shown (document w') = false /\
  loading_shown (document w') = false /\
  click_handlers (document w') = O /\
  client w' = client w /\ window w' = window w /\ editor w' = editor w /\
  (forall x now, step w (now, ProjectGetError x) = w') /\
  (forall data x now,
     xhr_status x <> 200 ->
     step w (now, ProjectGetSuccess data x) =
       match JS.prop data "payload" with Some _ => w' | None => w end) /\
  (forall now, step w' (now, Click) = w').
Proof.
  destruct w as [[ef pn sid sst rp pid rs rt] [tm nh snt con ls lh] pg ed].
  cbn. do 8 (split; [reflexivity |]). split; [reflexivity |]. split; [| reflexivity].
  intros data x now Hx. unfold step, exec, handler, _onProjectGetSuccess. cbn [fst snd].
  replace (xhr_status x =? 200) with false by (symmetry; apply Z.eqb_neq; exact Hx).
  cbn [negb]. unfold access, bind. destruct (JS.prop data "payload"); reflexivity.
Qed.

Lemma X7_load_failed_witness :
  step Sample.idle (5, ProjectGetSuccess Fixture.project_reply Sample.failed) =
    match JS.prop Fixture.project_reply "payload" with
    | Some _ => exec _onProjectGetError Sample.idle
    | None => Sample.idle
    end.
Proof.
  destruct (X7_load_failed Sample.idle) as (_ & _ & _ & _ & _ & _ & _ & _ & _ & H & _).
  apply H. discriminate.
Defined.

(* ===================================================================== *)
(** * The run control *)
(* ===================================================================== *)

Lemma onRunControlClick_normal now w : fst (_onRunControlClick now w) = Normal tt.
Proof.
  destruct w as [[ef pn sid sst rp pid rs rt] [tm nh snt con ls lh] pg ed].
  destruct sid; reflexivity.
Qed.

Lemma dispatch_click_S n now w :
  exec (dispatch_click (S n) now) w =
  exec (dispatch_click n now) (exec (_onRunControlClick now) w).
Proof.
  unfold exec. cbn [dispatch_click]. unfold bind at 1.
  pose proof (onRunControlClick_normal now w) as H.
  destruct (_onRunControlClick now w) as [[[] |] w1]; [reflexivity | discriminate].
Qed.

(** The first handler of a click. *)
Lemma click_first now w :
  let w' := exec (_onRunControlClick now) w in
  sent (window w') = (sent (window w) ++ [task_request (task_body w)])%list /\
  task_body w' = task_body w /\
  control_busy (document w') /\
  _statusUpdateIntervalId (client w') <> None /\
  (_statusUpdateIntervalId (client w) = None ->
     _statusUpdateIntervalId (client w') = Some (next_handle (window w)) /\
     _statusUpdateIntervalStart (client w') = Some now /\
     status_text (document w') =
       "Started run of " ++ JS.tostr (_projectName (client w)) ++ " (0.0s)" /\
     timers (window w') =
       <[next_handle (window w) :=
           Timer (StatusUpdate ("Started run of " ++ JS.tostr (_projectName (client w))))
             _statusUpdateIntervalMsec]> (timers (window w))) /\
  (_statusUpdateIntervalId (client w) <> None ->
     client w' = client w /\ timers (window w') = timers (window w) /\
     status_text (document w') = status_text (document w)).
Proof.
  destruct w as [[ef pn sid sst rp pid rs rt] [tm nh snt con ls lh] pg ed].
  destruct sid as [s |]; cbn.
  all: repeat split; try reflexivity; try discriminate; try congruence.
Qed.

(** A further handler of the same click only sends the request again. *)
Lemma click_again now w :
  _statusUpdateIntervalId (client w) <> None -> control_busy (document w) ->
  exec (_onRunControlClick now) w = exec (Window.ajax_send (task_request (task_body w))) w.
Proof.
  destruct w as [[ef pn sid sst rp pid rs rt] [tm nh snt con ls lh]
                 [cs es lsn en ft rn st gp cr gr ch] ed].
  unfold control_busy. cbn. intros Hs (-> & -> & -> & -> & ->).
  destruct sid; [reflexivity | contradiction].
Qed.

Lemma dispatch_again n now : forall w,
  _statusUpdateIntervalId (client w) <> None -> control_busy (document w) ->
  let w' := exec (dispatch_click n now) w in
  sent (window w') = (sent (window w) ++ repeat (task_request (task_body w)) n)%list /\
  client w' = client w /\ document w' = document w /\ editor w' = editor w /\
  timers (window w') = timers (window w) /\
  next_handle (window w') = next_handle (window w).
Proof.
  induction n as [| n IH]; intros w Hs Hb.
  - cbn. rewrite app_nil_r. repeat split; reflexivity.
  - cbv zeta. rewrite dispatch_click_S, (click_again now w Hs Hb).
    set (w1 := exec (Window.ajax_send (task_request (task_body w))) w).
    destruct (IH w1 Hs Hb) as (H1 & H2 & H3 & H4 & H5 & H6).
    rewrite H1, H2, H3, H4, H5, H6. cbn [repeat].
    repeat split; try reflexivity.
    subst w1. cbn. rewrite <- app_assoc. reflexivity.
Qed.

(** A click runs every bound handler. *)
Lemma click_effect w now :
  let n := click_handlers (document w) in
  let w' := step w (now, Click) in
  sent (window w') = (sent (window w) ++ repeat (task_request (task_body w)) n)%list /\
  task_body w' = task_body w /\
  (n = O -> w' = w) /\
  (n <> O ->
     control_busy (document w') /\
     _statusUpdateIntervalId (client w') <> None /\
     (_statusUpdateIntervalId (client w) = None ->
        _statusUpdateIntervalStart (client w') = Some now /\
        status_text (document w') =
          "Started run of " ++ JS.tostr (_projectName (client w)) ++ " (0.0s)" /\
        timers (window w') =
          <[next_handle (window w) :=
              Timer (StatusUpdate ("Started run of " ++ JS.tostr (_projectName (client w))))
                _statusUpdateIntervalMsec]> (timers (window w)))).
Proof.
  cbv zeta.
  assert (Hstep : step w (now, Click) =
                  exec (dispatch_click (click_handlers (document w)) now) w) by reflexivity.
  rewrite Hstep. clear Hstep. destruct (click_handlers (document w)) as [| n].
  - cbn. rewrite app_nil_r. split; [reflexivity |]. split; [reflexivity |].
    split; [reflexivity |]. intros H. contradiction.
  - rewrite dispatch_click_S.
    destruct (click_first now w) as (H1 & H2 & H3 & H4 & H5 & H6). cbv zeta in *.
    set (w1 := exec (_onRunControlClick now) w) in *.
    destruct (dispatch_again n now w1 H4 H3) as (G1 & G2 & G3 & G4 & G5 & G6).
    cbv zeta in *. set (w2 := exec (dispatch_click n now) w1) in *.
    split; [| split; [| split]].
    + rewrite G1, H1, H2, <- app_assoc. reflexivity.
    + unfold task_body in *. rewrite G2, G4. exact H2.
    + discriminate.
    + intros _. rewrite G3, G2. split; [exact H3 |]. split; [exact H4 |].
      intros Hs. destruct (H5 Hs) as (_ & K2 & K3 & K4).
      rewrite G5. split; [| split]; assumption.
Qed.

Lemma failure_step w now e :
  run_failure e = true ->
  let w' := step w (now, e) in
  click_handlers (document w') = S (click_handlers (document w)) /\
  sent (window w') = sent (window w) /\
  task_body w' = task_body w.
Proof.
  destruct w as [[ef pn sid sst rp pid rs rt] [tm nh snt con ls lh] pg ed].
  destruct e; try discriminate; intros _.
  - destruct sid; cbn; repeat split; reflexivity.
  - destruct pid, sid; cbn; repeat split; reflexivity.
Qed.

Lemma failures_run trace : forall w,
  Forall (fun te => run_failure (snd te) = true) trace ->
  let w' := run w trace in
  click_handlers (document w') = (length trace + click_handlers (document w))%nat /\
  sent (window w') = sent (window w) /\
  task_body w' = task_body w.
Proof.
  induction trace as [| [now e] trace IH]; intros w H.
  - repeat split; reflexivity.
  - apply Forall_cons_iff in H as [He H]. cbn [snd] in He.
    destruct (failure_step w now e He) as (H1 & H2 & H3).
    destruct (IH (step w (now, e)) H) as (G1 & G2 & G3).
    cbv zeta in *. change (run w ((now, e) :: trace)) with (run (step w (now, e)) trace).
    rewrite G1, G2, G3, H1, H2, H3. repeat split; try reflexivity.
    cbn [length]. lia.
Qed.





(* ===================================================================== *)
(** * Timers *)
(* ===================================================================== *)

(** In a consistent state with neither handle stored no timer is active. *)
Lemma no_timers w :
  consistent w ->
  _runPollingIntervalId (client w) = None -> _statusUpdateIntervalId (client w) = None ->
  timers (window w) = ∅.
Proof.
  intros Hc Hp Hs. apply map_eq. intros h. rewrite lookup_empty.
  destruct (timers (window w) !! h) as [t |] eqn:Ht; [| reflexivity].
  destruct (polls t) eqn:Hpoll.
  - pose proof (poll_active w Hc h t Ht Hpoll). congruence.
  - pose proof (status_active w Hc h t Ht Hpoll). congruence.
Qed.

Lemma consistent_exec_end_run status message w :
  consistent w ->
  consistent (exec (_stopPolling ;; _clearRun ;; _setUiStateRunDone status (Some message)) w).
Proof.
  intros Hc. unfold exec.
  apply preserves_bind with (P := consistent); [exact consistent_stopPolling | | exact Hc].
  intros _. apply preserves_bind with (P := consistent).
  - apply keeps_preserves; [exact consistent_view | exact keeps_clearRun].
  - intros _. apply preserves_setUiStateRunDone.
    + exact consistent_view.
    + exact consistent_stopStatusUpdates.
Qed.

Lemma consistent_exec_give_up message w :
  consistent w ->
  consistent (exec (_stopPolling ;; _setUiStateRunDone "Ready" (Some message)) w).
Proof.
  intros Hc. unfold exec.
  apply preserves_bind with (P := consistent); [exact consistent_stopPolling | | exact Hc].
  intros _. apply preserves_setUiStateRunDone.
  - exact consistent_view.
  - exact consistent_stopStatusUpdates.
Qed.

Lemma tick_status w h prefix delay now :
  timers (window w) !! h = Some (Timer (StatusUpdate prefix) delay) ->
  step w (now, Tick h) =
  exec (_setStatus
          (prefix ++ " (" ++
           Seconds.tostr (_getDeltaSeconds (_statusUpdateIntervalStart (client w)) now) ++
           "s)")) w.
Proof.
  intros Hh. unfold step, exec, handler. cbn [fst snd].
  unfold bind at 1, gets at 1. rewrite Hh. reflexivity.
Qed.

Lemma tick_poll w h ticket delay start now :
  timers (window w) !! h = Some (Timer (Poll ticket) delay) ->
  _runStart (client w) = Some start ->
  valid_time start -> valid_time now -> now - start <= 90050 ->
  step w (now, Tick h) = exec (Window.ajax_send (status_request ticket)) w.
Proof.
  intros Hh Hstart Hvs Hvn Hearly.
  unfold step, exec, handler. cbn [fst snd].
  unfold bind at 1, gets at 1. rewrite Hh.
  unfold fire. cbn [timer_callback].
  rewrite getRunResults_unfold, Hstart, (timed_out_iff start now Hvs Hvn).
  replace (90050 <? now - start) with false by (symmetry; apply Z.ltb_ge; lia).
  reflexivity.
Qed.

Lemma ticks_poll times : forall w h ticket delay start,
  timers (window w) !! h = Some (Timer (Poll ticket) delay) ->
  _runStart (client w) = Some start ->
  valid_time start ->
  Forall (fun t => valid_time t /\ t - start <= 90050) times ->
  let w' := run w (List.map (fun t => (t, Tick h)) times) in
  sent (window w') =
    (sent (window w) ++ repeat (status_request ticket) (length times))%list /\
  timers (window w') = timers (window w) /\ client w' = client w /\
  document w' = document w /\ editor w' = editor w.
Proof.
  induction times as [| t times IH]; intros w h ticket delay start Hh Hstart Hvs Hall.
  - cbn. rewrite app_nil_r. repeat split; reflexivity.
  - apply Forall_cons_iff in Hall as [[Hvt Ht] Hall]. cbv zeta. cbn [List.map].
    change (run w ((t, Tick h) :: List.map (fun t => (t, Tick h)) times))
      with (run (step w (t, Tick h)) (List.map (fun t => (t, Tick h)) times)).
    rewrite (tick_poll w h ticket delay start t Hh Hstart Hvs Hvt Ht).
    set (w1 := exec (Window.ajax_send (status_request ticket)) w).
    destruct (IH w1 h ticket delay start Hh Hstart Hvs Hall) as (H1 & H2 & H3 & H4 & H5).
    cbv zeta in *. rewrite H1, H2, H3, H4, H5. subst w1. cbn.
    rewrite <- app_assoc. repeat split; reflexivity.
Qed.

Lemma two_timers w : consistent w -> (size (timers (window w)) <= 2)%nat.
Proof.
  intros Hc.
  set (keys := (match _runPollingIntervalId (client w) with
                | Some h => {[h]} | None => ∅ end) ∪
               (match _statusUpdateIntervalId (client w) with
                | Some h => {[h]} | None => ∅ end) : gset Z).
  assert (Hsub : dom (timers (window w)) ⊆ keys).
  { intros h Hh. apply elem_of_dom in Hh as [t Ht]. subst keys.
    destruct (polls t) eqn:Hpoll.
    - rewrite (poll_active w Hc h t Ht Hpoll). set_solver.
    - rewrite (status_active w Hc h t Ht Hpoll). set_solver. }
  rewrite <- size_dom. apply subseteq_size in Hsub.
  assert (Hkeys : (size keys <= 2)%nat); [| lia].
  subst keys. rewrite size_union_alt.
  match goal with
  | |- (size ?X + size (?Y ∖ ?X) <= 2)%nat =>
      assert (Hd : (size (Y ∖ X) <= size Y)%nat)
        by (apply subseteq_size, subseteq_difference_l; reflexivity)
  end.
  destruct (_runPollingIntervalId (client w)), (_statusUpdateIntervalId (client w));
    rewrite ?size_singleton, ?size_empty in *; lia.
Qed.

Lemma valid_time_small t : 0 <= t <= 1000000 -> valid_time t.
Proof. unfold valid_time. lia. Qed.





(** X12. The ticket of the create-task response is the ticket of the
    polls: a response with status 200 received while no polling loop is
    stored sends nothing itself, and each firing of the loop it starts,
    up to 90.050 s after the response, sends one status request for the
    ticket of that response and nothing else. *)
Theorem X12_polls_carry_ticket (w : world) (data : jsval) (x : xhr) (p ticket : jsval)
    (t0 : Z) (times : list Z) :
  xhr_status x = 200 ->
  JS.prop data "payload" = Some p -> JS.prop p "ticket" = Some ticket ->
  _runPollingIntervalId (client w) = None ->
  valid_time t0 ->
  Forall (fun t => valid_time t /\ t - t0 <= 90050) times ->
  let w1 := step w (t0, TaskPostSuccess data x) in
  let w2 := run w1 (List.map (fun t => (t, Tick (next_handle (window w)))) times) in
  sent (window w1) = sent (window w) /\
  sent (window w2) =
    (sent (window w) ++ repeat (status_request ticket) (length times))%list.
Proof.
  intros Hx Hp Ht Hnone Hv0 Hall. cbv zeta.
  assert (Hstep : step w (t0, TaskPostSuccess data x) = exec (_startPolling ticket t0) w).
  { unfold step, exec, handler. cbn [fst snd].
    rewrite (onProjectPostSuccess_unfold data x t0 p ticket w Hx Hp Ht). reflexivity. }
  rewrite Hstep. set (w1 := exec (_startPolling ticket t0) w).
  assert (H1 : sent (window w1) = sent (window w) /\
               timers (window w1) !! next_handle (window w) =
                 Some (Timer (Poll ticket) _runPollingIntervalMsec) /\
               _runStart (client w1) = Some t0).
  { subst w1. destruct w as [[ef pn sid sst rp pid rs rt] [tm nh snt con ls lh] pg ed].
    cbn in Hnone. subst pid. cbn. split; [reflexivity |]. split; [| reflexivity].
    apply lookup_insert_eq. }
  destruct H1 as (Hsent & Htimer & Hstart). split; [exact Hsent |].
  destruct (ticks_poll times w1 _ ticket _ t0 Htimer Hstart Hv0 Hall) as (H & _).
  cbv zeta in H. rewrite H, Hsent. reflexivity.
Qed.

Lemma X12_polls_carry_ticket_witness :
  let w1 := step Sample.idle (100, TaskPostSuccess Fixture.ticket_reply Sample.ok) in
  let w2 := run w1 (List.map (fun t => (t, Tick (next_handle (window Sample.idle))))
                      [3100; 6100]) in
  sent (window w1) = sent (window Sample.idle) /\
  sent (window w2) =
    (sent (window Sample.idle) ++
     repeat (status_request (VStr "t1")) (length [3100; 6100]))%list.
Proof.
  apply (X12_polls_carry_ticket Sample.idle Fixture.ticket_reply Sample.ok
           (VObj [("ticket", VStr "t1")]) (VStr "t1") 100 [3100; 6100]).
  - reflexivity.
  - reflexivity.
  - reflexivity.
  - reflexivity.
  - apply valid_time_small. lia.
  - repeat constructor; try (apply valid_time_small; lia); lia.
Defined.

(* ===================================================================== *)
(** * Invariants of every run *)
(* ===================================================================== *)

Ltac invariant_leaf :=
  let w := fresh "w" in
  let H := fresh "H" in
  intros w H;
  destruct w as [[? ? ? ? ? ? ? ?] [? ? ? ? ? ?] [? ? ? ? ? ? ? ? ? ? ?] [? ? ? ?]];
  unfold run_cleared, control_shape in *;
  first
    [ cbn in *; solve [intuition (try congruence; try discriminate)]
    | repeat match goal with
             | x : option Z |- _ => destruct x
             end;
      cbn in *; solve [intuition (try congruence; try discriminate)] ].

Ltac invariant_step :=
  lazymatch goal with
  | |- preserves _ (bind _ _) => apply preserves_bind; [| intros ?]
  | |- preserves _ (access _ _) => unfold access
  | |- preserves _ (match ?x with _ => _ end) => destruct x
  | |- preserves _ _ => first [ solve [auto] | solve [invariant_leaf] ]
  end.

Ltac invariant_unfold :=
  unfold handler, fire, main, status_update, _onProjectGetSuccess, _onProjectGetError,
    _onProjectPostSuccess, _onProjectPostError, _onRunGetSuccess, _onRunGetError,
    _getRunResults, _onRunControlClick,
    _setUiStateReady, _setUiStateInitialLoadFailed,
    _configureEditor, _getEditorMode,
    _getFilename, _setFilename, _setEditorContents, _setError, _setStatus, _clearRun,
    _clearResult, _addResult, _getProjectNameFromUrl, _getUrlArgs.

Lemma preserves_each_query P qs acc : preserves P (each_query qs acc).
Proof. intros w H. rewrite each_query_pure. exact H. Qed.

Lemma run_cleared_click now : preserves run_cleared (_onRunControlClick now).
Proof. invariant_leaf. Qed.

Lemma run_cleared_dispatch n now : preserves run_cleared (dispatch_click n now).
Proof.
  pose proof run_cleared_click.
  induction n as [| n IH]; cbn [dispatch_click]; repeat invariant_step.
Qed.

Lemma run_cleared_handler e now : preserves run_cleared (handler e now).
Proof.
  pose proof run_cleared_dispatch. pose proof (preserves_each_query run_cleared).
  destruct e; invariant_unfold; repeat invariant_step.
Qed.

Lemma control_shape_click now : preserves control_shape (_onRunControlClick now).
Proof. invariant_leaf. Qed.

Lemma control_shape_dispatch n now : preserves control_shape (dispatch_click n now).
Proof.
  pose proof control_shape_click.
  induction n as [| n IH]; cbn [dispatch_click]; repeat invariant_step.
Qed.

Lemma control_shape_handler e now : preserves control_shape (handler e now).
Proof.
  pose proof control_shape_dispatch. pose proof (preserves_each_query control_shape).
  destruct e; invariant_unfold; repeat invariant_step.
Qed.

Lemma sends_dispatch Q n now :
  sends Q (_onRunControlClick now) -> sends Q (dispatch_click n now).
Proof.
  intros H. induction n as [| n IH]; cbn [dispatch_click]; repeat sends_step.
Qed.

Lemma sends_click Q now :
  (forall body, Q (task_request body)) -> sends Q (_onRunControlClick now).
Proof.
  intros H w. eexists. split; [apply sent_onRunControlClick |].
  repeat constructor. apply (H (task_body w)).
Qed.

(** Every handler sends only the requests of its event. *)
Lemma sends_own_kind e now : sends (sent_by e) (handler e now).
Proof.
  pose proof (sends_each_query (sent_by e)).
  destruct e; sends_unfold; repeat sends_step;
    try (apply sends_ajax_send; unfold sent_by, well_addressed; cbn; repeat split).
  apply sends_dispatch, sends_click. intros body.
  unfold sent_by, well_addressed. cbn. repeat split.
Qed.

Lemma filter_status_new Q new :
  Forall Q new -> (forall r, Q r -> is_status_request r = false) ->
  List.filter is_status_request new = [].
Proof.
  intros Hall HQ. induction Hall as [| r new Hr _ IH]; [reflexivity |].
  cbn [List.filter]. rewrite (HQ r Hr). exact IH.
Qed.

Lemma unloaded_fresh : fresh Fixture.unloaded.
Proof. split; reflexivity. Qed.

(** X13. The module never stores a ticket or a payload: no handler writes
    anything but [null] to [_runTicket] and [_runPayload], so both are
    [null] in every state reached from one where they are, the freshly
    loaded script for one. *)
Theorem X13_ticket_never_stored (w : world) (trace : list (Z * event)) :
  _runTicket (client w) = VNull -> _runPayload (client w) = VNull ->
  _runTicket (client (run w trace)) = VNull /\ _runPayload (client (run w trace)) = VNull.
Proof.
  intros Ht Hp. assert (H : run_cleared w) by (split; assumption). clear Ht Hp.
  revert w H. induction trace as [| te trace IH]; intros w H; [exact H |].
  apply (IH (step w te)). apply run_cleared_handler. exact H.
Qed.

Lemma X13_ticket_never_stored_witness :
  _runTicket (client (run Sample.polling Fixture.two_failures)) = VNull /\
  _runPayload (client (run Sample.polling Fixture.two_failures)) = VNull.
Proof.
  apply (X13_ticket_never_stored Sample.polling Fixture.two_failures); reflexivity.
Defined.



(** X15. Every event sends only requests of its own kind: the page load
    only project requests, a click only create-task requests, a timer
    only status requests, each a cross-domain JSON request to the address
    and with the method of its kind; the completion of a request,
    successful or failed and whatever it carries, sends nothing, and
    neither does an edit. *)
Theorem X15_requests_by_event (w : world) (now : Z) (e : event) :
  (exists new,
     sent (window (step w (now, e))) = (sent (window w) ++ new)%list /\
     Forall (sent_by e) new) /\
  (request_kind e = None -> sent (window (step w (now, e))) = sent (window w)).
Proof.
  destruct (sends_own_kind e now w) as (new & Hnew & Hall). split.
  - exists new. split; [exact Hnew | exact Hall].
  - intros He. unfold step, exec. cbn [fst snd]. rewrite Hnew.
    destruct new as [| r new]; [apply app_nil_r |].
    apply Forall_cons_iff in Hall as [[Hk _] _]. congruence.
Qed.

Lemma X15_requests_by_event_witness :
  sent (window (step Sample.polling (3100, RunGetError Sample.failed))) =
  sent (window Sample.polling).
Proof.
  apply (proj2 (X15_requests_by_event Sample.polling 3100 (RunGetError Sample.failed))).
  reflexivity.
Defined.

(** X16. The client never has more than two timers running: in every
    state reached from the freshly loaded script the active timers are at
    most the polling loop and the elapsed-time ticker. *)
Theorem X16_at_most_two_timers (w : world) (trace : list (Z * event)) :
  fresh w -> (size (timers (window (run w trace))) <= 2)%nat.
Proof.
  intros Hf. apply two_timers. apply consistent_run. apply fresh_consistent. exact Hf.
Qed.

Lemma X16_at_most_two_timers_witness :
  (size (timers (window (run Fixture.unloaded Fixture.load_and_click))) <= 2)%nat.
Proof.
  apply (X16_at_most_two_timers Fixture.unloaded Fixture.load_and_click).
  exact unloaded_fresh.
Defined.

(** X17. A create-task response with a status other than 200 that reaches
    the success callback is shown as a failed start: the busy text when the
    body says the worker is locked, the generic text otherwise, under the
    status "Ready"; the ticker is stopped, one more click handler is bound,
    no polling loop is started and nothing is sent.  When the parsed body
    is null or undefined the callback stops at a TypeError and nothing
    changes at all. *)
Theorem X17_create_task_rejected (w : world) (data : jsval) (x : xhr) (now : Z) :
  xhr_status x <> 200 ->
  let w' := step w (now, TaskPostSuccess data x) in
  match JS.prop data "payload" with
  | Some _ =>
      w' = exec (_onProjectPostError x) w /\
      result_nodes (document w') =
        [(if worker_locked x
          then "All workers busy; please try again later."
          else "Unable to start job.") ++ "<br />"] /\
      status_text (document w') = "Ready" /\
      click_handlers (document w') = S (click_handlers (document w)) /\
      _statusUpdateIntervalId (client w') = None /\
      _runPollingIntervalId (client w') = _runPollingIntervalId (client w) /\
      _runStart (client w') = _runStart (client w) /\
      sent (window w') = sent (window w)
  | None => w' = w
  end.
Proof.
  intros Hx. cbv zeta. unfold step, exec, handler, _onProjectPostSuccess. cbn [fst snd].
  replace (xhr_status x =? 200) with false by (symmetry; apply Z.eqb_neq; exact Hx).
  cbn [negb]. unfold access, bind at 1.
  destruct (JS.prop data "payload"); [| reflexivity].
  unfold ret at 1. unfold _onProjectPostError.
  destruct w as [[ef pn sid sst rp pid rs rt] [tm nh snt con ls lh] pg ed].
  destruct sid; cbn; repeat split; reflexivity.
Qed.

Lemma X17_create_task_rejected_witness :
  let w' := step Sample.polling (3100, TaskPostSuccess Fixture.ticket_reply Sample.locked) in
  match JS.prop Fixture.ticket_reply "payload" with
  | Some _ =>
      w' = exec (_onProjectPostError Sample.locked) Sample.polling /\
      result_nodes (document w') =
        [(if worker_locked Sample.locked
          then "All workers busy; please try again later."
          else "Unable to start job.") ++ "<br />"] /\
      status_text (document w') = "Ready" /\
      click_handlers (document w') = S (click_handlers (document Sample.polling)) /\
      _statusUpdateIntervalId (client w') = None /\
      _runPollingIntervalId (client w') = _runPollingIntervalId (client Sample.polling) /\
      _runStart (client w') = _runStart (client Sample.polling) /\
      sent (window w') = sent (window Sample.polling)
  | None => w' = Sample.polling
  end.
Proof.
  apply (X17_create_task_rejected Sample.polling Fixture.ticket_reply Sample.locked 3100).
  discriminate.
Defined.

(** X18. The client polls only while a polling loop is stored: in a state
    that satisfies the polling invariant and stores no polling handle, no
    event at all makes it send a status request. *)
Theorem X18_no_poll_without_loop (w : world) (now : Z) (e : event) :
  consistent w -> _runPollingIntervalId (client w) = None ->
  status_requests (step w (now, e)) = status_requests w.
Proof.
  intros Hc Hp. unfold status_requests.
  assert (Hother : (forall h, e <> Tick h) ->
                   List.filter is_status_request (sent (window (step w (now, e)))) =
                   List.filter is_status_request (sent (window w))).
  { intros Hne. destruct (sends_own_kind e now w) as (new & Hnew & Hall).
    unfold step, exec. cbn [fst snd]. rewrite Hnew, List.filter_app.
    rewrite (filter_status_new _ new Hall); [apply app_nil_r |].
    intros r [Hk _]. unfold is_status_request.
    destruct e; cbn in Hk; try discriminate; injection Hk as <-; try reflexivity.
    destruct (Hne handle eq_refl). }
  destruct e; try (apply Hother; discriminate).
  destruct (timers (window w) !! handle) as [t |] eqn:Ht.
  - destruct t as [[prefix | ticket] delay].
    + rewrite (tick_status w handle prefix delay now Ht). reflexivity.
    + pose proof (poll_active w Hc handle _ Ht eq_refl). congruence.
  - rewrite (tick_inactive handle now w Ht). reflexivity.
Qed.

Lemma X18_no_poll_without_loop_witness :
  status_requests (step Sample.idle (3000, Tick 2)) = status_requests Sample.idle.
Proof.
  apply (X18_no_poll_without_loop Sample.idle 3000 (Tick 2)).
  - exact idle_consistent.
  - reflexivity.
Defined.

(** X19. The elapsed time never runs backwards: for a recorded start, the
    tenths of a second that [_getDeltaSeconds] prints do not decrease when
    the clock advances, so a comparison [delta > k] that holds at one time
    holds at every later time; once the poller has found a run timed out,
    it finds it timed out at any later tick. *)
Theorem X19_elapsed_monotone (from t1 t2 : Z) :
  valid_time from -> valid_time t1 -> valid_time t2 -> t1 <= t2 ->
  elapsed_tenths from t1 <= elapsed_tenths from t2 /\
  forall k, Seconds.gtb (_getDeltaSeconds (Some from) t1) k = true ->
            Seconds.gtb (_getDeltaSeconds (Some from) t2) k = true.
Proof.
  intros Hf H1 H2 Hle.
  destruct (delta_seconds from t1 Hf H1) as (Hn1 & _ & Hk1).
  destruct (delta_seconds from t2 Hf H2) as (Hn2 & _ & Hk2).
  cbv zeta in *.
  assert (Hmono : elapsed_tenths from t1 <= elapsed_tenths from t2).
  { destruct (Z.eq_dec t1 t2) as [-> | Hne]; [reflexivity | lia]. }
  split; [exact Hmono |].
  intros k. rewrite Hk1, Hk2, !Z.ltb_lt. lia.
Qed.

Lemma X19_elapsed_monotone_witness :
  elapsed_tenths 0 90051 <= elapsed_tenths 0 93000 /\
  forall k, Seconds.gtb (_getDeltaSeconds (Some 0) 90051) k = true ->
            Seconds.gtb (_getDeltaSeconds (Some 0) 93000) k = true.
Proof.
  apply (X19_elapsed_monotone 0 90051 93000).
  - apply valid_time_small. lia.
  - apply valid_time_small. lia.
  - apply valid_time_small. lia.
  - lia.
Defined.
